(** * Fin-Tracker: the adaptive expense classifier and its stores

    A shallow embedding of [app/classifier.py], [app/taxonomy.py],
    [app/categories.py], the engine tables of [app/db.py] and the handlers of
    [app/bot.py] that read or write them, followed by the properties of the
    classification engine.

    Conventions of the embedding.
    - A Python [str] is the list of its code points ([list N]); literals are
      written as UTF-8 Rocq strings and decoded by [Py.lit].
    - A Python [float] is an exact rational ([Q]).  Every float the engine
      computes is a short decimal (scores are sums of 1.0 and 0.35, confidences
      have four decimals before rounding), so comparisons and two-decimal
      rounding agree with the exact values.
    - The Unicode tables of the Python runtime (case mapping, white space,
      decimal digits) and the [int] constructor are parameters, grouped in
      [Py.Runtime]; [Py.RuntimeLaws] states the facts about them that the
      proofs use, and [Tables.basic] is an instance covering the Basic Latin
      and Cyrillic blocks on which the functions can be evaluated.
    - Each [Database] method opens its own connection and commits, so a handler
      is a function from a database state to an outcome and a new state.
      Time stamps ([spent_at], [created_at], [updated_at]) are left out: the
      handlers modelled here do not read them.
    - The engine comes first: the classifier, its tables and the handlers
      that read or write them ([Db], [Bot]).  The rest of the bot follows:
      all the settings ([FullConfig]), the tables [users] and
      [group_settings] with the list of last expenses ([GroupDb]), and the
      keyboards, the settings handlers and the whole dispatcher ([App]),
      which runs the handlers of [Bot] on the engine tables.  The clock, the
      time zone database behind the reminder worker, the reports by day and
      month and the web API are not modelled. *)

From Stdlib Require Import ZArith NArith QArith Qround Lqa List String Ascii Lia.
From Stdlib Require Import Permutation Sorting.Sorted.
From Stdlib Require Import DecimalPos.
From stdpp Require Import base option list gmap.
Import ListNotations.

#[local] Open Scope Z_scope.

(* ================================================================== *)
(** * Python strings *)
(* ================================================================== *)

Module Py.

Abbreviation str := (list N).

(** The part of the Python runtime the program relies on. *)
Class Runtime := {
  (** [str.lower], code point by code point (the full lower-case mapping;
      one code point may map to several).  The single context-sensitive
      rule of [str.lower], final sigma, chooses between two Greek letters
      that the classifier's character class rejects alike. *)
  lower_char : N -> list N;
  (** [Py_UNICODE_ISSPACE]: the white space of [str.strip], [str.split]
      and of the regular-expression class [\s]. *)
  isspace : N -> bool;
  (** Code points outside [a-z], [а-я] and [0-9] that the class
      [[a-zа-я0-9]] accepts as well under [re.IGNORECASE]. *)
  ignorecase_alnum : N -> bool;
  (** The value of a Unicode decimal digit ([\d]), [None] for any other
      code point. *)
  digit_value : N -> option N;
  (** [int(s)]; [None] stands for [ValueError]. *)
  int_of_str : list N -> option Z;
}.

(** Facts about the Unicode tables: the blank is white space, white space
    has no case, and lower-casing yields code points that are themselves
    lower-case. *)
Class RuntimeLaws (R : Runtime) : Prop := {
  isspace_blank : isspace 32 = true;
  lower_space : forall c, isspace c = true -> lower_char c = [c];
  lower_stable : forall c d, In d (lower_char c) -> lower_char d = [d];
}.

(** ** Literals *)

Fixpoint of_utf8 (bs : list N) : str :=
  match bs with
  | [] => []
  | b0 :: t0 =>
    if (b0 <? 0x80)%N then b0 :: of_utf8 t0 else
    match t0 with
    | [] => []
    | b1 :: t1 =>
      if (b0 <? 0xE0)%N then ((b0 mod 32) * 64 + b1 mod 64)%N :: of_utf8 t1 else
      match t1 with
      | [] => []
      | b2 :: t2 =>
        if (b0 <? 0xF0)%N
        then ((b0 mod 16) * 4096 + (b1 mod 64) * 64 + b2 mod 64)%N :: of_utf8 t2
        else
        match t2 with
        | [] => []
        | b3 :: t3 =>
          ((b0 mod 8) * 262144 + (b1 mod 64) * 4096 + (b2 mod 64) * 64 + b3 mod 64)%N
            :: of_utf8 t3
        end
      end
    end
  end.

Definition lit (s : string) : str :=
  of_utf8 (map N_of_ascii (list_ascii_of_string s)).
Arguments lit s%_string.

(** ** Methods of [str] that do not depend on the Unicode tables *)

(** [s.startswith(p)] *)
Fixpoint startswith (p s : str) : bool :=
  match p, s with
  | [], _ => true
  | _ :: _, [] => false
  | a :: p', b :: s' => bool_decide (a = b) && startswith p' s'
  end.

(** [w in s] *)
Fixpoint contains (w s : str) : bool :=
  startswith w s ||
  match s with
  | [] => false
  | _ :: s' => contains w s'
  end.

(** [s.lstrip(chars)] and [s.rstrip(chars)], the set given as a predicate. *)
Fixpoint lstrip_by (p : N -> bool) (s : str) : str :=
  match s with
  | [] => []
  | c :: s' => if p c then lstrip_by p s' else s
  end.

Fixpoint rstrip_by (p : N -> bool) (s : str) : str :=
  match s with
  | [] => []
  | c :: s' =>
    match rstrip_by p s' with
    | [] => if p c then [] else [c]
    | r => c :: r
    end
  end.

Definition strip_by (p : N -> bool) (s : str) : str := rstrip_by p (lstrip_by p s).

(** [s.strip(chars)] *)
Definition strip_chars (chars s : str) : str :=
  strip_by (fun c => bool_decide (c ∈ chars)) s.

(** [s.replace(old, new)] for a non-empty [old]: occurrences are replaced
    from left to right without overlap; [skip] counts the code points of
    the current occurrence still to be dropped. *)
Fixpoint replace_from (old new : str) (skip : nat) (s : str) : str :=
  match s with
  | [] => []
  | c :: s' =>
    match skip with
    | S k => replace_from old new k s'
    | O =>
      if startswith old s
      then new ++ replace_from old new (Nat.pred (length old)) s'
      else c :: replace_from old new 0 s'
    end
  end.

Definition replace (old new s : str) : str := replace_from old new 0 s.

(** [sep.join(parts)] *)
Fixpoint join (sep : str) (parts : list str) : str :=
  match parts with
  | [] => []
  | [p] => p
  | p :: rest => p ++ sep ++ join sep rest
  end.

(** [s.split(sep)] for a one-character separator: never empty. *)
Fixpoint split_on (sep : N) (s : str) : list str :=
  match s with
  | [] => [[]]
  | c :: s' =>
    if bool_decide (c = sep) then [] :: split_on sep s'
    else match split_on sep s' with
         | [] => [[c]]
         | p :: ps => (c :: p) :: ps
         end
  end.

(** ** Methods that consult the Unicode tables *)

Section WithRuntime.
Context {R : Runtime}.

(** [s.lower()] *)
Definition lower (s : str) : str := flat_map lower_char s.

(** [s.strip()] *)
Definition strip (s : str) : str := strip_by isspace s.

(** [s.split()]: the maximal runs of non-space code points; [cur] holds
    the current run, reversed. *)
Fixpoint split_from (cur : str) (s : str) : list str :=
  match s with
  | [] => match cur with [] => [] | _ => [rev cur] end
  | c :: s' =>
    if isspace c
    then match cur with
         | [] => split_from [] s'
         | _ => rev cur :: split_from [] s'
         end
    else split_from (c :: cur) s'
  end.

Definition split (s : str) : list str := split_from [] s.
End WithRuntime.

(** ** Dictionaries

    A [dict] keeps its keys in insertion order; assigning to an existing
    key replaces the value in place. *)

Definition dict (V : Type) : Type := list (str * V).

Fixpoint dict_get {V} (k : str) (d : dict V) : option V :=
  match d with
  | [] => None
  | (k', v) :: d' => if bool_decide (k' = k) then Some v else dict_get k d'
  end.

Fixpoint dict_set {V} (k : str) (v : V) (d : dict V) : dict V :=
  match d with
  | [] => [(k, v)]
  | (k', v') :: d' =>
    if bool_decide (k' = k) then (k, v) :: d' else (k', v') :: dict_set k v d'
  end.

(** [d[k] += x] on a [defaultdict(float)] *)
Definition dict_add (k : str) (x : Q) (d : dict Q) : dict Q :=
  dict_set k (Qplus (default 0%Q (dict_get k d)) x) d.

(** Exceptions the modelled code can raise, and the result of a
    computation that may raise one. *)
Inductive exn := KeyError | IndexError | ValueError | AttributeError.

Inductive result (A : Type) : Type :=
| Ok (a : A)
| Raise (e : exn).
Arguments Ok {A} a.
Arguments Raise {A} e.

(** [min(a, b)] and [max(a, b)] of two floats: the first argument unless
    the second is strictly smaller (larger). *)
Definition min (a b : Q) : Q := if Qle_bool a b then a else b.
Definition max (a b : Q) : Q := if Qle_bool b a then a else b.

(** [round(x, 2)]: to the nearest multiple of 0.01, a tie to the even one. *)
Definition round2 (x : Q) : Q :=
  let y := (x * 100)%Q in
  let f := Qfloor y in
  let r := (y - inject_Z f)%Q in
  let n := match Qcompare r (1 # 2) with
           | Lt => f
           | Gt => f + 1
           | Eq => if Z.even f then f else f + 1
           end in
  Qmake n 100.

End Py.

(* ================================================================== *)
(** * app/taxonomy.py *)
(* ================================================================== *)

Module Taxonomy.
Import Py.
#[local] Open Scope string_scope.

Definition CATEGORY_LABEL : dict str :=
  [ (lit "food", lit "Еда");
    (lit "transport", lit "Транспорт");
    (lit "home", lit "Дом");
    (lit "health", lit "Здоровье");
    (lit "fun", lit "Развлечения");
    (lit "shopping", lit "Покупки");
    (lit "subscriptions", lit "Подписки");
    (lit "other", lit "Другое") ].

Record SubcategoryDef := {
  key : str;
  label : str;
  category : str;
  keywords : list str;
}.

Definition SUBCATEGORIES : list SubcategoryDef :=
  [ {| key := lit "food_out"; label := lit "Еда вне дома"; category := lit "food";
       keywords := map lit
         [ "кофе"; "капучино"; "латте"; "чай"; "обед"; "ужин"; "завтрак"; "кафе";
           "ресторан"; "столовая"; "фастфуд"; "пицца"; "бургер"; "суши"; "шаурма" ] |};
    {| key := lit "food_groceries"; label := lit "Продукты"; category := lit "food";
       keywords := map lit
         [ "продукты"; "магазин"; "супермаркет"; "гипермаркет"; "еда домой"; "овощи";
           "фрукты"; "молоко"; "хлеб"; "мясо"; "крупа" ] |};
    {| key := lit "transport_taxi"; label := lit "Такси"; category := lit "transport";
       keywords := map lit [ "такси"; "поездка"; "трансфер" ] |};
    {| key := lit "transport_public"; label := lit "Общественный транспорт";
       category := lit "transport";
       keywords := map lit
         [ "метро"; "автобус"; "трамвай"; "электричка"; "поезд"; "проезд" ] |};
    {| key := lit "transport_car"; label := lit "Авто расходы"; category := lit "transport";
       keywords := map lit
         [ "бензин"; "топливо"; "заправка"; "парковка"; "шиномонтаж"; "масло" ] |};
    {| key := lit "home_rent"; label := lit "Жилье и аренда"; category := lit "home";
       keywords := map lit [ "аренда"; "ипотека"; "квартира"; "жилье" ] |};
    {| key := lit "home_utilities"; label := lit "Коммунальные"; category := lit "home";
       keywords := map lit
         [ "жкх"; "коммуналка"; "электричество"; "вода"; "газ"; "интернет" ] |};
    {| key := lit "health_medicine"; label := lit "Лекарства"; category := lit "health";
       keywords := map lit [ "аптека"; "лекарства"; "таблетки"; "витамины" ] |};
    {| key := lit "health_doctors"; label := lit "Врачи и анализы"; category := lit "health";
       keywords := map lit
         [ "врач"; "клиника"; "анализы"; "стоматолог"; "мрт"; "узи" ] |};
    {| key := lit "fun_events"; label := lit "Развлечения"; category := lit "fun";
       keywords := map lit [ "кино"; "театр"; "концерт"; "бар"; "клуб"; "игры" ] |};
    {| key := lit "shopping_clothes"; label := lit "Одежда и обувь";
       category := lit "shopping";
       keywords := map lit [ "одежда"; "обувь"; "куртка"; "джинсы"; "кроссовки" ] |};
    {| key := lit "shopping_other"; label := lit "Покупки прочее";
       category := lit "shopping";
       keywords := map lit [ "покупка"; "товар"; "заказ" ] |};
    {| key := lit "subscriptions_digital"; label := lit "Цифровые подписки";
       category := lit "subscriptions";
       keywords := map lit [ "подписка"; "премиум"; "музыка"; "видео"; "облако" ] |} ].

(** [{x.key: x.label for x in SUBCATEGORIES}] and
    [{x.key: x.category for x in SUBCATEGORIES}] *)
Definition SUBCATEGORY_LABEL : dict str :=
  fold_left (fun d x => dict_set (key x) (label x) d) SUBCATEGORIES [].

Definition SUBCATEGORY_TO_CATEGORY : dict str :=
  fold_left (fun d x => dict_set (key x) (category x) d) SUBCATEGORIES [].

Definition category_label (k : str) : str := default k (dict_get k CATEGORY_LABEL).

Definition subcategory_label (k : str) : str := default k (dict_get k SUBCATEGORY_LABEL).

End Taxonomy.

(* ================================================================== *)
(** * app/categories.py *)
(* ================================================================== *)

Module Categories.
Import Py.
#[local] Open Scope string_scope.

Definition CATEGORIES : list (str * str) :=
  [ (lit "food", lit "Еда");
    (lit "transport", lit "Транспорт");
    (lit "home", lit "Дом");
    (lit "health", lit "Здоровье");
    (lit "fun", lit "Развлечения");
    (lit "shopping", lit "Покупки");
    (lit "subscriptions", lit "Подписки");
    (lit "other", lit "Другое") ].

Definition CATEGORY_ALIASES : dict str :=
  [ (lit "еда", lit "food");
    (lit "food", lit "food");
    (lit "transport", lit "transport");
    (lit "транспорт", lit "transport");
    (lit "дом", lit "home");
    (lit "home", lit "home");
    (lit "здоровье", lit "health");
    (lit "health", lit "health");
    (lit "развлечения", lit "fun");
    (lit "fun", lit "fun");
    (lit "покупки", lit "shopping");
    (lit "shopping", lit "shopping");
    (lit "подписки", lit "subscriptions");
    (lit "subscriptions", lit "subscriptions");
    (lit "другое", lit "other");
    (lit "other", lit "other") ].

Definition parse_category `{Runtime} (raw : option str) : option str :=
  match raw with
  | None | Some [] => None
  | Some r => dict_get (lower (strip r)) CATEGORY_ALIASES
  end.

End Categories.

(* ================================================================== *)
(** * app/classifier.py *)
(* ================================================================== *)

Module Classifier.
Import Py.

Record Prediction := {
  category : str;
  subcategory : str;
  confidence : Q;
  reason : str;
}.

Section WithRuntime.
Context {R : Runtime}.

(** The class [[a-zа-я0-9\s]] under [re.IGNORECASE]. *)
Definition in_class (c : N) : bool :=
  ((97 <=? c) && (c <=? 122))%N
  || ((0x430 <=? c) && (c <=? 0x44F))%N
  || ((48 <=? c) && (c <=? 57))%N
  || isspace c
  || ignorecase_alnum c.

(** [re.sub(r"[^a-zа-я0-9\s]", " ", s, flags=re.IGNORECASE)] *)
Definition sub_noise (s : str) : str :=
  map (fun c => if in_class c then c else 32%N) s.

(** [re.sub(r"\s+", " ", s)]; [in_run] tells that the blank for the
    current run of white space has been written. *)
Fixpoint sub_spaces_from (in_run : bool) (s : str) : str :=
  match s with
  | [] => []
  | c :: s' =>
    if isspace c
    then if in_run then sub_spaces_from true s'
         else 32%N :: sub_spaces_from true s'
    else c :: sub_spaces_from false s'
  end.

Definition sub_spaces (s : str) : str := sub_spaces_from false s.

Definition normalize_text (text : str) : str :=
  let lowered := strip (lower text) in
  let cleaned := sub_noise lowered in
  let cleaned := strip (sub_spaces cleaned) in
  cleaned.

(** The body of the inner loop of [predict_category]. *)
Definition score_word (normalized key : str) (score : dict Q) (word : str) : dict Q :=
  if contains word normalized then
    let score := dict_add key 1 score in
    if bool_decide (normalized = word) || startswith (word ++ lit " ") normalized
    then dict_add key 0.35 score
    else score
  else score.

Definition score_sub (normalized : str) (score : dict Q) (sub : Taxonomy.SubcategoryDef)
  : dict Q :=
  fold_left (score_word normalized (Taxonomy.key sub)) (Taxonomy.keywords sub) score.

Definition keyword_scores (normalized : str) : dict Q :=
  fold_left (score_sub normalized) Taxonomy.SUBCATEGORIES [].

(** [sorted(items, key=lambda x: x[1], reverse=True)]: a stable sort, so
    items of equal score keep their order. *)
Fixpoint insert_desc (x : str * Q) (l : list (str * Q)) : list (str * Q) :=
  match l with
  | [] => [x]
  | y :: l' => if Qle_bool (snd y) (snd x) then x :: l else y :: insert_desc x l'
  end.

Definition sorted_desc (l : list (str * Q)) : list (str * Q) :=
  fold_right insert_desc [] l.

(** The clamped estimate, before rounding. *)
Definition clamp_confidence (best_score second_score : Q) : Q :=
  let confidence := Py.min 0.98 (0.55 + best_score * 0.12 - second_score * 0.07) in
  Py.max 0.2 confidence.

(** Lines 38 to 61: keyword scoring. *)
Definition predict_rules (normalized : str) : result (option Prediction) :=
  let score := keyword_scores normalized in
  match score with
  | [] => Ok None
  | _ :: _ =>
    let ranked := sorted_desc score in
    match ranked with
    | [] => Raise IndexError
    | (best_subcategory, best_score) :: rest =>
      let second_score := match rest with
                          | (_, s) :: _ => s
                          | [] => 0%Q
                          end in
      let confidence := clamp_confidence best_score second_score in
      match dict_get best_subcategory Taxonomy.SUBCATEGORY_TO_CATEGORY with
      | None => Raise KeyError
      | Some cat =>
        Ok (Some {| category := cat;
                    subcategory := best_subcategory;
                    confidence := round2 confidence;
                    reason := lit "rules" |})
      end
    end
  end.

Definition predict_category (note : str) (alias_subcategory : option str)
  : result (option Prediction) :=
  let normalized := normalize_text note in
  match normalized with
  | [] => Ok None
  | _ :: _ =>
    match alias_subcategory with
    | Some ((_ :: _) as alias) =>
      match dict_get alias Taxonomy.SUBCATEGORY_TO_CATEGORY with
      | Some cat =>
        Ok (Some {| category := cat;
                    subcategory := alias;
                    confidence := 0.97;
                    reason := lit "alias" |})
      | None => predict_rules normalized
      end
    | _ => predict_rules normalized
    end
  end.

End WithRuntime.

End Classifier.

(* ================================================================== *)
(** * Tables for evaluation *)
(* ================================================================== *)

(** The runtime tables restricted to Basic Latin and the Cyrillic block
    (U+0400 to U+04FF); code points elsewhere are caseless and are not
    digits.  White space is the full set of [Py_UNICODE_ISSPACE]. *)
Module Tables.
Import Py.

Definition between (lo hi c : N) : bool := ((lo <=? c) && (c <=? hi))%N.

Definition lower_char (c : N) : list N :=
  if between 65 90 c then [c + 32]%N
  else if between 0x410 0x42F c then [c + 32]%N
  else if between 0x400 0x40F c then [c + 80]%N
  else if (between 0x460 0x481 c || between 0x48A 0x4BF c || between 0x4D0 0x4FF c)
          && N.even c then [c + 1]%N
  else if bool_decide (c = 0x4C0%N) then [0x4CF]%N
  else if between 0x4C1 0x4CE c && N.odd c then [c + 1]%N
  else if bool_decide (c = 0x130%N) then [0x69; 0x307]%N
  else if bool_decide (c = 0x212A%N) then [0x6B]%N
  else [c].

Definition isspace (c : N) : bool :=
  between 9 13 c || between 28 32 c
  || bool_decide (c ∈ [0x85; 0xA0; 0x1680; 0x2028; 0x2029; 0x202F; 0x205F; 0x3000]%N)
  || between 0x2000 0x200A c.

Definition ignorecase_alnum (c : N) : bool :=
  between 65 90 c || between 0x410 0x42F c
  || bool_decide (c ∈ [0x130; 0x131; 0x17F; 0x212A]%N)
  || between 0x1C80 0x1C86 c.

Definition digit_value (c : N) : option N :=
  if between 48 57 c then Some (c - 48)%N else None.

Fixpoint digits_value (acc : N) (s : str) : option N :=
  match s with
  | [] => Some acc
  | c :: s' =>
    match digit_value c with
    | Some d => digits_value (acc * 10 + d) s'
    | None => None
    end
  end.

(** [int(s)] for an optional sign followed by ASCII digits, white space
    around it ignored. *)
Definition int_of_str (s : str) : option Z :=
  match strip_by isspace s with
  | [] => None
  | 45%N :: ((_ :: _) as ds) => (fun n => - Z.of_N n) <$> digits_value 0 ds
  | 43%N :: ((_ :: _) as ds) => Z.of_N <$> digits_value 0 ds
  | ds => Z.of_N <$> digits_value 0 ds
  end.

#[export] Instance basic : Runtime := {|
  Py.lower_char := lower_char;
  Py.isspace := isspace;
  Py.ignorecase_alnum := ignorecase_alnum;
  Py.digit_value := digit_value;
  Py.int_of_str := int_of_str;
|}.

End Tables.

(* ================================================================== *)
(** * app/db.py: the engine tables *)
(* ================================================================== *)

Module Db.
Import Py.

(** ** Rows *)

Module Expenses.
Record row := {
  id : Z;
  group_id : Z;
  user_id : Z;
  category : str;
  subcategory : str;
  amount : Q;
  note : str;
  source_message_id : Z;
  auto_category : str;
  auto_subcategory : str;
  auto_confidence : Q;
  is_auto_applied : bool;
  raw_comment_normalized : str;
}.
End Expenses.

Module Pending.
Record row := {
  group_id : Z;
  user_id : Z;
  amount : Q;
  note : str;
  source_message_id : Z;
  predicted_category : str;
  predicted_subcategory : str;
  predicted_confidence : Q;
  raw_comment_normalized : str;
}.
End Pending.

Module Feedback.
Record row := {
  group_id : Z;
  raw_comment_normalized : str;
  predicted_subcategory : str;
  chosen_subcategory : str;
}.
End Feedback.

Module Aliases.
Record row := {
  subcategory : str;
  confidence : Q;
  source : str;
}.
End Aliases.

(** ** The state of the database file

    [expenses] and [category_feedback] are kept in insertion order;
    [pending_expenses] is keyed by its primary key and [merchant_aliases]
    by its unique pair (group_id, normalized_pattern).  The two [_seq]
    fields are the AUTOINCREMENT counters: the largest id given so far. *)
Record State := {
  expenses : list Expenses.row;
  expenses_seq : Z;
  pending_expenses : gmap Z Pending.row;
  pending_seq : Z;
  category_feedback : list Feedback.row;
  merchant_aliases : gmap (Z * str) Aliases.row;
}.

(** A new database file after [init()]. *)
Definition init : State := {|
  expenses := [];
  expenses_seq := 0;
  pending_expenses := ∅;
  pending_seq := 0;
  category_feedback := [];
  merchant_aliases := ∅;
|}.

(** ** Methods *)

Definition get_alias_subcategory (db : State) (group_id : Z) (normalized_note : str)
  : option str :=
  match normalized_note with
  | [] => None
  | _ :: _ => Aliases.subcategory <$> merchant_aliases db !! (group_id, normalized_note)
  end.

Definition create_pending_expense (db : State) (group_id user_id : Z) (amount : Q)
    (note : str) (source_message_id : Z)
    (predicted_category predicted_subcategory : str) (predicted_confidence : Q)
    (raw_comment_normalized : str) : Z * State :=
  let lastrowid := pending_seq db + 1 in
  let r := {| Pending.group_id := group_id;
              Pending.user_id := user_id;
              Pending.amount := amount;
              Pending.note := note;
              Pending.source_message_id := source_message_id;
              Pending.predicted_category := predicted_category;
              Pending.predicted_subcategory := predicted_subcategory;
              Pending.predicted_confidence := predicted_confidence;
              Pending.raw_comment_normalized := raw_comment_normalized |} in
  (lastrowid,
   {| expenses := expenses db;
      expenses_seq := expenses_seq db;
      pending_expenses := <[lastrowid := r]> (pending_expenses db);
      pending_seq := lastrowid;
      category_feedback := category_feedback db;
      merchant_aliases := merchant_aliases db |}).

Definition get_pending (db : State) (pending_id : Z) : option Pending.row :=
  pending_expenses db !! pending_id.

Definition finalize_pending (db : State) (pending_id : Z) (category subcategory : str)
  : option Z * State :=
  match get_pending db pending_id with
  | None => (None, db)
  | Some pending =>
    let lastrowid := expenses_seq db + 1 in
    let e := {| Expenses.id := lastrowid;
                Expenses.group_id := Pending.group_id pending;
                Expenses.user_id := Pending.user_id pending;
                Expenses.category := category;
                Expenses.subcategory := subcategory;
                Expenses.amount := Pending.amount pending;
                Expenses.note := Pending.note pending;
                Expenses.source_message_id := Pending.source_message_id pending;
                Expenses.auto_category := Pending.predicted_category pending;
                Expenses.auto_subcategory := Pending.predicted_subcategory pending;
                Expenses.auto_confidence := Pending.predicted_confidence pending;
                Expenses.is_auto_applied := false;
                Expenses.raw_comment_normalized := Pending.raw_comment_normalized pending |} in
    (Some lastrowid,
     {| expenses := expenses db ++ [e];
        expenses_seq := lastrowid;
        pending_expenses := delete pending_id (pending_expenses db);
        pending_seq := pending_seq db;
        category_feedback := category_feedback db;
        merchant_aliases := merchant_aliases db |})
  end.

Definition add_expense (db : State) (group_id user_id : Z) (category subcategory : str)
    (amount : Q) (note : str) (source_message_id : Z)
    (auto_category auto_subcategory : str) (auto_confidence : Q)
    (is_auto_applied : bool) (raw_comment_normalized : str) : Z * State :=
  let lastrowid := expenses_seq db + 1 in
  let e := {| Expenses.id := lastrowid;
              Expenses.group_id := group_id;
              Expenses.user_id := user_id;
              Expenses.category := category;
              Expenses.subcategory := subcategory;
              Expenses.amount := amount;
              Expenses.note := note;
              Expenses.source_message_id := source_message_id;
              Expenses.auto_category := auto_category;
              Expenses.auto_subcategory := auto_subcategory;
              Expenses.auto_confidence := auto_confidence;
              Expenses.is_auto_applied := is_auto_applied;
              Expenses.raw_comment_normalized := raw_comment_normalized |} in
  (lastrowid,
   {| expenses := expenses db ++ [e];
      expenses_seq := lastrowid;
      pending_expenses := pending_expenses db;
      pending_seq := pending_seq db;
      category_feedback := category_feedback db;
      merchant_aliases := merchant_aliases db |}).

(** The rows of [category_feedback] the aggregate query of
    [record_feedback] ranges over. *)
Definition feedback_on (group_id : Z) (raw_comment_normalized : str)
    (log : list Feedback.row) : list Feedback.row :=
  filter (fun f => Feedback.group_id f = group_id
                   ∧ Feedback.raw_comment_normalized f = raw_comment_normalized) log.

Definition record_feedback (db : State) (group_id : Z)
    (raw_comment_normalized predicted_subcategory chosen_subcategory : str) : State :=
  match raw_comment_normalized with
  | [] => db
  | _ :: _ =>
    let log := category_feedback db ++
               [ {| Feedback.group_id := group_id;
                    Feedback.raw_comment_normalized := raw_comment_normalized;
                    Feedback.predicted_subcategory := predicted_subcategory;
                    Feedback.chosen_subcategory := chosen_subcategory |} ] in
    let rows := feedback_on group_id raw_comment_normalized log in
    let total := Z.of_nat (length rows) in
    let chosen_total :=
      Z.of_nat (length (filter (fun f => Feedback.chosen_subcategory f = chosen_subcategory)
                               rows)) in
    let aliases :=
      if (3 <=? total) && Qle_bool 0.8 (inject_Z chosen_total / inject_Z total)
      then <[(group_id, raw_comment_normalized) :=
               {| Aliases.subcategory := chosen_subcategory;
                  Aliases.confidence := 0.97;
                  Aliases.source := lit "feedback" |}]> (merchant_aliases db)
      else merchant_aliases db in
    {| expenses := expenses db;
       expenses_seq := expenses_seq db;
       pending_expenses := pending_expenses db;
       pending_seq := pending_seq db;
       category_feedback := log;
       merchant_aliases := aliases |}
  end.

Definition undo_last_by_user (db : State) (group_id user_id : Z) : option Z * State :=
  let mine := filter (fun e => Expenses.group_id e = group_id
                               ∧ Expenses.user_id e = user_id) (expenses db) in
  match map Expenses.id mine with
  | [] => (None, db)
  | i :: ids =>
    let expense_id := fold_left Z.max ids i in
    (Some expense_id,
     {| expenses := filter (fun e => Expenses.id e ≠ expense_id) (expenses db);
        expenses_seq := expenses_seq db;
        pending_expenses := pending_expenses db;
        pending_seq := pending_seq db;
        category_feedback := category_feedback db;
        merchant_aliases := merchant_aliases db |})
  end.

End Db.

(* ================================================================== *)
(** * app/config.py *)
(* ================================================================== *)

Module Config.

Record Settings := {
  auto_category_threshold : Q;
}.

(** The threshold read by [load_settings]; [env] is the float value of
    AUTO_CATEGORY_THRESHOLD when the variable is set and parses. *)
Definition load_settings (env : option Q) : Settings :=
  let threshold := default 0.82%Q env in
  {| auto_category_threshold := Py.max 0 (Py.min 1 threshold) |}.

End Config.

(* ================================================================== *)
(** * app/bot.py *)
(* ================================================================== *)

Module Bot.
Import Py.

Definition BASE_CATEGORIES : list str :=
  [ lit "food"; lit "transport"; lit "home"; lit "health"; lit "fun"; lit "shopping";
    lit "subscriptions"; lit "other" ].

(** ** Telegram objects, as far as the handlers read them *)

Record User := { user_id : Z; is_bot : bool }.
Record Chat := { chat_id : Z; chat_type : str }.
Record Message := {
  chat : Chat;
  from_user : option User;
  message_id : Z;
  text : option str;
}.
Record CallbackQuery := {
  data : option str;
  query_from_user : User;
}.

(** What a handler answers. *)
Inductive reply :=
| ExpenseExample                                   (* Не понял расход. Пример: `450 кофе` *)
| Added (expense_id : Z) (amount : Q) (label : str) (* Добавлено #id: amount -> label *)
| GroupOnly                                        (* ... работает только в группе *)
| AddUsage                                         (* Формат: /add ... *)
| Report                                           (* /today, /month, /last *)
| NothingToUndo                                    (* У тебя нет расходов для отмены *)
| Undone (expense_id : Z)                          (* Удален последний расход *)
| BadButton                                        (* Некорректная кнопка *)
| UnknownCategory                                  (* Неизвестная категория *)
| AlreadyHandled                                   (* Запись уже обработана *)
| OnlyAuthor                                       (* Только автор может выбрать категорию *)
| SaveFailed                                       (* Не удалось сохранить *)
| Saved (expense_id : Z) (amount : Q) (label note : str). (* Сохранено *)

Section WithRuntime.
Context {R : Runtime}.

(** ** Parsing *)

(** [Decimal(s)] for numerals without sign or exponent, such as the ones
    AMOUNT_RE admits; [None] stands for [InvalidOperation]. *)
Fixpoint decimal_digits (acc : Z * Z) (s : str) : option (Z * Z) :=
  match s with
  | [] => Some acc
  | c :: s' =>
    match digit_value c with
    | Some d => decimal_digits (fst acc * 10 + Z.of_N d, snd acc * 10) s'
    | None => None
    end
  end.

Definition Decimal (s : str) : option Q :=
  match split_on 46 s with
  | [whole] =>
    match whole with
    | [] => None
    | _ :: _ => (fun n => inject_Z (fst n)) <$> decimal_digits (0, 1) whole
    end
  | [whole; frac] =>
    match whole ++ frac with
    | [] => None
    | _ :: _ =>
      n ← decimal_digits (0, 1) whole;
      m ← decimal_digits (fst n, 1) frac;
      Some (Qmake (fst m) (Z.to_pos (snd m)))
    end
  | _ => None
  end.

Definition parse_amount (raw : option str) : option Q :=
  match raw with
  | None => None
  | Some raw =>
    let cleaned := strip (replace (lit ",") (lit ".") raw) in
    match Decimal cleaned with
    | None => None
    | Some value => if Qle_bool value 0 then None else Some value
    end
  end.

Definition is_digit (c : N) : bool := bool_decide (is_Some (digit_value c)).

(** [$]: the end of the string, or just before a final newline. *)
Definition at_end (s : str) : bool :=
  match s with
  | [] | [10%N] => true
  | _ => false
  end.

(** [AMOUNT_RE.match(s)] for [^\d+(?:[\.,]\d{1,2})?$] *)
Definition AMOUNT_RE_match (s : str) : bool :=
  let rest := lstrip_by is_digit s in
  negb (bool_decide (length rest = length s))
  && (at_end rest
      || match rest with
         | sep :: d1 :: tail =>
           bool_decide (sep ∈ [46; 44]%N) && is_digit d1
           && (at_end tail
               || match tail with
                  | d2 :: tail' => is_digit d2 && at_end tail'
                  | [] => false
                  end)
         | _ => false
         end).

Definition parse_amount_token (token : str) : option Q :=
  let cleaned := lower (strip token) in
  let cleaned := replace (lit "rur") [] (replace (lit "rub") [] (replace (lit "₽") [] cleaned)) in
  let cleaned := replace (lit "usd") [] (replace (lit "$") [] cleaned) in
  let cleaned := replace (lit "eur") [] (replace (lit "€") [] cleaned) in
  let cleaned := strip_chars (lit ".,:;!?()[]{}") cleaned in
  match cleaned with
  | [] => None
  | _ :: _ => if AMOUNT_RE_match cleaned then parse_amount (Some cleaned) else None
  end.

(** The loop of [extract_expense_parts]: the index and value of the
    first token that parses as an amount. *)
Fixpoint first_amount (idx : nat) (tokens : list str) : option (nat * Q) :=
  match tokens with
  | [] => None
  | token :: tokens' =>
    match parse_amount_token token with
    | Some candidate => Some (idx, candidate)
    | None => first_amount (S idx) tokens'
    end
  end.

Definition extract_expense_parts (text : str) : option (Q * option str * str) :=
  let tokens := split text in
  match first_amount 0 tokens with
  | None => None
  | Some (amount_idx, amount) =>
    let rest_tokens := (take amount_idx tokens ++ drop (S amount_idx) tokens)%list in
    match rest_tokens with
    | [] => Some (amount, None, [])
    | first :: others =>
      match Categories.parse_category (Some first) with
      | Some ((_ :: _) as quick_category) =>
        Some (amount, Some quick_category, strip (join (lit " ") others))
      | _ => Some (amount, None, strip (join (lit " ") rest_tokens))
      end
    end
  end.

Definition ensure_group_chat (message : Message) : bool :=
  bool_decide (chat_type (chat message) ∈ [lit "group"; lit "supergroup"]).

(** ** Handlers *)

Section WithSettings.
Variable settings : Config.Settings.

(** Lines 188 to 191: the prediction for a note, the alias of the group
    looked up first. *)
Definition predict (db : Db.State) (group_id : Z) (note : str)
  : result (option Classifier.Prediction) :=
  match note with
  | [] => Ok None
  | _ :: _ =>
    let alias_subcategory :=
      Db.get_alias_subcategory db group_id (Classifier.normalize_text note) in
    Classifier.predict_category note alias_subcategory
  end.

Definition process_expense_text (db : Db.State) (message : Message) (raw_text : str)
    (reply_on_error : bool) : result (bool * option reply) * Db.State :=
  match extract_expense_parts raw_text with
  | None => (Ok (false, if reply_on_error then Some ExpenseExample else None), db)
  | Some (amount, quick_category, note) =>
    match from_user message with
    | None => (Raise AttributeError, db)
    | Some user =>
      let group_id := chat_id (chat message) in
      let normalized_note := Classifier.normalize_text note in
      match quick_category with
      | Some ((_ :: _) as quick_category) =>
        let '(expense_id, db) :=
          Db.add_expense db group_id (user_id user) quick_category [] amount note
            (message_id message) quick_category [] 1 false normalized_note in
        (Ok (true, Some (Added expense_id amount (Taxonomy.category_label quick_category))),
         db)
      | _ =>
        match predict db group_id note with
        | Raise e => (Raise e, db)
        | Ok (Some prediction) =>
          if Qle_bool (Config.auto_category_threshold settings)
                      (Classifier.confidence prediction)
          then
            let '(expense_id, db) :=
              Db.add_expense db group_id (user_id user)
                (Classifier.category prediction) (Classifier.subcategory prediction)
                amount note (message_id message)
                (Classifier.category prediction) (Classifier.subcategory prediction)
                (Classifier.confidence prediction) true normalized_note in
            (Ok (true, Some (Added expense_id amount
                   (Taxonomy.subcategory_label (Classifier.subcategory prediction)))),
             db)
          else
            (* Even with low confidence or no prediction, always save the amount. *)
            let '(expense_id, db) :=
              Db.add_expense db group_id (user_id user)
                (Classifier.category prediction) (Classifier.subcategory prediction)
                amount note (message_id message)
                (Classifier.category prediction) (Classifier.subcategory prediction)
                (Classifier.confidence prediction) true normalized_note in
            (Ok (true, Some (Added expense_id amount
                   (Taxonomy.subcategory_label (Classifier.subcategory prediction)))),
             db)
        | Ok None =>
          let '(expense_id, db) :=
            Db.add_expense db group_id (user_id user) (lit "other") [] amount note
              (message_id message) [] [] 0 true normalized_note in
          (Ok (true, Some (Added expense_id amount (Taxonomy.category_label (lit "other")))),
           db)
        end
      end
    end
  end.

Definition cmd_add (db : Db.State) (message : Message) (args : option str)
  : result (option reply) * Db.State :=
  if negb (ensure_group_chat message) then (Ok (Some GroupOnly), db) else
  match args with
  | None | Some [] => (Ok (Some AddUsage), db)
  | Some ((_ :: _) as args) =>
    match process_expense_text db message args true with
    | (Ok (_, r), db) => (Ok r, db)
    | (Raise e, db) => (Raise e, db)
    end
  end.

Definition undo (db : Db.State) (group_id : Z) (user : User)
  : result (option reply) * Db.State :=
  match Db.undo_last_by_user db group_id (user_id user) with
  | (None, db) => (Ok (Some NothingToUndo), db)
  | (Some removed_id, db) => (Ok (Some (Undone removed_id)), db)
  end.

Definition on_plain_text (db : Db.State) (message : Message)
  : result (option reply) * Db.State :=
  if negb (ensure_group_chat message) then (Ok None, db) else
  match from_user message with
  | None => (Ok None, db)
  | Some user =>
    if is_bot user then (Ok None, db) else
    match strip (default [] (text message)) with
    | [] => (Ok None, db)
    | (c :: rest) as text =>
      if bool_decide (c = 47%N) then
        match split rest with
        | [] => (Raise IndexError, db)
        | head :: _ =>
          let cmd := default [] (hd_error (split_on 64 (lower head))) in
          if bool_decide (cmd ∈ [lit "today"; lit "month"; lit "last"])
          then (Ok (Some Report), db)
          else if bool_decide (cmd = lit "undo")
          then undo db (chat_id (chat message)) user
          else (Ok None, db)
        end
      else
        match process_expense_text db message text false with
        | (Ok (_, r), db) => (Ok r, db)
        | (Raise e, db) => (Raise e, db)
        end
    end
  end.

Definition on_category_chosen (db : Db.State) (query : CallbackQuery)
  : result (option reply) * Db.State :=
  match split_on 58 (default [] (data query)) with
  | [_; id_text; category] =>
    match int_of_str id_text with
    | None => (Raise ValueError, db)
    | Some pending_id =>
      if negb (bool_decide (category ∈ BASE_CATEGORIES))
      then (Ok (Some UnknownCategory), db)
      else
        match Db.get_pending db pending_id with
        | None => (Ok (Some AlreadyHandled), db)
        | Some pending =>
          if negb (bool_decide (user_id (query_from_user query) = Db.Pending.user_id pending))
          then (Ok (Some OnlyAuthor), db)
          else
            let predicted_subcategory := Db.Pending.predicted_subcategory pending in
            let chosen_subcategory :=
              if negb (bool_decide (predicted_subcategory = []))
                 && bool_decide (dict_get predicted_subcategory Taxonomy.SUBCATEGORY_TO_CATEGORY
                                 = Some category)
              then predicted_subcategory
              else [] in
            match Db.finalize_pending db pending_id category chosen_subcategory with
            | (None, db) => (Ok (Some SaveFailed), db)
            | (Some expense_id, db) =>
              let db :=
                if negb (bool_decide (predicted_subcategory = []))
                   && negb (bool_decide (chosen_subcategory = []))
                then Db.record_feedback db (Db.Pending.group_id pending)
                       (Db.Pending.raw_comment_normalized pending)
                       predicted_subcategory chosen_subcategory
                else db in
              let chosen_label :=
                match chosen_subcategory with
                | [] => Taxonomy.category_label category
                | _ :: _ => Taxonomy.subcategory_label chosen_subcategory
                end in
              (Ok (Some (Saved expense_id (Db.Pending.amount pending) chosen_label
                           (Db.Pending.note pending))),
               db)
            end
        end
    end
  | _ => (Ok (Some BadButton), db)
  end.

Definition cmd_undo (db : Db.State) (message : Message)
  : result (option reply) * Db.State :=
  if negb (ensure_group_chat message) then (Ok (Some GroupOnly), db) else
  match from_user message with
  | None => (Raise AttributeError, db)
  | Some user => undo db (chat_id (chat message)) user
  end.

(** ** The bot as a transition system

    One update is handled at a time.  [Housekeeping] stands for the
    handlers that touch only the tables [users] and [group_settings]
    or only read ([/start], [/app], [/setup], [/settings], [/remind],
    [/tz], [/today], [/month], [/last], the [cfg:] buttons and the
    reminder worker). *)
Inductive update :=
| CmdAdd (message : Message) (args : option str)
| PlainText (message : Message)
| CategoryButton (query : CallbackQuery)
| CmdUndo (message : Message)
| Housekeeping.

Definition handle (db : Db.State) (u : update) : result (option reply) * Db.State :=
  match u with
  | CmdAdd message args => cmd_add db message args
  | PlainText message => on_plain_text db message
  | CategoryButton query => on_category_chosen db query
  | CmdUndo message => cmd_undo db message
  | Housekeeping => (Ok None, db)
  end.

Inductive reachable : Db.State -> Prop :=
| reachable_init : reachable Db.init
| reachable_step db u : reachable db -> reachable (snd (handle db u)).

End WithSettings.
End WithRuntime.

End Bot.

(* ================================================================== *)
(** * Further built-ins of Python *)
(* ================================================================== *)

Module PyMore.
Import Py.

(** The digits of a decimal numeral, most significant first. *)
Fixpoint uint_digits (d : Decimal.uint) : str :=
  match d with
  | Decimal.Nil => []
  | Decimal.D0 d => 48%N :: uint_digits d
  | Decimal.D1 d => 49%N :: uint_digits d
  | Decimal.D2 d => 50%N :: uint_digits d
  | Decimal.D3 d => 51%N :: uint_digits d
  | Decimal.D4 d => 52%N :: uint_digits d
  | Decimal.D5 d => 53%N :: uint_digits d
  | Decimal.D6 d => 54%N :: uint_digits d
  | Decimal.D7 d => 55%N :: uint_digits d
  | Decimal.D8 d => 56%N :: uint_digits d
  | Decimal.D9 d => 57%N :: uint_digits d
  end.

(** [str(n)] and [f"{n}"] for an [int]. *)
Definition str_of_int (n : Z) : str :=
  match Z.to_int n with
  | Decimal.Pos d => uint_digits d
  | Decimal.Neg d => 45%N :: uint_digits d
  end.


(** A Python [float]: a number, an infinity or a NaN. *)
Inductive pyfloat := Finite (q : Q) | PosInf | NegInf | NaN.

(** [max(0.0, min(1.0, x))]: [min] keeps 1.0 unless [x] is strictly
    smaller, [max] keeps 0.0 unless its second argument is strictly
    larger, and no comparison with a NaN holds. *)
Definition clamp_unit (x : pyfloat) : Q :=
  match x with
  | Finite q => Py.max 0 (Py.min 1 q)
  | PosInf | NaN => 1
  | NegInf => 0
  end.

(** The rest of the runtime, read by the settings code: the upper-case
    mapping and the letters of [str.isalpha], the keys the time zone
    database knows, and the [float] constructor ([None] stands for
    [ValueError]). *)
Class Host := {
  upper_char : N -> list N;
  isalpha_char : N -> bool;
  ZoneInfo : str -> bool;
  float_of_str : str -> option pyfloat;
}.

Section WithHost.
Context {H : Host}.

(** [s.upper()] *)
Definition upper (s : str) : str := flat_map upper_char s.

(** [s.isalpha()] *)
Definition isalpha (s : str) : bool :=
  negb (bool_decide (s = [])) && forallb isalpha_char s.

End WithHost.

End PyMore.

(* ================================================================== *)
(** * app/config.py: all the settings *)
(* ================================================================== *)

Module FullConfig.
Import Py PyMore.

Record Settings := {
  bot_token : str;
  db_path : str;
  default_currency : str;
  auto_category_threshold : Q;
  default_timezone : str;
  reminder_check_interval_sec : Z;
  webapp_url : str;
  tg_app_url_template : str;
}.

(** [x or d] for two strings. *)
Definition or_else (x d : str) : str :=
  match x with
  | [] => d
  | _ :: _ => x
  end.

Section WithRuntime.
Context {R : Runtime} {H : Host}.

(** The process environment maps a variable to its value when set. *)
Variable environ : str -> option str.

(** [os.getenv(name, d)] *)
Definition getenv (name : string) (d : string) : str :=
  default (lit d) (environ (lit name)).

(** [None] stands for the RuntimeError of a missing token. *)
Definition load_settings : option Settings :=
  let token := strip (getenv "BOT_TOKEN" EmptyString) in
  match token with
  | [] => None
  | _ :: _ =>
    let db_path := or_else (strip (getenv "DB_PATH" "data/fin_tracker.db"))
                           (lit "data/fin_tracker.db") in
    let default_currency :=
      or_else (upper (strip (getenv "DEFAULT_CURRENCY" "RUB"))) (lit "RUB") in
    let raw_threshold := strip (getenv "AUTO_CATEGORY_THRESHOLD" "0.82") in
    let threshold := default (Finite 0.82) (float_of_str raw_threshold) in
    let threshold := clamp_unit threshold in
    let default_timezone :=
      or_else (strip (getenv "DEFAULT_TIMEZONE" "Europe/Moscow")) (lit "Europe/Moscow") in
    let raw_interval := strip (getenv "REMINDER_CHECK_INTERVAL_SEC" "60") in
    let reminder_interval := default 60 (int_of_str raw_interval) in
    let reminder_interval := Z.max 15 (Z.min 3600 reminder_interval) in
    let webapp_url :=
      or_else (strip (getenv "WEBAPP_URL" "http://localhost:8089"))
              (lit "http://localhost:8089") in
    let tg_app_url_template := strip (getenv "TG_APP_URL_TEMPLATE" EmptyString) in
    Some {| bot_token := token;
            db_path := db_path;
            default_currency := default_currency;
            auto_category_threshold := threshold;
            default_timezone := default_timezone;
            reminder_check_interval_sec := reminder_interval;
            webapp_url := webapp_url;
            tg_app_url_template := tg_app_url_template |}
  end.

End WithRuntime.

(** The part of the settings the classification engine reads. *)
Definition engine (settings : Settings) : Config.Settings :=
  {| Config.auto_category_threshold := auto_category_threshold settings |}.

End FullConfig.

(* ================================================================== *)
(** * app/db.py: users, group settings and the list of last expenses *)
(* ================================================================== *)

Module GroupDb.
Import Py PyMore.

Module Users.
Record row := {
  username : str;
  first_name : str;
}.
End Users.

Module GroupSettings.
Record row := {
  title : str;
  currency : str;
  timezone : str;
  reminder_enabled : Z;
  reminder_time : str;
  last_reminder_date : str;
}.
End GroupSettings.

(** The tables [users] and [group_settings], keyed by their primary
    keys. *)
Record State := {
  users : gmap Z Users.row;
  group_settings : gmap Z GroupSettings.row;
}.

(** The two tables after [init()] on a new file. *)
Definition init : State := {| users := ∅; group_settings := ∅ |}.

Definition upsert_user (st : State) (user_id : Z) (username first_name : str) : State :=
  {| users := <[user_id := {| Users.username := username;
                              Users.first_name := first_name |}]> (users st);
     group_settings := group_settings st |}.

(** A row inserted with the four given columns; the other columns take
    the defaults of the schema. *)
Definition new_group (title currency timezone : str) : GroupSettings.row :=
  {| GroupSettings.title := title;
     GroupSettings.currency := currency;
     GroupSettings.timezone := timezone;
     GroupSettings.reminder_enabled := 1;
     GroupSettings.reminder_time := lit "21:00";
     GroupSettings.last_reminder_date := [] |}.

(** [UPDATE group_settings SET ... WHERE group_id = ?] *)
Definition update_group (st : State) (group_id : Z)
    (f : GroupSettings.row -> GroupSettings.row) : State :=
  {| users := users st;
     group_settings :=
       match group_settings st !! group_id with
       | Some r => <[group_id := f r]> (group_settings st)
       | None => group_settings st
       end |}.

(** [INSERT ... ON CONFLICT(group_id) DO UPDATE SET ...] *)
Definition upsert_group (st : State) (group_id : Z) (new : GroupSettings.row)
    (f : GroupSettings.row -> GroupSettings.row) : State :=
  {| users := users st;
     group_settings :=
       <[group_id := match group_settings st !! group_id with
                     | Some r => f r
                     | None => new
                     end]> (group_settings st) |}.

Definition set_title (title : str) (r : GroupSettings.row) : GroupSettings.row :=
  {| GroupSettings.title := title;
     GroupSettings.currency := GroupSettings.currency r;
     GroupSettings.timezone := GroupSettings.timezone r;
     GroupSettings.reminder_enabled := GroupSettings.reminder_enabled r;
     GroupSettings.reminder_time := GroupSettings.reminder_time r;
     GroupSettings.last_reminder_date := GroupSettings.last_reminder_date r |}.

Definition set_currency (currency : str) (r : GroupSettings.row) : GroupSettings.row :=
  {| GroupSettings.title := GroupSettings.title r;
     GroupSettings.currency := currency;
     GroupSettings.timezone := GroupSettings.timezone r;
     GroupSettings.reminder_enabled := GroupSettings.reminder_enabled r;
     GroupSettings.reminder_time := GroupSettings.reminder_time r;
     GroupSettings.last_reminder_date := GroupSettings.last_reminder_date r |}.

Definition set_timezone (timezone : str) (r : GroupSettings.row) : GroupSettings.row :=
  {| GroupSettings.title := GroupSettings.title r;
     GroupSettings.currency := GroupSettings.currency r;
     GroupSettings.timezone := timezone;
     GroupSettings.reminder_enabled := GroupSettings.reminder_enabled r;
     GroupSettings.reminder_time := GroupSettings.reminder_time r;
     GroupSettings.last_reminder_date := GroupSettings.last_reminder_date r |}.

Definition ensure_group (st : State) (group_id : Z) (title default_currency default_tz : str)
  : State :=
  upsert_group st group_id (new_group title default_currency default_tz) (set_title title).

Definition setup_group `{Host} (st : State) (group_id : Z) (title currency : str)
    (tz_name : option str) : State :=
  match tz_name with
  | Some ((_ :: _) as tz_name) =>
    upsert_group st group_id (new_group title (upper currency) tz_name)
      (fun r => set_timezone tz_name (set_currency (upper currency) (set_title title r)))
  | _ =>
    upsert_group st group_id (new_group title (upper currency) (lit "Europe/Moscow"))
      (fun r => set_currency (upper currency) (set_title title r))
  end.

Definition get_group_currency (st : State) (group_id : Z) (default_currency : str) : str :=
  match group_settings st !! group_id with
  | Some r => GroupSettings.currency r
  | None => default_currency
  end.

Definition get_group_settings (st : State) (group_id : Z) : option GroupSettings.row :=
  group_settings st !! group_id.

Definition set_reminder_enabled (st : State) (group_id : Z) (enabled : bool) : State :=
  update_group st group_id (fun r =>
    {| GroupSettings.title := GroupSettings.title r;
       GroupSettings.currency := GroupSettings.currency r;
       GroupSettings.timezone := GroupSettings.timezone r;
       GroupSettings.reminder_enabled := if enabled then 1 else 0;
       GroupSettings.reminder_time := GroupSettings.reminder_time r;
       GroupSettings.last_reminder_date := GroupSettings.last_reminder_date r |}).

Definition set_reminder_time (st : State) (group_id : Z) (reminder_time : str) : State :=
  update_group st group_id (fun r =>
    {| GroupSettings.title := GroupSettings.title r;
       GroupSettings.currency := GroupSettings.currency r;
       GroupSettings.timezone := GroupSettings.timezone r;
       GroupSettings.reminder_enabled := GroupSettings.reminder_enabled r;
       GroupSettings.reminder_time := reminder_time;
       GroupSettings.last_reminder_date := GroupSettings.last_reminder_date r |}).

Definition set_group_timezone (st : State) (group_id : Z) (tz_name : str) : State :=
  update_group st group_id (set_timezone tz_name).

Definition mark_group_reminded (st : State) (group_id : Z) (local_date : str) : State :=
  update_group st group_id (fun r =>
    {| GroupSettings.title := GroupSettings.title r;
       GroupSettings.currency := GroupSettings.currency r;
       GroupSettings.timezone := GroupSettings.timezone r;
       GroupSettings.reminder_enabled := GroupSettings.reminder_enabled r;
       GroupSettings.reminder_time := GroupSettings.reminder_time r;
       GroupSettings.last_reminder_date := local_date |}).


(** [ORDER BY id DESC]: the primary key decides the order. *)
Fixpoint insert_by_id (e : Db.Expenses.row) (l : list Db.Expenses.row)
  : list Db.Expenses.row :=
  match l with
  | [] => [e]
  | x :: l' =>
    if Db.Expenses.id x <? Db.Expenses.id e then e :: l else x :: insert_by_id e l'
  end.

Definition order_by_id_desc (l : list Db.Expenses.row) : list Db.Expenses.row :=
  fold_right insert_by_id [] l.

(** [LIMIT n]: no limit when [n] is negative. *)
Definition sql_limit {A} (n : Z) (l : list A) : list A :=
  if n <? 0 then l else take (Z.to_nat n) l.

Definition last_expenses (db : Db.State) (group_id : Z) (limit : Z)
  : list (Z * Q * str * str * str * Z) :=
  let rows := filter (fun e => Db.Expenses.group_id e = group_id) (Db.expenses db) in
  map (fun e => (Db.Expenses.id e, Db.Expenses.amount e, Db.Expenses.category e,
                 Db.Expenses.subcategory e, Db.Expenses.note e, Db.Expenses.user_id e))
      (sql_limit limit (order_by_id_desc rows)).

End GroupDb.

(* ================================================================== *)
(** * app/bot.py: keyboards, settings and the whole dispatcher *)
(* ================================================================== *)

Module App.
Import Py PyMore.

(** ** Telegram objects *)

(** A message with the fields of its chat and sender that the settings
    handlers read besides those of [Bot.Message]. *)
Record Envelope := {
  message : Bot.Message;
  chat_title : option str;
  username : option str;
  first_name : option str;
}.

(** A [cfg:] button press: its payload and the chat of the message that
    carries the button. *)
Record SettingsQuery := {
  data : option str;
  message_chat_id : Z;
}.

Inductive InlineKeyboardButton :=
| CallbackButton (text callback_data : str)
| UrlButton (text url : str)
| WebAppButton (text url : str).

Definition InlineKeyboardMarkup := list (list InlineKeyboardButton).

(** What [render_settings] shows. *)
Record Panel := {
  panel_currency : str;
  panel_timezone : str;
  panel_enabled : bool;
  panel_reminder_time : str;
  panel_keyboard : InlineKeyboardMarkup;
}.

Inductive reply :=
| Engine (r : Bot.reply)                         (* a reply of the expense handlers *)
| Welcome                                        (* Бот активен в группе. ... *)
| WelcomePrivate                                 (* Привет. Добавь меня в группу ... *)
| OpenApp (keyboard : InlineKeyboardMarkup)       (* Открыть TG App: *)
| GroupConfigured (currency : str) (tz_name : option str) (* Группа настроена. ... *)
| SettingsPanel (panel : Panel)                   (* ⚙️ Настройки группы ... *)
| RemindUsage                                    (* Формат: /remind HH:MM *)
| ReminderTimeUpdated (reminder_time : str)       (* Время напоминаний обновлено: ... *)
| TzUsage                                        (* Формат: /tz Europe/Moscow *)
| BadTimezone                                    (* Некорректный timezone. ... *)
| TimezoneUpdated (tz_name : str)                 (* Timezone обновлен: ... *)
| BadCommand                                     (* Некорректная команда *)
| OtherChat                                      (* Эти настройки для другого чата *)
| SettingsUpdated                                (* Настройки обновлены *)
| TimeSet (hhmm : str)                            (* Время: ... *)
| BadTime                                        (* Некорректное время *)
| UnknownAction                                  (* Неизвестное действие *)
| NoExpenses                                     (* Расходов пока нет *)
| LastExpenses (rows : list (Z * Q * str * str * str * Z)). (* Последние 10 расходов: ... *)

(** The outcome of a handler: its replies, an exception of the kind the
    engine's handlers raise, or the failed [assert] of [render_settings]. *)
Inductive outcome (A : Type) : Type :=
| Done (a : A)
| Failed (e : exn)
| AssertionFailed.
Arguments Done {A} a.
Arguments Failed {A} e.
Arguments AssertionFailed {A}.

(** The database file: the tables of the engine and the two others. *)
Record State := {
  groups : GroupDb.State;
  engine : Db.State;
}.

Definition init : State := {| groups := GroupDb.init; engine := Db.init |}.

Section WithRuntime.
Context {R : Runtime} {H : Host}.

(** ** Helpers *)

(** [TIME_RE.match(s)] for [^(?:[01]\d|2[0-3]):[0-5]\d$] *)
Definition TIME_RE_match (s : str) : bool :=
  match s with
  | h1 :: h2 :: colon :: m1 :: m2 :: tail =>
    ((bool_decide (h1 ∈ [48; 49]%N) && Bot.is_digit h2)
     || (bool_decide (h1 = 50%N) && bool_decide (h2 ∈ [48; 49; 50; 51]%N)))
    && bool_decide (colon = 58%N)
    && bool_decide (m1 ∈ [48; 49; 50; 51; 52; 53]%N)
    && Bot.is_digit m2
    && Bot.at_end tail
  | _ => false
  end.

Definition category_keyboard (pending_id : Z) : InlineKeyboardMarkup :=
  map (fun '(key, label) =>
         [CallbackButton label (lit "cat:" ++ str_of_int pending_id ++ lit ":" ++ key)])
      Categories.CATEGORIES.

Definition parse_timezone (raw : str) : option str :=
  if ZoneInfo raw then Some raw else None.

Definition build_group_app_url (settings : FullConfig.Settings) (group_id : Z) : str :=
  match FullConfig.tg_app_url_template settings with
  | (_ :: _) as template => replace (lit "{group_id}") (str_of_int group_id) template
  | [] => FullConfig.webapp_url settings ++ lit "?group_id=" ++ str_of_int group_id
  end.

Definition settings_keyboard (group_id : Z) (enabled : bool) : InlineKeyboardMarkup :=
  let status_label := if enabled then lit "Отключить" else lit "Включить" in
  [ [ CallbackButton (lit "🔔 " ++ status_label ++ lit " напоминания")
        (lit "cfg:t:" ++ str_of_int group_id) ];
    [ CallbackButton (lit "🕘 09:00") (lit "cfg:h:" ++ str_of_int group_id ++ lit ":09-00");
      CallbackButton (lit "🕛 12:00") (lit "cfg:h:" ++ str_of_int group_id ++ lit ":12-00");
      CallbackButton (lit "🌙 21:00") (lit "cfg:h:" ++ str_of_int group_id ++ lit ":21-00") ] ].

Definition webapp_keyboard (url : str) (use_webapp_button : bool) : InlineKeyboardMarkup :=
  let button := if use_webapp_button
                then WebAppButton (lit "Open App") url
                else UrlButton (lit "Open App") url in
  [ [ button ] ].

(** ** Handlers *)

Section WithSettings.
Variable settings : FullConfig.Settings.

(** [db.upsert_user(user_id=message.from_user.id, username=... or the empty string,
    first_name=... or the empty string)] *)
Definition upsert_sender (st : GroupDb.State) (env : Envelope) : result GroupDb.State :=
  match Bot.from_user (message env) with
  | None => Raise AttributeError
  | Some user =>
    Ok (GroupDb.upsert_user st (Bot.user_id user) (default [] (username env))
          (default [] (first_name env)))
  end.

(** [db.ensure_group(message.chat.id, message.chat.title or the empty string,
    settings.default_currency, settings.default_timezone)] *)
Definition ensure_chat (st : GroupDb.State) (env : Envelope) : GroupDb.State :=
  GroupDb.ensure_group st (Bot.chat_id (Bot.chat (message env)))
    (default [] (chat_title env))
    (FullConfig.default_currency settings) (FullConfig.default_timezone settings).

(** [process_expense_text]: lines 153 to 163 write the sender and the
    group once the text has parsed; the rest is the engine's part. *)
Definition process_expense_text (s : State) (env : Envelope) (raw_text : str)
    (reply_on_error : bool) : result (bool * option Bot.reply) * State :=
  match Bot.extract_expense_parts raw_text with
  | None => (Ok (false, if reply_on_error then Some Bot.ExpenseExample else None), s)
  | Some _ =>
    match upsert_sender (groups s) env with
    | Raise e => (Raise e, s)
    | Ok st =>
      let st := ensure_chat st env in
      let '(r, db) :=
        Bot.process_expense_text (FullConfig.engine settings) (engine s) (message env)
          raw_text reply_on_error in
      (r, {| groups := st; engine := db |})
    end
  end.

Definition render_settings (st : GroupDb.State) (chat_id : Z)
  : outcome Panel * GroupDb.State :=
  let '(group, st) :=
    match GroupDb.get_group_settings st chat_id with
    | Some group => (Some group, st)
    | None =>
      let st := GroupDb.ensure_group st chat_id []
                  (FullConfig.default_currency settings)
                  (FullConfig.default_timezone settings) in
      (GroupDb.get_group_settings st chat_id, st)
    end in
  match group with
  | None => (AssertionFailed, st)
  | Some group =>
    let enabled := negb (bool_decide (GroupDb.GroupSettings.reminder_enabled group = 0)) in
    (Done {| panel_currency := GroupDb.GroupSettings.currency group;
           panel_timezone := GroupDb.GroupSettings.timezone group;
           panel_enabled := enabled;
           panel_reminder_time := GroupDb.GroupSettings.reminder_time group;
           panel_keyboard := settings_keyboard chat_id enabled |},
     st)
  end.

Definition cmd_start (s : State) (env : Envelope) : outcome (list reply) * State :=
  match upsert_sender (groups s) env with
  | Raise e => (Failed e, s)
  | Ok st =>
    if Bot.ensure_group_chat (message env) then
      let st := ensure_chat st env in
      let app_url := build_group_app_url settings (Bot.chat_id (Bot.chat (message env))) in
      (Done [Welcome; OpenApp (webapp_keyboard app_url false)],
       {| groups := st; engine := engine s |})
    else (Done [WelcomePrivate], {| groups := st; engine := engine s |})
  end.

Definition cmd_app (s : State) (env : Envelope) : outcome (list reply) * State :=
  if Bot.ensure_group_chat (message env) then
    let st := ensure_chat (groups s) env in
    let app_url := build_group_app_url settings (Bot.chat_id (Bot.chat (message env))) in
    (Done [OpenApp (webapp_keyboard app_url false)], {| groups := st; engine := engine s |})
  else
    (Done [OpenApp (webapp_keyboard (FullConfig.webapp_url settings) true)], s).

Definition cmd_setup (s : State) (env : Envelope) (args : option str)
  : outcome (list reply) * State :=
  if negb (Bot.ensure_group_chat (message env)) then (Done [Engine Bot.GroupOnly], s) else
  let '(currency, tz_name) :=
    match args with
    | Some ((_ :: _) as args) =>
      let args := split args in
      let currency :=
        match args with
        | first :: _ =>
          let c := upper (strip first) in
          if (2 <=? Z.of_nat (length c)) && (Z.of_nat (length c) <=? 6) && isalpha c
          then c else FullConfig.default_currency settings
        | [] => FullConfig.default_currency settings
        end in
      let tz_name :=
        match args with
        | _ :: second :: _ => parse_timezone (strip second)
        | _ => None
        end in
      (currency, tz_name)
    | _ => (FullConfig.default_currency settings, None)
    end in
  match upsert_sender (groups s) env with
  | Raise e => (Failed e, s)
  | Ok st =>
    let st := GroupDb.setup_group st (Bot.chat_id (Bot.chat (message env)))
                (default [] (chat_title env)) currency tz_name in
    let shown := match tz_name with
                 | Some ((_ :: _) as tz_name) => Some tz_name
                 | _ => None
                 end in
    (Done [GroupConfigured currency shown], {| groups := st; engine := engine s |})
  end.

Definition cmd_settings (s : State) (env : Envelope) : outcome (list reply) * State :=
  if negb (Bot.ensure_group_chat (message env)) then (Done [Engine Bot.GroupOnly], s) else
  let st := ensure_chat (groups s) env in
  match render_settings st (Bot.chat_id (Bot.chat (message env))) with
  | (Done panel, st) => (Done [SettingsPanel panel], {| groups := st; engine := engine s |})
  | (Failed e, st) => (Failed e, {| groups := st; engine := engine s |})
  | (AssertionFailed, st) => (AssertionFailed, {| groups := st; engine := engine s |})
  end.

Definition cmd_remind (s : State) (env : Envelope) (args : option str)
  : outcome (list reply) * State :=
  if negb (Bot.ensure_group_chat (message env)) then (Done [Engine Bot.GroupOnly], s) else
  match args with
  | Some ((_ :: _) as args) =>
    if TIME_RE_match (strip args) then
      let reminder_time := strip args in
      let st := GroupDb.set_reminder_time (groups s) (Bot.chat_id (Bot.chat (message env)))
                  reminder_time in
      (Done [ReminderTimeUpdated reminder_time], {| groups := st; engine := engine s |})
    else (Done [RemindUsage], s)
  | _ => (Done [RemindUsage], s)
  end.

Definition cmd_tz (s : State) (env : Envelope) (args : option str)
  : outcome (list reply) * State :=
  if negb (Bot.ensure_group_chat (message env)) then (Done [Engine Bot.GroupOnly], s) else
  match args with
  | Some ((_ :: _) as args) =>
    match parse_timezone (strip args) with
    | None => (Done [BadTimezone], s)
    | Some tz_name =>
      let st := GroupDb.set_group_timezone (groups s) (Bot.chat_id (Bot.chat (message env)))
                  tz_name in
      (Done [TimezoneUpdated tz_name], {| groups := st; engine := engine s |})
    end
  | _ => (Done [TzUsage], s)
  end.

(** The end of [on_settings_callback]: the panel is rendered again
    after the answer to the button. *)
Definition refresh (answer : reply) (st : GroupDb.State) (db : Db.State)
    (target_group_id : Z) : outcome (list reply) * State :=
  match render_settings st target_group_id with
  | (Done panel, st) => (Done [answer; SettingsPanel panel], {| groups := st; engine := db |})
  | (Failed e, st) => (Failed e, {| groups := st; engine := db |})
  | (AssertionFailed, st) => (AssertionFailed, {| groups := st; engine := db |})
  end.

Definition on_settings_callback (s : State) (query : SettingsQuery)
  : outcome (list reply) * State :=
  match split_on 58 (default [] (data query)) with
  | _ :: action :: target :: rest =>
    match int_of_str target with
    | None => (Failed ValueError, s)
    | Some target_group_id =>
      if negb (bool_decide (message_chat_id query = target_group_id))
      then (Done [OtherChat], s)
      else if bool_decide (action = lit "t") then
        let group := GroupDb.get_group_settings (groups s) target_group_id in
        let enabled :=
          match group with
          | Some group =>
            negb (bool_decide (GroupDb.GroupSettings.reminder_enabled group = 0))
          | None => true
          end in
        let st := GroupDb.set_reminder_enabled (groups s) target_group_id (negb enabled) in
        refresh SettingsUpdated st (engine s) target_group_id
      else
        match rest with
        | [time] =>
          if bool_decide (action = lit "h") then
            let hhmm := replace (lit "-") (lit ":") time in
            if TIME_RE_match hhmm then
              let st := GroupDb.set_reminder_time (groups s) target_group_id hhmm in
              refresh (TimeSet hhmm) st (engine s) target_group_id
            else (Done [BadTime], s)
          else (Done [UnknownAction], s)
        | _ => (Done [UnknownAction], s)
        end
    end
  | _ => (Done [BadCommand], s)
  end.

(** The reply of an expense handler and the state it leaves, carried
    over to the whole database. *)
Definition lift (s : State) (r : result (option Bot.reply) * Db.State)
  : outcome (list reply) * State :=
  (match fst r with
   | Ok (Some a) => Done [Engine a]
   | Ok None => Done []
   | Raise e => Failed e
   end,
   {| groups := groups s; engine := snd r |}).

Definition cmd_add (s : State) (env : Envelope) (args : option str)
  : outcome (list reply) * State :=
  if negb (Bot.ensure_group_chat (message env)) then (Done [Engine Bot.GroupOnly], s) else
  match args with
  | Some ((_ :: _) as args) =>
    match process_expense_text s env args true with
    | (Ok (_, Some a), s) => (Done [Engine a], s)
    | (Ok (_, None), s) => (Done [], s)
    | (Raise e, s) => (Failed e, s)
    end
  | _ => (Done [Engine Bot.AddUsage], s)
  end.

(** The answer to [/last]. *)
Definition last (s : State) (group_id : Z) : list reply :=
  match GroupDb.last_expenses (engine s) group_id 10 with
  | [] => [NoExpenses]
  | (_ :: _) as rows => [LastExpenses rows]
  end.

Definition on_plain_text (s : State) (env : Envelope) : outcome (list reply) * State :=
  if negb (Bot.ensure_group_chat (message env)) then (Done [], s) else
  match Bot.from_user (message env) with
  | None => (Done [], s)
  | Some user =>
    if Bot.is_bot user then (Done [], s) else
    match strip (default [] (Bot.text (message env))) with
    | [] => (Done [], s)
    | (c :: rest) as text =>
      if bool_decide (c = 47%N) then
        match split rest with
        | [] => (Failed IndexError, s)
        | head :: _ =>
          let cmd := default [] (hd_error (split_on 64 (lower head))) in
          if bool_decide (cmd ∈ [lit "today"; lit "month"])
          then (Done [Engine Bot.Report], s)
          else if bool_decide (cmd = lit "last")
          then (Done (last s (Bot.chat_id (Bot.chat (message env)))), s)
          else if bool_decide (cmd = lit "undo")
          then lift s (Bot.undo (engine s) (Bot.chat_id (Bot.chat (message env))) user)
          else (Done [], s)
        end
      else
        match process_expense_text s env text false with
        | (Ok (_, Some a), s) => (Done [Engine a], s)
        | (Ok (_, None), s) => (Done [], s)
        | (Raise e, s) => (Failed e, s)
        end
    end
  end.

Definition on_category_chosen (s : State) (query : Bot.CallbackQuery)
  : outcome (list reply) * State :=
  lift s (Bot.on_category_chosen (engine s) query).

(** [cmd_today] and [cmd_month] *)
Definition cmd_report (s : State) (env : Envelope) : outcome (list reply) * State :=
  if negb (Bot.ensure_group_chat (message env)) then (Done [Engine Bot.GroupOnly], s)
  else (Done [Engine Bot.Report], s).

Definition cmd_last (s : State) (env : Envelope) : outcome (list reply) * State :=
  if negb (Bot.ensure_group_chat (message env)) then (Done [Engine Bot.GroupOnly], s)
  else (Done (last s (Bot.chat_id (Bot.chat (message env)))), s).

Definition cmd_undo (s : State) (env : Envelope) : outcome (list reply) * State :=
  lift s (Bot.cmd_undo (engine s) (message env)).

(** ** The dispatcher

    One update is handled at a time.  [Reminded] is a write of the
    reminder worker: [list_groups_due_for_reminder] and
    [mark_group_reminded] store the local date of a group they have
    dealt with; which groups and dates these are depends on the clock
    and the time zone database, which are not modelled. *)
Inductive update :=
| CmdStart (env : Envelope)
| CmdApp (env : Envelope)
| CmdSetup (env : Envelope) (args : option str)
| CmdSettings (env : Envelope)
| CmdRemind (env : Envelope) (args : option str)
| CmdTz (env : Envelope) (args : option str)
| SettingsButton (query : SettingsQuery)
| CmdAdd (env : Envelope) (args : option str)
| PlainText (env : Envelope)
| CategoryButton (query : Bot.CallbackQuery)
| CmdToday (env : Envelope)
| CmdMonth (env : Envelope)
| CmdLast (env : Envelope)
| CmdUndo (env : Envelope)
| Reminded (group_id : Z) (local_date : str).

Definition handle (s : State) (u : update) : outcome (list reply) * State :=
  match u with
  | CmdStart env => cmd_start s env
  | CmdApp env => cmd_app s env
  | CmdSetup env args => cmd_setup s env args
  | CmdSettings env => cmd_settings s env
  | CmdRemind env args => cmd_remind s env args
  | CmdTz env args => cmd_tz s env args
  | SettingsButton query => on_settings_callback s query
  | CmdAdd env args => cmd_add s env args
  | PlainText env => on_plain_text s env
  | CategoryButton query => on_category_chosen s query
  | CmdToday env | CmdMonth env => cmd_report s env
  | CmdLast env => cmd_last s env
  | CmdUndo env => cmd_undo s env
  | Reminded group_id local_date =>
    (Done [], {| groups := GroupDb.mark_group_reminded (groups s) group_id local_date;
               engine := engine s |})
  end.

Inductive reachable : State -> Prop :=
| reachable_init : reachable init
| reachable_step s u : reachable s -> reachable (snd (handle s u)).

(** The update of the engine's transition system that an update of the
    dispatcher amounts to. *)
Definition engine_update (u : update) : Bot.update :=
  match u with
  | CmdAdd env args => Bot.CmdAdd (message env) args
  | PlainText env => Bot.PlainText (message env)
  | CategoryButton query => Bot.CategoryButton query
  | CmdUndo env => Bot.CmdUndo (message env)
  | _ => Bot.Housekeeping
  end.

End WithSettings.
End WithRuntime.

End App.

(* ================================================================== *)
(** * Tables for evaluation, continued *)
(* ================================================================== *)

(** The host restricted as [Tables.basic] is: the case mapping of Basic
    Latin and the Cyrillic block, their letters, decimal numerals for
    [float] and a handful of time zone keys. *)
Module HostTables.
Import Py PyMore.

Definition upper_char (c : N) : list N :=
  if Tables.between 97 122 c then [c - 32]%N
  else if Tables.between 0x430 0x44F c then [c - 32]%N
  else if Tables.between 0x450 0x45F c then [c - 80]%N
  else if (Tables.between 0x460 0x481 c || Tables.between 0x48A 0x4BF c
           || Tables.between 0x4D0 0x4FF c) && N.odd c then [c - 1]%N
  else if bool_decide (c = 0x4CF%N) then [0x4C0]%N
  else if Tables.between 0x4C1 0x4CE c && N.even c then [c - 1]%N
  else [c].

Definition isalpha_char (c : N) : bool :=
  Tables.between 65 90 c || Tables.between 97 122 c
  || Tables.between 0x400 0x481 c || Tables.between 0x48A 0x4FF c.

Definition ZoneInfo (key : str) : bool :=
  bool_decide (key ∈ [lit "Europe/Moscow"; lit "Europe/Berlin"; lit "Asia/Tokyo";
                      lit "America/New_York"; lit "UTC"]).

Definition float_of_str (s : str) : option pyfloat :=
  Finite <$> Bot.Decimal (R := Tables.basic) (strip_by Tables.isspace s).

#[export] Instance basic : Host := {|
  PyMore.upper_char := upper_char;
  PyMore.isalpha_char := isalpha_char;
  PyMore.ZoneInfo := ZoneInfo;
  PyMore.float_of_str := float_of_str;
|}.

End HostTables.

(* ================================================================== *)
(** * Properties of the normalizer *)
(* ================================================================== *)

Section Strip.
Variable p : N -> bool.

Lemma lstrip_by_Forall (P : N -> Prop) s : Forall P s -> Forall P (Py.lstrip_by p s).
Proof.
  induction 1 as [|c s Hc Hs IH]; simpl; [constructor|].
  destruct (p c); [assumption | by constructor].
Qed.

Lemma rstrip_by_Forall (P : N -> Prop) s : Forall P s -> Forall P (Py.rstrip_by p s).
Proof.
  induction 1 as [|c s Hc Hs IH]; simpl; [constructor|].
  destruct (Py.rstrip_by p s) as [|d r].
  - destruct (p c); repeat constructor; assumption.
  - by constructor.
Qed.

Lemma strip_by_Forall (P : N -> Prop) s : Forall P s -> Forall P (Py.strip_by p s).
Proof. intros. by apply rstrip_by_Forall, lstrip_by_Forall. Qed.

Lemma lstrip_by_all s : Forall (fun c => p c = true) s -> Py.lstrip_by p s = [].
Proof. induction 1 as [|c s Hc _ IH]; simpl; [done|]. by rewrite Hc. Qed.


Lemma lstrip_by_id s : match s with c :: _ => p c = false | [] => True end ->
  Py.lstrip_by p s = s.
Proof. destruct s as [|c s]; simpl; [done|]. by intros ->. Qed.

(** [ends_clean s]: the last code point of [s], if any, is not in the set. *)
Fixpoint ends_clean (s : Py.str) : Prop :=
  match s with
  | [] => True
  | c :: s' => match s' with [] => p c = false | _ :: _ => ends_clean s' end
  end.

Lemma rstrip_by_ends_clean s : ends_clean (Py.rstrip_by p s).
Proof.
  induction s as [|c s IH]; simpl; [done|].
  destruct (Py.rstrip_by p s) as [|d r].
  - destruct (p c) eqn:Hc; simpl; done.
  - exact IH.
Qed.

Lemma rstrip_by_id s : ends_clean s -> Py.rstrip_by p s = s.
Proof.
  induction s as [|c s IH]; simpl; [done|].
  destruct s as [|d s'].
  - simpl. by intros ->.
  - intros H. rewrite (IH H). done.
Qed.


Lemma ends_clean_last s c : ends_clean (s ++ [c]) -> p c = false.
Proof.
  induction s as [|a s IH]; simpl; [done|].
  destruct (s ++ [c]) eqn:E; [by destruct s|]. exact IH.
Qed.
End Strip.

Section Normalizer.
Context {R : Py.Runtime}.
Import Py Classifier.

(** [single_spaced prev s]: every white-space code point of [s] is a blank
    with no white space before it; [prev] tells whether white space
    precedes [s]. *)
Fixpoint single_spaced (prev : bool) (s : str) : Prop :=
  match s with
  | [] => True
  | c :: s' =>
    if isspace c then c = 32%N /\ prev = false /\ single_spaced true s'
    else single_spaced false s'
  end.

Lemma single_spaced_weaken prev s : single_spaced prev s -> single_spaced false s.
Proof. destruct s as [|c s]; simpl; [done|]. destruct (isspace c); tauto. Qed.

Lemma single_spaced_lstrip prev s :
  single_spaced prev s -> single_spaced true (lstrip_by isspace s).
Proof.
  revert prev. induction s as [|c s IH]; intros prev; simpl; [done|].
  destruct (isspace c) eqn:Hc.
  - intros (_ & _ & H). by eapply IH.
  - intros H. simpl. by rewrite Hc.
Qed.

Lemma single_spaced_rstrip prev s :
  single_spaced prev s -> single_spaced prev (rstrip_by isspace s).
Proof.
  revert prev. induction s as [|c s IH]; intros prev; simpl; [done|].
  intros H.
  assert (Hr : single_spaced (isspace c) (rstrip_by isspace s)).
  { destruct (isspace c); [apply IH; tauto | apply IH; exact H]. }
  destruct (rstrip_by isspace s) as [|d r] eqn:E.
  - destruct (isspace c) eqn:Hc; simpl; [done|]. by rewrite Hc.
  - change (single_spaced prev (c :: d :: r)).
    cbn [single_spaced] in *. destruct (isspace c); [|exact Hr].
    destruct H as (? & ? & _). done.
Qed.

Lemma single_spaced_adjacent prev s1 c d s2 :
  single_spaced prev (s1 ++ c :: d :: s2) -> isspace c = true -> isspace d = false.
Proof.
  revert prev. induction s1 as [|a s1 IH]; intros prev; simpl.
  - intros H Hc. rewrite Hc in H. destruct H as (_ & _ & H).
    destruct (isspace d); [|done]. destruct H as (_ & ? & _). done.
  - destruct (isspace a); [intros (_ & _ & H) | intros H]; by eapply IH.
Qed.

Lemma sub_spaces_from_single_spaced `{!RuntimeLaws R} b s :
  single_spaced b (sub_spaces_from b s).
Proof.
  revert b. induction s as [|c s IH]; intros b; simpl; [done|].
  destruct (isspace c) eqn:Hc.
  - destruct b; [apply IH|]. simpl. rewrite isspace_blank. auto.
  - simpl. rewrite Hc. apply IH.
Qed.

Lemma sub_spaces_from_id b b' s :
  single_spaced b s -> (b' = true -> b = true) -> sub_spaces_from b' s = s.
Proof.
  revert b b'. induction s as [|c s IH]; intros b b'; simpl; [done|].
  destruct (isspace c) eqn:Hc.
  - intros (-> & -> & H) Hb. destruct b'; [by discriminate Hb|].
    f_equal. by eapply IH.
  - intros H _. f_equal. by eapply IH.
Qed.

(** What every code point of a normalized string satisfies. *)
Definition settled (c : N) : Prop := in_class c = true /\ lower_char c = [c].

Lemma lower_fixed s : Forall (fun c => lower_char c = [c]) s -> lower s = s.
Proof.
  unfold lower. induction 1 as [|c s Hc _ IH]; simpl; [done|]. by rewrite Hc, IH.
Qed.

Lemma lower_Forall_fixed `{!RuntimeLaws R} s :
  Forall (fun c => lower_char c = [c]) (lower s).
Proof.
  apply List.Forall_forall. intros d Hd. unfold lower in Hd.
  apply in_flat_map in Hd as (c & _ & Hd). by eapply lower_stable.
Qed.

Lemma settled_blank `{!RuntimeLaws R} : settled 32.
Proof.
  split.
  - unfold in_class. rewrite isspace_blank. by rewrite !orb_true_r.
  - apply lower_space, isspace_blank.
Qed.

Lemma sub_noise_settled `{!RuntimeLaws R} s :
  Forall (fun c => lower_char c = [c]) s -> Forall settled (sub_noise s).
Proof.
  unfold sub_noise. induction 1 as [|c s Hc _ IH]; simpl; constructor; [|exact IH].
  destruct (in_class c) eqn:E; [by split | apply settled_blank].
Qed.

Lemma sub_noise_id s : Forall settled s -> sub_noise s = s.
Proof.
  unfold sub_noise. induction 1 as [|c s [Hc _] _ IH]; simpl; [done|]. by rewrite Hc, IH.
Qed.

Lemma sub_spaces_from_settled `{!RuntimeLaws R} b s :
  Forall settled s -> Forall settled (sub_spaces_from b s).
Proof.
  intros H. revert b. induction H as [|c s Hc _ IH]; intros b; simpl; [constructor|].
  destruct (isspace c).
  - destruct b; [apply IH|]. constructor; [apply settled_blank | apply IH].
  - constructor; [exact Hc | apply IH].
Qed.

(** The three facts that make a string a fixed point of [normalize_text]. *)
Record normal (s : str) : Prop := {
  normal_chars : Forall settled s;
  normal_spacing : single_spaced true s;
  normal_end : ends_clean isspace s;
}.

Lemma normalize_text_normal `{!RuntimeLaws R} text : normal (normalize_text text).
Proof.
  unfold normalize_text, strip, strip_by. split.
  - apply rstrip_by_Forall, lstrip_by_Forall, sub_spaces_from_settled, sub_noise_settled.
    apply rstrip_by_Forall, lstrip_by_Forall, lower_Forall_fixed.
  - apply single_spaced_rstrip. eapply single_spaced_lstrip.
    apply (sub_spaces_from_single_spaced false).
  - apply rstrip_by_ends_clean.
Qed.

Lemma strip_id s : single_spaced true s -> ends_clean isspace s -> strip s = s.
Proof.
  intros Hs He. unfold strip, strip_by.
  rewrite lstrip_by_id; [by apply rstrip_by_id|].
  destruct s as [|c s]; simpl in *; [done|]. destruct (isspace c); [|done].
  destruct Hs as (_ & ? & _). done.
Qed.

Lemma normalize_text_fixed s : normal s -> normalize_text s = s.
Proof.
  intros [Hc Hs He]. unfold normalize_text.
  rewrite lower_fixed by (eapply List.Forall_impl; [|exact Hc]; by intros c [_ ?]).
  rewrite (strip_id s Hs He), (sub_noise_id s Hc).
  unfold sub_spaces. rewrite (sub_spaces_from_id true false s Hs) by done.
  by apply strip_id.
Qed.

Lemma normalize_text_blank `{!RuntimeLaws R} text :
  Forall (fun c => isspace c = true) text -> normalize_text text = [].
Proof.
  intros H. unfold normalize_text.
  rewrite lower_fixed by (eapply List.Forall_impl; [|exact H]; apply lower_space).
  unfold strip at 2, strip_by. by rewrite (lstrip_by_all _ _ H).
Qed.

End Normalizer.

(** The evaluation tables satisfy the laws of the runtime. *)
Section BasicTables.
Import Tables.

Lemma between_spec lo hi c : between lo hi c = true <-> (lo <= c <= hi)%N.
Proof. unfold between. rewrite andb_true_iff, !N.leb_le. tauto. Qed.

Lemma between_false lo hi c : between lo hi c = false <-> (c < lo \/ hi < c)%N.
Proof.
  unfold between. rewrite andb_false_iff, !N.leb_gt. tauto.
Qed.

Lemma even_cases c :
  (N.even c = true /\ exists k, c = 2 * k)%N \/ (N.even c = false /\ exists k, c = 2 * k + 1)%N.
Proof.
  destruct (N.even c) eqn:E; [left | right]; split; try reflexivity.
  - by apply N.even_spec.
  - apply N.odd_spec. by rewrite <- N.negb_even, E.
Qed.

(** The code points that [lower_char] leaves alone; [k] is the half of
    the code point where its parity matters. *)
Definition lower_case (c : N) : Prop :=
  exists k,
    (c < 65 \/ 91 <= c < 0x130 \/ 0x130 < c < 0x400 \/ 0x430 <= c <= 0x45F
     \/ 0x482 <= c <= 0x489 \/ c = 0x4CF \/ 0x500 <= c < 0x212A \/ 0x212A < c
     \/ (0x460 <= c <= 0x4BF /\ c = 2 * k + 1)
     \/ (0x4C1 <= c <= 0x4CE /\ c = 2 * k)
     \/ (0x4D0 <= c <= 0x4FF /\ c = 2 * k + 1))%N.

(** Turns the recorded outcome of a test of [lower_char] into arithmetic. *)
Ltac test_facts :=
  repeat match goal with
  | H : _ && _ = true |- _ => apply andb_true_iff in H as [? ?]
  | H : _ || _ = false |- _ => apply orb_false_iff in H as [? ?]
  | H : _ && _ = false |- _ => apply andb_false_iff in H
  | H : _ || _ = true |- _ => apply orb_true_iff in H
  | H : between _ _ _ = true |- _ => apply between_spec in H
  | H : between _ _ _ = false |- _ => apply between_false in H
  | H : bool_decide _ = true |- _ => apply bool_decide_eq_true in H
  | H : bool_decide _ = false |- _ => apply bool_decide_eq_false in H
  | H : true = false |- _ => discriminate H
  | H : false = true |- _ => discriminate H
  | H : _ \/ _ |- _ => destruct H
  end.

Lemma basic_lower_fixed c : lower_case c -> lower_char c = [c].
Proof.
  intros [k H]. unfold lower_char. rewrite <- (N.negb_even c).
  destruct (even_cases c) as [[-> [k' Hk]]|[-> [k' Hk]]]; cbn [negb];
  repeat match goal with
         | |- (if ?b then _ else _) = _ =>
           destruct b eqn:?; [exfalso; test_facts; lia|]
         end; reflexivity.
Qed.

Lemma basic_lower_stable c d : In d (lower_char c) -> lower_case d.
Proof.
  unfold lower_char. rewrite <- (N.negb_even c).
  destruct (even_cases c) as [[-> [k Hk]]|[-> [k Hk]]]; cbn [negb];
  repeat match goal with
         | |- In _ (if ?b then _ else _) -> _ =>
           destruct b eqn:?;
           [simpl; intros H;
            repeat (destruct H as [<-|H]; [|]); try (destruct H; fail);
            test_facts;
            first [exists k; lia | exists (k + 1)%N; lia] |]
         end.
  all: simpl; intros [<-|[]]; test_facts; exists k; lia.
Qed.

Lemma basic_laws : Py.RuntimeLaws basic.
Proof.
  split.
  - reflexivity.
  - intros c H. apply basic_lower_fixed. cbn in H. unfold isspace in H.
    rewrite !orb_true_iff, !between_spec, bool_decide_eq_true in H.
    rewrite !elem_of_cons, elem_of_nil in H. exists 0%N. lia.
  - intros c d H. by eapply basic_lower_fixed, basic_lower_stable.
Qed.
End BasicTables.

Section NormalizerClaim.
Import Py Classifier.

(** C10. [normalize_text] is a total function (it has no error result),
    it is idempotent, it maps the empty string and every string made of
    white space only to the empty string, and its result never begins or
    ends with white space nor holds two white-space code points in a row. *)
Theorem normalize_text_canonical (R : Runtime) (L : RuntimeLaws R) (x : str) :
  normalize_text (normalize_text x) = normalize_text x
  /\ (Forall (fun c => isspace c = true) x -> normalize_text x = [])
  /\ (forall c s, normalize_text x = c :: s -> isspace c = false)
  /\ (forall s c, normalize_text x = s ++ [c] -> isspace c = false)
  /\ (forall s1 c d s2, normalize_text x = s1 ++ c :: d :: s2 ->
        ~ (isspace c = true /\ isspace d = true)).
Proof.
  pose proof (normalize_text_normal x) as [Hc Hs He].
  repeat split.
  - apply normalize_text_fixed, normalize_text_normal.
  - apply normalize_text_blank.
  - intros c s E. rewrite E in Hs. simpl in Hs.
    destruct (isspace c); [|done]. destruct Hs as (_ & ? & _). done.
  - intros s c E. rewrite E in He. by eapply ends_clean_last.
  - intros s1 c d s2 E [H1 H2]. rewrite E in Hs.
    pose proof (single_spaced_adjacent _ _ _ _ _ Hs H1) as H. congruence.
Qed.

Lemma normalize_text_canonical_witness :
  @normalize_text Tables.basic (@normalize_text Tables.basic (lit "  Кофе, 2  ШТ!! "))
    = @normalize_text Tables.basic (lit "  Кофе, 2  ШТ!! ")
  /\ @normalize_text Tables.basic (lit "   ") = [].
Proof.
  split.
  - exact (proj1 (normalize_text_canonical Tables.basic basic_laws (lit "  Кофе, 2  ШТ!! "))).
  - refine (proj1 (proj2 (normalize_text_canonical Tables.basic basic_laws (lit "   "))) _).
    repeat constructor.
Defined.

End NormalizerClaim.

(* ================================================================== *)
(** * Properties of dictionaries and of the taxonomy *)
(* ================================================================== *)

Section Dict.
Import Py.
Context {V : Type}.
Implicit Types (d : dict V) (k : str) (v : V).

Lemma dict_get_set_eq k v d : dict_get k (dict_set k v d) = Some v.
Proof.
  induction d as [|[k' v'] d IH]; simpl.
  - by rewrite bool_decide_eq_true_2.
  - destruct (bool_decide (k' = k)) eqn:E; simpl.
    + by rewrite bool_decide_eq_true_2.
    + by rewrite E.
Qed.

Lemma dict_get_set_ne k k' v d : k <> k' -> dict_get k' (dict_set k v d) = dict_get k' d.
Proof.
  intros Hne. induction d as [|[k0 v0] d IH]; simpl.
  - by rewrite bool_decide_eq_false_2.
  - destruct (bool_decide (k0 = k)) eqn:E; simpl.
    + apply bool_decide_eq_true in E as ->.
      by rewrite !bool_decide_eq_false_2.
    + by rewrite IH.
Qed.

Lemma dict_get_fresh k d : k ∉ map fst d -> dict_get k d = None.
Proof.
  induction d as [|[k' v'] d IH]; simpl; [done|].
  intros H. apply not_elem_of_cons in H as [H1 H2].
  rewrite bool_decide_eq_false_2 by congruence. by apply IH.
Qed.

Lemma dict_get_app_fresh k d d' : k ∉ map fst d -> dict_get k (d ++ d') = dict_get k d'.
Proof.
  induction d as [|[k' v'] d IH]; simpl; [done|].
  intros H. apply not_elem_of_cons in H as [H1 H2].
  rewrite bool_decide_eq_false_2 by congruence. by apply IH.
Qed.

Lemma dict_get_app_l k d d' v : dict_get k d = Some v -> dict_get k (d ++ d') = Some v.
Proof.
  induction d as [|[k' v'] d IH]; simpl; [done|].
  destruct (bool_decide (k' = k)); [done | exact IH].
Qed.

Lemma dict_set_fresh k v d : k ∉ map fst d -> dict_set k v d = d ++ [(k, v)].
Proof.
  induction d as [|[k' v'] d IH]; simpl; [done|].
  intros H. apply not_elem_of_cons in H as [H1 H2].
  rewrite bool_decide_eq_false_2 by congruence. by rewrite IH.
Qed.

Lemma dict_set_last k v v0 d :
  k ∉ map fst d -> dict_set k v (d ++ [(k, v0)]) = d ++ [(k, v)].
Proof.
  induction d as [|[k' v'] d IH]; simpl.
  - by rewrite bool_decide_eq_true_2.
  - intros H. apply not_elem_of_cons in H as [H1 H2].
    rewrite bool_decide_eq_false_2 by congruence. by rewrite IH.
Qed.

Lemma dict_get_last k v d : k ∉ map fst d -> dict_get k (d ++ [(k, v)]) = Some v.
Proof.
  intros H. rewrite dict_get_app_fresh by done. simpl. by rewrite bool_decide_eq_true_2.
Qed.
End Dict.

Section TaxonomyFacts.
Import Py Taxonomy.

(** The parent category the taxonomy declares for a subcategory key. *)
Definition parent_category (k : str) : option str :=
  category <$> List.find (fun x => bool_decide (key x = k)) SUBCATEGORIES.

Lemma keys_NoDup : NoDup (map key SUBCATEGORIES).
Proof. apply (bool_decide_unpack _). vm_compute. exact I. Qed.

Lemma dict_get_map {A} (kf : A -> str) (f : A -> str) (l : list A) k :
  dict_get k (map (fun x => (kf x, f x)) l)
  = f <$> List.find (fun x => bool_decide (kf x = k)) l.
Proof.
  induction l as [|x l IH]; simpl; [done|].
  destruct (bool_decide (kf x = k)); [done | exact IH].
Qed.

Lemma SUBCATEGORY_TO_CATEGORY_spec k :
  dict_get k SUBCATEGORY_TO_CATEGORY = parent_category k.
Proof.
  unfold parent_category. rewrite <- dict_get_map. f_equal.
Qed.

Lemma parent_category_key sub :
  sub ∈ SUBCATEGORIES -> parent_category (key sub) = Some (category sub).
Proof.
  intros H. unfold SUBCATEGORIES in H.
  repeat (apply elem_of_cons in H as [->|H]; [vm_compute; reflexivity|]).
  by apply elem_of_nil in H.
Qed.

Lemma parent_category_nonempty k cat : parent_category k = Some cat -> k <> [].
Proof. intros H ->. vm_compute in H. discriminate H. Qed.

Lemma parent_category_elem k cat :
  parent_category k = Some cat ->
  exists sub, sub ∈ SUBCATEGORIES /\ key sub = k /\ category sub = cat.
Proof.
  unfold parent_category. intros H.
  destruct (List.find _ SUBCATEGORIES) as [sub|] eqn:E; [|done].
  injection H as <-. apply find_some in E as [H1 H2].
  exists sub. split; [by apply list_elem_of_In|]. split; [|done].
  by apply bool_decide_eq_true in H2.
Qed.
End TaxonomyFacts.

(* ================================================================== *)
(** * Properties of the predictor *)
(* ================================================================== *)

Section Scoring.
Context {R : Py.Runtime}.
Import Py Taxonomy Classifier.

(** Following the specification: a keyword adds 1.0 when it occurs in the
    normalized note, and 0.35 more when the note equals it or starts with
    it followed by a blank. *)
Definition keyword_score (normalized word : str) : Q :=
  ((if contains word normalized then 1 else 0)
   + (if bool_decide (normalized = word) || startswith (word ++ lit " ") normalized
      then 0.35 else 0))%Q.

Definition subcategory_score (normalized : str) (sub : SubcategoryDef) : Q :=
  fold_right (fun word acc => (keyword_score normalized word + acc)%Q) 0%Q (keywords sub).

Lemma startswith_refl s : startswith s s = true.
Proof. induction s as [|c s IH]; simpl; [done|]. by rewrite bool_decide_eq_true_2. Qed.

Lemma startswith_app_l p q s : startswith (p ++ q) s = true -> startswith p s = true.
Proof.
  revert s. induction p as [|a p IH]; intros s; simpl; [done|].
  destruct s as [|b s]; [done|].
  rewrite !andb_true_iff. intros [? ?]. split; [done|]. by apply IH.
Qed.

Lemma startswith_contains p s : startswith p s = true -> contains p s = true.
Proof. intros H. destruct s; simpl; by rewrite H. Qed.

Lemma bonus_contains normalized word :
  bool_decide (normalized = word) || startswith (word ++ lit " ") normalized = true ->
  contains word normalized = true.
Proof.
  intros [H|H]%orb_true_iff; apply startswith_contains.
  - apply bool_decide_eq_true in H as ->. apply startswith_refl.
  - by eapply startswith_app_l.
Qed.

Lemma keyword_score_nonneg normalized word : (0 <= keyword_score normalized word)%Q.
Proof.
  unfold keyword_score.
  destruct (contains _ _), (bool_decide _ || startswith _ _); lra.
Qed.

Lemma keyword_score_hit normalized word :
  contains word normalized = true -> (1 <= keyword_score normalized word)%Q.
Proof.
  unfold keyword_score. intros ->.
  destruct (bool_decide _ || startswith _ _); lra.
Qed.

Lemma keyword_score_miss normalized word :
  contains word normalized = false -> keyword_score normalized word = (0 + 0)%Q.
Proof.
  unfold keyword_score. intros H. rewrite H.
  destruct (bool_decide _ || startswith _ _) eqn:E; [|done].
  apply bonus_contains in E. congruence.
Qed.

(** The value [score[key]] after one more keyword, [None] while the key
    is absent. *)
Definition bump (normalized : str) (o : option Q) (word : str) : option Q :=
  if contains word normalized then
    let v := (default 0 o + 1)%Q in
    Some (if bool_decide (normalized = word) || startswith (word ++ lit " ") normalized
          then (v + 0.35)%Q else v)
  else o.

Definition own_score (normalized : str) (sub : SubcategoryDef) : option Q :=
  fold_left (bump normalized) (keywords sub) None.

Definition entry (k : str) (o : option Q) : dict Q :=
  match o with Some v => [(k, v)] | None => [] end.

Lemma score_word_entry normalized k d o word :
  k ∉ map fst d ->
  score_word normalized k (d ++ entry k o) word = d ++ entry k (bump normalized o word).
Proof.
  intros Hk. unfold score_word, bump.
  destruct (contains word normalized); [|done].
  assert (E : dict_add k 1 (d ++ entry k o) = d ++ [(k, (default 0 o + 1)%Q)]).
  { unfold dict_add. destruct o as [v|]; simpl.
    - by rewrite dict_get_last, dict_set_last.
    - rewrite app_nil_r, dict_get_fresh, dict_set_fresh; done. }
  rewrite E. destruct (bool_decide _ || startswith _ _); [|done].
  unfold dict_add. by rewrite dict_get_last, dict_set_last.
Qed.

Lemma score_sub_entry normalized d sub :
  key sub ∉ map fst d ->
  score_sub normalized d sub = d ++ entry (key sub) (own_score normalized sub).
Proof.
  intros Hk. unfold score_sub, own_score.
  rewrite <- (app_nil_r d) at 1. change [] with (entry (key sub) None) at 1.
  generalize (None : option Q). induction (keywords sub) as [|w ws IH]; intros o; simpl.
  - done.
  - rewrite score_word_entry by done. apply IH.
Qed.

Definition candidates (normalized : str) (subs : list SubcategoryDef) : dict Q :=
  flat_map (fun sub => entry (key sub) (own_score normalized sub)) subs.

Lemma candidates_keys normalized subs :
  map fst (candidates normalized subs) ⊆ map key subs.
Proof.
  induction subs as [|sub subs IH]; simpl; [done|].
  unfold candidates in *. simpl. rewrite map_app.
  destruct (own_score normalized sub); simpl.
  - intros k [->|H]%elem_of_cons; [left | right; by apply IH].
  - intros k H. right. by apply IH.
Qed.

Lemma fold_score_sub normalized subs d :
  NoDup (map fst d ++ map key subs) ->
  fold_left (score_sub normalized) subs d = d ++ candidates normalized subs.
Proof.
  revert d. induction subs as [|sub subs IH]; intros d Hd; simpl.
  - by rewrite app_nil_r.
  - apply NoDup_app in Hd as (Hd1 & Hd2 & Hd3).
    assert (Hk : key sub ∉ map fst d).
    { intros H. apply (Hd2 _ H). simpl. left. }
    rewrite score_sub_entry by done. rewrite IH.
    + unfold candidates. simpl. by rewrite app_assoc.
    + simpl in Hd3. apply NoDup_cons in Hd3 as [Hd3 Hd4].
      rewrite map_app. apply NoDup_app. split; [|split; [|done]].
      * apply NoDup_app. split; [done|]. split.
        -- intros k Hk1 Hk2. destruct (own_score normalized sub); simpl in Hk2.
           ++ apply list_elem_of_singleton in Hk2 as ->. done.
           ++ by apply elem_of_nil in Hk2.
        -- destruct (own_score normalized sub); simpl; [apply NoDup_singleton | apply NoDup_nil_2].
      * intros k [Hk1|Hk1]%elem_of_app Hk2.
        -- apply (Hd2 _ Hk1). simpl. by right.
        -- destruct (own_score normalized sub); simpl in Hk1.
           ++ apply list_elem_of_singleton in Hk1 as ->. done.
           ++ by apply elem_of_nil in Hk1.
Qed.

Lemma keyword_scores_candidates normalized :
  keyword_scores normalized = candidates normalized SUBCATEGORIES.
Proof.
  unfold keyword_scores. rewrite fold_score_sub; [done|]. simpl. apply keys_NoDup.
Qed.
End Scoring.

Section Scoring2.
Context {R : Py.Runtime}.
Import Py Taxonomy Classifier.

Lemma fold_bump_value normalized ws o :
  (default 0 (fold_left (bump normalized) ws o)
   == default 0 o + fold_right (fun w acc => keyword_score normalized w + acc) 0 ws)%Q.
Proof.
  revert o. induction ws as [|w ws IH]; intros o; simpl; [lra|].
  rewrite IH. unfold bump.
  destruct (contains w normalized) eqn:E.
  - unfold keyword_score. rewrite E.
    destruct (bool_decide _ || startswith _ _); simpl; lra.
  - rewrite (keyword_score_miss _ _ E). lra.
Qed.

Lemma own_score_value normalized sub :
  (default 0 (own_score normalized sub) == subcategory_score normalized sub)%Q.
Proof. unfold own_score, subcategory_score. rewrite fold_bump_value. simpl. lra. Qed.

Lemma fold_bump_ge normalized ws o v :
  fold_left (bump normalized) ws o = Some v ->
  (forall v0, o = Some v0 -> 1 <= v0)%Q -> (1 <= v)%Q.
Proof.
  revert o. induction ws as [|w ws IH]; intros o; simpl.
  - intros -> H. by apply H.
  - intros H Ho. apply (IH _ H). unfold bump.
    destruct (contains w normalized); [|exact Ho].
    intros v0 [= <-].
    assert (0 <= default 0 o)%Q.
    { destruct o as [v1|]; simpl; [specialize (Ho v1 eq_refl)|]; lra. }
    destruct (bool_decide _ || startswith _ _); lra.
Qed.

Lemma own_score_ge normalized sub v : own_score normalized sub = Some v -> (1 <= v)%Q.
Proof. intros H. by apply (fold_bump_ge _ _ _ _ H). Qed.

Lemma subcategory_score_nonneg normalized sub : (0 <= subcategory_score normalized sub)%Q.
Proof.
  unfold subcategory_score. induction (keywords sub) as [|w ws IH]; simpl; [lra|].
  pose proof (keyword_score_nonneg normalized w). lra.
Qed.

(** A subcategory is absent from the score dictionary exactly when its
    score is zero. *)
Lemma own_score_None normalized sub :
  own_score normalized sub = None <-> (subcategory_score normalized sub == 0)%Q.
Proof.
  pose proof (own_score_value normalized sub) as Hv. split.
  - intros H. rewrite H in Hv. simpl in Hv. lra.
  - intros H. destruct (own_score normalized sub) as [v|] eqn:E; [|done].
    apply own_score_ge in E. simpl in Hv. lra.
Qed.

Lemma candidates_get normalized subs sub :
  NoDup (map key subs) -> sub ∈ subs ->
  dict_get (key sub) (candidates normalized subs) = own_score normalized sub.
Proof.
  induction subs as [|x subs IH]; intros Hnd Hin; [by apply elem_of_nil in Hin|].
  simpl in Hnd. apply NoDup_cons in Hnd as [Hx Hnd].
  unfold candidates. simpl. fold (candidates normalized subs).
  apply elem_of_cons in Hin as [->|Hin].
  - destruct (own_score normalized x) as [v|] eqn:E; simpl.
    + by rewrite bool_decide_eq_true_2.
    + apply dict_get_fresh. intros H. apply Hx. by apply candidates_keys in H.
  - assert (key x <> key sub).
    { intros E. apply Hx. rewrite E. by apply list_elem_of_fmap_2. }
    destruct (own_score normalized x) as [v|]; simpl.
    + rewrite bool_decide_eq_false_2 by done. by apply IH.
    + by apply IH.
Qed.

Lemma keyword_scores_get normalized sub :
  sub ∈ SUBCATEGORIES ->
  (default 0 (dict_get (key sub) (keyword_scores normalized))
   == subcategory_score normalized sub)%Q.
Proof.
  intros H. rewrite keyword_scores_candidates, candidates_get.
  - apply own_score_value.
  - apply keys_NoDup.
  - done.
Qed.

Lemma keyword_scores_empty normalized :
  (forall sub, sub ∈ SUBCATEGORIES -> subcategory_score normalized sub == 0)%Q ->
  keyword_scores normalized = [].
Proof.
  intros H. rewrite keyword_scores_candidates. unfold candidates.
  induction SUBCATEGORIES as [|sub subs IH]; simpl; [done|].
  rewrite (proj2 (own_score_None normalized sub)) by (apply H; left).
  simpl. apply IH. intros s Hs. apply H. by right.
Qed.

(** ** The stable descending sort *)

Definition le_score (a b : str * Q) : Prop := (snd b <= snd a)%Q.

Lemma insert_desc_perm x l : Permutation (insert_desc x l) (x :: l).
Proof.
  induction l as [|y l IH]; simpl; [done|].
  destruct (Qle_bool (snd y) (snd x)); [done|].
  rewrite IH. apply perm_swap.
Qed.

Lemma sorted_desc_perm l : Permutation (sorted_desc l) l.
Proof.
  induction l as [|x l IH]; simpl; [done|].
  rewrite insert_desc_perm. by constructor.
Qed.

Lemma insert_desc_sorted x l :
  StronglySorted le_score l -> StronglySorted le_score (insert_desc x l).
Proof.
  induction 1 as [|y l Hl IH Hy]; simpl.
  - repeat constructor.
  - destruct (Qle_bool (snd y) (snd x)) eqn:E.
    + apply Qle_bool_iff in E. constructor; [by constructor|].
      constructor; [exact E|].
      eapply List.Forall_impl; [|exact Hy]. unfold le_score. intros a Ha. lra.
    + constructor; [exact IH|].
      assert (Hlt : ~ (snd y <= snd x)%Q) by (rewrite <- Qle_bool_iff; congruence).
      rewrite insert_desc_perm. constructor; [|exact Hy].
      unfold le_score. lra.
Qed.

Lemma sorted_desc_sorted l : StronglySorted le_score (sorted_desc l).
Proof.
  induction l as [|x l IH]; simpl; [constructor|]. by apply insert_desc_sorted.
Qed.

(** The head of the sorted list is the first item of the input among
    those of greatest score. *)
Lemma sorted_desc_head l e rest :
  sorted_desc l = e :: rest ->
  exists l1 l2,
    l = l1 ++ e :: l2
    /\ Forall (fun x => snd x < snd e)%Q l1
    /\ Forall (fun x => snd x <= snd e)%Q l2
    /\ Permutation rest (l1 ++ l2).
Proof.
  revert e rest. induction l as [|x l IH]; intros e rest; simpl; [done|].
  destruct (sorted_desc l) as [|e' r'] eqn:E; simpl.
  - intros [= <- <-]. exists [], l.
    pose proof (sorted_desc_perm l) as Hp. rewrite E in Hp.
    apply Permutation_nil in Hp as ->. repeat split; constructor.
  - destruct (IH _ _ eq_refl) as (l1 & l2 & -> & H1 & H2 & Hp).
    destruct (Qle_bool (snd e') (snd x)) eqn:Hle.
    + apply Qle_bool_iff in Hle. intros [= <- <-].
      exists [], (l1 ++ e' :: l2). repeat split; [constructor| |].
      * apply Forall_app. split; [|constructor].
        -- eapply List.Forall_impl; [|exact H1]. intros a Ha. simpl in Ha. lra.
        -- exact Hle.
        -- eapply List.Forall_impl; [|exact H2]. intros a Ha. simpl in Ha. lra.
      * simpl. rewrite Hp. apply Permutation_middle.
    + assert (Hlt : ~ (snd e' <= snd x)%Q) by (rewrite <- Qle_bool_iff; congruence).
      intros [= <- <-]. exists (x :: l1), l2. repeat split.
      * constructor; [lra | exact H1].
      * exact H2.
      * rewrite insert_desc_perm, Hp. done.
Qed.
End Scoring2.

Section Rounding.
Import Py.

(** Following the specification: [clamp(lo, hi, x)] is [x] limited to the
    interval from [lo] to [hi]. *)
Definition clamp (lo hi x : Q) : Q :=
  if Qlt_le_dec x lo then lo else if Qlt_le_dec hi x then hi else x.

Lemma clamp_confidence_clamp best second :
  (Classifier.clamp_confidence best second
   == clamp 0.2 0.98 (0.55 + best * 0.12 - second * 0.07))%Q.
Proof.
  unfold Classifier.clamp_confidence, clamp, Py.min, Py.max.
  set (x := (0.55 + best * 0.12 - second * 0.07)%Q).
  destruct (Qle_bool 0.98 x) eqn:E1.
  - apply Qle_bool_iff in E1. simpl.
    destruct (Qlt_le_dec x 0.2); [lra|]. destruct (Qlt_le_dec 0.98 x); lra.
  - assert (~ (0.98 <= x)%Q) by (rewrite <- Qle_bool_iff; congruence).
    destruct (Qle_bool x 0.2) eqn:E2.
    + apply Qle_bool_iff in E2. destruct (Qlt_le_dec x 0.2); [lra|].
      destruct (Qlt_le_dec 0.98 x); lra.
    + assert (~ (x <= 0.2)%Q) by (rewrite <- Qle_bool_iff; congruence).
      destruct (Qlt_le_dec x 0.2); [lra|]. destruct (Qlt_le_dec 0.98 x); lra.
Qed.

Lemma clamp_bounds lo hi x : (lo <= hi)%Q -> (lo <= clamp lo hi x <= hi)%Q.
Proof.
  intros H. unfold clamp. destruct (Qlt_le_dec x lo); [lra|].
  destruct (Qlt_le_dec hi x); lra.
Qed.

Lemma round2_proper x y : (x == y)%Q -> round2 x = round2 y.
Proof.
  intros H. unfold round2.
  assert (E : (x * 100 == y * 100)%Q) by (apply Qmult_comp; [exact H | reflexivity]).
  rewrite (Qfloor_comp _ _ E).
  assert (E' : (x * 100 - inject_Z (Qfloor (y * 100))
                == y * 100 - inject_Z (Qfloor (y * 100)))%Q).
  { apply Qplus_comp; [exact E | reflexivity]. }
  by rewrite (Qcompare_comp _ _ E' _ _ (Qeq_refl _)).
Qed.

Lemma round2_bounds x : (0.2 <= x <= 0.98)%Q -> (0.2 <= round2 x <= 0.98)%Q.
Proof.
  intros [Hlo Hhi]. unfold round2.
  set (y := (x * 100)%Q). set (f := Qfloor y).
  assert (Hy : (20 <= y <= 98)%Q) by (unfold y; lra).
  assert (Hf1 : 20 <= f).
  { change 20 with (Qfloor (inject_Z 20)). apply Qfloor_resp_le. apply Hy. }
  assert (Hf2 : f <= 98).
  { change 98 with (Qfloor (inject_Z 98)). apply Qfloor_resp_le. apply Hy. }
  pose proof (Qfloor_le y) as Hfy. fold f in Hfy. clearbody f. clearbody y.
  assert (Hn : 20 <= match (y - inject_Z f ?= 1 # 2)%Q with
                      | Eq => if Z.even f then f else f + 1
                      | Lt => f
                      | Gt => f + 1
                      end <= 98).
  { destruct (Z.eq_dec f 98) as [E|E].
    - assert (Hr : (y - inject_Z f ?= 1 # 2)%Q = Lt).
      { apply (proj1 (Qlt_alt _ _)). subst f. change (inject_Z 98) with 98%Q in *. lra. }
      rewrite Hr. lia.
    - destruct (y - inject_Z f ?= 1 # 2)%Q; [destruct (Z.even f)|..]; lia. }
  destruct Hn as [Hn1 Hn2]. unfold Qle. simpl. lia.
Qed.
End Rounding.

Section Ranking.
Import Py Taxonomy Classifier.

Lemma candidates_app normalized A B :
  candidates normalized (A ++ B) = candidates normalized A ++ candidates normalized B.
Proof. unfold candidates. apply flat_map_app. Qed.

Lemma candidates_elem normalized subs k v :
  (k, v) ∈ candidates normalized subs ->
  exists sub, sub ∈ subs /\ key sub = k /\ own_score normalized sub = Some v.
Proof.
  induction subs as [|x subs IH]; [by intros H%elem_of_nil|].
  change (candidates normalized (x :: subs))
    with (entry (key x) (own_score normalized x) ++ candidates normalized subs).
  intros [H|H]%elem_of_app.
  - destruct (own_score normalized x) as [w|] eqn:E; simpl in H.
    + apply list_elem_of_singleton in H as [= -> ->]. exists x. by repeat split; [left|..].
    + by apply elem_of_nil in H.
  - destruct (IH H) as (sub & ? & ? & ?). exists sub. by repeat split; [right|..].
Qed.

Lemma candidates_of normalized subs sub v :
  sub ∈ subs -> own_score normalized sub = Some v ->
  (key sub, v) ∈ candidates normalized subs.
Proof.
  induction subs as [|x subs IH]; [by intros H%elem_of_nil|].
  change (candidates normalized (x :: subs))
    with (entry (key x) (own_score normalized x) ++ candidates normalized subs).
  intros [->|H]%elem_of_cons E; apply elem_of_app.
  - left. rewrite E. simpl. left.
  - right. by apply IH.
Qed.

Lemma candidates_split normalized subs l1 e l2 :
  candidates normalized subs = l1 ++ e :: l2 ->
  exists S1 sub S2,
    subs = S1 ++ sub :: S2
    /\ candidates normalized S1 = l1
    /\ entry (key sub) (own_score normalized sub) = [e]
    /\ candidates normalized S2 = l2.
Proof.
  revert l1. induction subs as [|x subs IH]; intros l1.
  - intros H. by destruct l1.
  - change (candidates normalized (x :: subs))
      with (entry (key x) (own_score normalized x) ++ candidates normalized subs).
    destruct (own_score normalized x) as [w|] eqn:E; simpl.
    + destruct l1 as [|a l1]; simpl.
      * intros [= <- <-]. exists [], x, subs. by rewrite E.
      * intros [= <- H]. destruct (IH _ H) as (S1 & sub & S2 & -> & H1 & H2 & H3).
        exists (x :: S1), sub, S2. repeat split; [|done..].
        change (candidates normalized (x :: S1))
          with (entry (key x) (own_score normalized x) ++ candidates normalized S1).
        by rewrite E, H1.
    + intros H. destruct (IH _ H) as (S1 & sub & S2 & -> & H1 & H2 & H3).
      exists (x :: S1), sub, S2. repeat split; [|done..].
      change (candidates normalized (x :: S1))
        with (entry (key x) (own_score normalized x) ++ candidates normalized S1).
      by rewrite E, H1.
Qed.

(** [second] is the largest score among [others], which is zero when
    none of them matched. *)
Definition runner_up (normalized : str) (others : list SubcategoryDef) (second : Q) : Prop :=
  (forall s, s ∈ others -> subcategory_score normalized s <= second)%Q
  /\ ((exists s, s ∈ others /\ subcategory_score normalized s == second)%Q
      \/ (second == 0)%Q).

(** What [predict_rules] returns. *)
Inductive rules_outcome (normalized : str) : result (option Prediction) -> Prop :=
| rules_none :
    (forall sub, sub ∈ SUBCATEGORIES -> subcategory_score normalized sub == 0)%Q ->
    rules_outcome normalized (Ok None)
| rules_some S1 sub S2 best second :
    SUBCATEGORIES = S1 ++ sub :: S2 ->
    (best == subcategory_score normalized sub)%Q ->
    (1 <= best)%Q ->
    Forall (fun s => subcategory_score normalized s < best)%Q S1 ->
    Forall (fun s => subcategory_score normalized s <= best)%Q S2 ->
    runner_up normalized (S1 ++ S2) second ->
    rules_outcome normalized
      (Ok (Some {| category := Taxonomy.category sub;
                   subcategory := key sub;
                   confidence := round2 (clamp_confidence best second);
                   reason := lit "rules" |})).

Lemma candidate_score normalized subs s :
  s ∈ subs ->
  (own_score normalized s = None /\ subcategory_score normalized s == 0)%Q
  \/ (exists v, own_score normalized s = Some v
                /\ (key s, v) ∈ candidates normalized subs
                /\ (subcategory_score normalized s == v)%Q).
Proof.
  intros Hs. pose proof (own_score_value normalized s) as Hv.
  destruct (own_score normalized s) as [v|] eqn:E; simpl in Hv.
  - right. exists v. repeat split; [by apply candidates_of | lra].
  - left. split; [done | lra].
Qed.

Lemma predict_rules_spec normalized : rules_outcome normalized (predict_rules normalized).
Proof.
  unfold predict_rules. rewrite keyword_scores_candidates.
  destruct (candidates normalized SUBCATEGORIES) as [|e0 d0] eqn:Ec.
  { constructor. intros sub Hs.
    destruct (candidate_score normalized SUBCATEGORIES sub Hs) as [[_ H]|(v & _ & H & _)];
      [done|]. rewrite Ec in H. by apply elem_of_nil in H. }
  destruct (sorted_desc (e0 :: d0)) as [|[k best] rest] eqn:Es.
  { pose proof (sorted_desc_perm (e0 :: d0)) as Hp. rewrite Es in Hp.
    by apply Permutation_nil_cons in Hp. }
  pose proof (sorted_desc_sorted (e0 :: d0)) as Hsorted. rewrite Es in Hsorted.
  destruct (sorted_desc_head _ _ _ Es) as (l1 & l2 & Hl & H1 & H2 & Hp).
  rewrite <- Ec in Hl.
  destruct (candidates_split _ _ _ _ _ Hl) as (S1 & sub & S2 & HS & <- & He & <-).
  destruct (own_score normalized sub) as [v|] eqn:Eo; [|done].
  simpl in He. injection He as <- <-.
  assert (Hin : sub ∈ SUBCATEGORIES) by (rewrite HS; apply elem_of_app; right; left).
  rewrite SUBCATEGORY_TO_CATEGORY_spec, (parent_category_key _ Hin).
  pose proof (own_score_value normalized sub) as Hv. rewrite Eo in Hv. simpl in Hv.
  pose proof (own_score_ge _ _ _ Eo) as Hge.
  rewrite <- candidates_app in Hp.
  eapply (rules_some normalized S1 sub S2 v); [done | lra | done | | | ].
  - apply List.Forall_forall. intros s Hs%list_elem_of_In.
    destruct (candidate_score normalized S1 s Hs) as [[_ H]|(w & _ & H & Hw)]; [lra|].
    rewrite List.Forall_forall in H1. apply list_elem_of_In, H1 in H. simpl in H. lra.
  - apply List.Forall_forall. intros s Hs%list_elem_of_In.
    destruct (candidate_score normalized S2 s Hs) as [[_ H]|(w & _ & H & Hw)]; [lra|].
    rewrite List.Forall_forall in H2. apply list_elem_of_In, H2 in H. simpl in H. lra.
  - destruct rest as [|[k2 s2] rest'].
    + split; [|right; reflexivity]. intros s Hs.
      destruct (candidate_score normalized (S1 ++ S2) s Hs) as [[_ H]|(w & _ & H & Hw)]; [lra|].
      rewrite <- Hp in H. by apply elem_of_nil in H.
    + assert (H2in : (k2, s2) ∈ candidates normalized (S1 ++ S2)).
      { rewrite <- Hp. left. }
      destruct (candidates_elem _ _ _ _ H2in) as (s & Hs & _ & Hso).
      pose proof (own_score_value normalized s) as Hsv. rewrite Hso in Hsv. simpl in Hsv.
      pose proof (own_score_ge _ _ _ Hso) as Hs2.
      split.
      * intros t Ht.
        destruct (candidate_score normalized (S1 ++ S2) t Ht) as [[_ H]|(w & _ & H & Hw)];
          [lra|].
        rewrite <- Hp in H. apply elem_of_cons in H as [[= _ ->]|H]; [lra|].
        apply StronglySorted_inv in Hsorted as [Hrest _].
        apply StronglySorted_inv in Hrest as [_ Hall].
        rewrite List.Forall_forall in Hall. apply list_elem_of_In, Hall in H.
        unfold le_score in H. simpl in H. lra.
      * left. exists s. split; [done | lra].
Qed.
End Ranking.

Section PredictorClaims.
Import Py Taxonomy Classifier.

Lemma normalize_text_nil (R : Runtime) : normalize_text [] = [].
Proof. reflexivity. Qed.

(** The alias lookup gave nothing the taxonomy knows. *)
Definition alias_miss (alias_subcategory : option str) : Prop :=
  forall a, alias_subcategory = Some a -> parent_category a = None.

Lemma predict_category_miss (R : Runtime) note alias_subcategory :
  alias_miss alias_subcategory ->
  normalize_text note <> [] ->
  predict_category note alias_subcategory = predict_rules (normalize_text note).
Proof.
  intros Hmiss Hn. unfold predict_category.
  destruct (normalize_text note) as [|c n]; [done|].
  destruct alias_subcategory as [[|a0 a]|]; [done| |done].
  by rewrite SUBCATEGORY_TO_CATEGORY_spec, (Hmiss _ eq_refl).
Qed.

(** An alias of the taxonomy decides the prediction. *)
Lemma predict_category_alias (R : Runtime) (note alias cat : str) :
  normalize_text note <> [] ->
  parent_category alias = Some cat ->
  predict_category note (Some alias)
  = Ok (Some {| category := cat; subcategory := alias;
                confidence := 0.97; reason := lit "alias" |}).
Proof.
  intros Hn Hcat. unfold predict_category.
  destruct (normalize_text note) as [|c n]; [done|].
  pose proof (parent_category_nonempty _ _ Hcat) as Ha.
  destruct alias as [|a0 a]; [done|].
  by rewrite SUBCATEGORY_TO_CATEGORY_spec, Hcat.
Qed.

(** The lookup of [process_expense_text] hands the stored alias to
    [predict_category]. *)
Lemma predict_alias_row (R : Runtime) (db : Db.State) (group_id : Z) (note : str)
    (row : Db.Aliases.row) :
  normalize_text note <> [] ->
  Db.merchant_aliases db !! (group_id, normalize_text note) = Some row ->
  Bot.predict db group_id note
  = predict_category note (Some (Db.Aliases.subcategory row)).
Proof.
  intros Hn Hrow. unfold Bot.predict.
  destruct note as [|c note]; [by rewrite normalize_text_nil in Hn|].
  unfold Db.get_alias_subcategory.
  destruct (normalize_text (c :: note)) as [|c' n'] eqn:E; [done|].
  by rewrite Hrow.
Qed.

(** C4. When the normalized note is not empty and the alias lookup of the
    group returns a subcategory of the taxonomy, the prediction is that
    subcategory with its parent category, confidence 0.97 and reason
    "alias", whatever keywords the note holds; the keyword scores are not
    consulted.  This holds for [predict_category] and for the lookup
    followed by it as [process_expense_text] runs them. *)
Theorem alias_short_circuits (R : Runtime) (note alias cat : str) :
  normalize_text note <> [] ->
  parent_category alias = Some cat ->
  let hit := Ok (Some {| category := cat; subcategory := alias;
                         confidence := 0.97; reason := lit "alias" |}) in
  predict_category note (Some alias) = hit
  /\ forall (db : Db.State) (group_id : Z) (row : Db.Aliases.row),
       Db.merchant_aliases db !! (group_id, normalize_text note) = Some row ->
       Db.Aliases.subcategory row = alias ->
       Bot.predict db group_id note = hit.
Proof.
  intros Hn Hcat hit. split.
  - by apply predict_category_alias.
  - intros db group_id row Hrow Hsub.
    rewrite (predict_alias_row R db group_id note row Hn Hrow), Hsub.
    by apply predict_category_alias.
Qed.

(** [predict_category] raises no exception: the two subscripts of the
    scoring branch are always defined. *)
Lemma predict_category_total (R : Runtime) note alias_subcategory e :
  predict_category note alias_subcategory <> Raise e.
Proof.
  unfold predict_category.
  pose proof (predict_rules_spec (normalize_text note)) as Hr.
  destruct (normalize_text note) as [|c n]; [done|].
  destruct alias_subcategory as [[|a0 a]|];
    [|destruct (dict_get _ SUBCATEGORY_TO_CATEGORY); [done|]|];
    intros E; rewrite E in Hr; inversion Hr.
Qed.

(** C6. Without an alias hit and with a non-empty normalized note, the
    score kept for each subcategory is the sum over its keywords of 1.0
    for a keyword that occurs in the normalized note plus 0.35 when the
    note equals the keyword or starts with it and a blank (an absent entry
    counts as zero); when all these sums are zero the prediction is none,
    and so it is, whatever the alias, when the normalized note is empty.
    No path raises an error. *)
Theorem keyword_scoring (R : Runtime) (note : str) (alias_subcategory : option str) :
  (normalize_text note <> [] ->
   alias_miss alias_subcategory ->
   (forall sub, sub ∈ SUBCATEGORIES ->
      default 0 (dict_get (key sub) (keyword_scores (normalize_text note)))
      == subcategory_score (normalize_text note) sub)%Q
   /\ ((forall sub, sub ∈ SUBCATEGORIES ->
          subcategory_score (normalize_text note) sub == 0)%Q ->
       predict_category note alias_subcategory = Ok None))
  /\ (normalize_text note = [] -> predict_category note alias_subcategory = Ok None)
  /\ (forall e, predict_category note alias_subcategory <> Raise e).
Proof.
  split; [|split].
  - intros Hn Hmiss. split.
    + intros sub Hs. by apply keyword_scores_get.
    + intros Hz. rewrite predict_category_miss by done.
      unfold predict_rules. by rewrite keyword_scores_empty.
  - intros Hn. unfold predict_category. by rewrite Hn.
  - intros e. apply predict_category_total.
Qed.

Lemma rules_prediction (R : Runtime) note alias_subcategory p :
  predict_category note alias_subcategory = Ok (Some p) ->
  reason p = lit "rules" ->
  predict_rules (normalize_text note) = Ok (Some p).
Proof.
  unfold predict_category. destruct (normalize_text note) as [|c n]; [done|].
  destruct alias_subcategory as [[|a0 a]|]; [done| |done].
  destruct (dict_get _ SUBCATEGORY_TO_CATEGORY); [|done].
  intros [= <-]. simpl. intros H. vm_compute in H. discriminate H.
Qed.

(** C7. The confidence of a "rules" prediction is
    clamp(0.2, 0.98, 0.55 + best*0.12 - second*0.07) rounded to two
    decimals, where [best] is the score of the chosen subcategory, the
    largest of all, and [second] the largest score among the other
    subcategories (zero when no other one matched); it lies between 0.2
    and 0.98.  A note that normalizes to "такси" gets confidence 0.71. *)
Theorem rules_confidence :
  (forall (R : Runtime) (note : str) (alias_subcategory : option str) (p : Prediction),
     predict_category note alias_subcategory = Ok (Some p) ->
     reason p = lit "rules" ->
     exists S1 sub S2 best second,
       SUBCATEGORIES = S1 ++ sub :: S2
       /\ subcategory p = key sub
       /\ (best == subcategory_score (normalize_text note) sub)%Q
       /\ (forall s, s ∈ SUBCATEGORIES ->
             subcategory_score (normalize_text note) s <= best)%Q
       /\ runner_up (normalize_text note) (S1 ++ S2) second
       /\ confidence p = round2 (clamp 0.2 0.98 (0.55 + best * 0.12 - second * 0.07))
       /\ (0.2 <= confidence p <= 0.98)%Q)
  /\ (forall (R : Runtime) (note : str),
        normalize_text note = lit "такси" ->
        predict_category note None
        = Ok (Some {| category := lit "transport"; subcategory := lit "transport_taxi";
                      confidence := 0.71; reason := lit "rules" |})).
Proof.
  split.
  - intros R note alias_subcategory p Hp Hr.
    apply rules_prediction in Hp; [|done].
    pose proof (predict_rules_spec (normalize_text note)) as Hs.
    rewrite Hp in Hs. inversion Hs as [|S1 sub S2 best second HS Hb Hge H1 H2 Hru Hpeq]; subst p.
    exists S1, sub, S2, best, second. simpl.
    pose proof (clamp_confidence_clamp best second) as Hc.
    split; [done|]. split; [done|]. split; [done|]. split; [|split; [done|split]].
    + intros s Hin. rewrite HS in Hin.
      rewrite List.Forall_forall in H1, H2.
      apply elem_of_app in Hin as [Hin|Hin].
      * apply list_elem_of_In, H1 in Hin. lra.
      * apply elem_of_cons in Hin as [->|Hin]; [lra|].
        by apply list_elem_of_In, H2 in Hin.
    + by apply round2_proper.
    + rewrite (round2_proper _ _ Hc). apply round2_bounds, clamp_bounds. lra.
  - intros R note Hn. unfold predict_category. rewrite Hn. vm_compute. reflexivity.
Qed.

Lemma rules_confidence_witness :
  exists S1 sub S2 best second,
    SUBCATEGORIES = S1 ++ sub :: S2
    /\ lit "transport_taxi" = key sub
    /\ (best == subcategory_score (@normalize_text Tables.basic (lit "Поездка!")) sub)%Q
    /\ (forall s, s ∈ SUBCATEGORIES ->
          subcategory_score (@normalize_text Tables.basic (lit "Поездка!")) s <= best)%Q
    /\ runner_up (@normalize_text Tables.basic (lit "Поездка!")) (S1 ++ S2) second
    /\ 0.64%Q = round2 (clamp 0.2 0.98 (0.55 + best * 0.12 - second * 0.07))
    /\ (0.2 <= 0.64 <= 0.98)%Q.
Proof.
  exact (proj1 rules_confidence Tables.basic (lit "Поездка!") None
           {| category := lit "transport"; subcategory := lit "transport_taxi";
              confidence := 0.64; reason := lit "rules" |}
           ltac:(vm_compute; reflexivity) ltac:(vm_compute; reflexivity)).
Defined.
End PredictorClaims.

Section PredictorClaims2.
Import Py Taxonomy Classifier.

Lemma alias_short_circuits_witness :
  let note := lit "подписка нетфликс" in
  let hit := Ok (Some {| category := lit "food"; subcategory := lit "food_out";
                         confidence := 0.97; reason := lit "alias" |}) in
  let db := {| Db.expenses := []; Db.expenses_seq := 0;
               Db.pending_expenses := ∅; Db.pending_seq := 0;
               Db.category_feedback := [];
               Db.merchant_aliases :=
                 {[ (7, lit "подписка нетфликс") :=
                      {| Db.Aliases.subcategory := lit "food_out";
                         Db.Aliases.confidence := 0.97;
                         Db.Aliases.source := lit "feedback" |} ]} |} in
  @predict_category Tables.basic note (Some (lit "food_out")) = hit
  /\ @Bot.predict Tables.basic db 7 note = hit.
Proof.
  intros note hit db.
  pose proof (alias_short_circuits Tables.basic note (lit "food_out") (lit "food")
                ltac:(vm_compute; discriminate) ltac:(vm_compute; reflexivity)) as [H1 H2].
  split; [exact H1|].
  apply (H2 db 7 {| Db.Aliases.subcategory := lit "food_out";
                    Db.Aliases.confidence := 0.97;
                    Db.Aliases.source := lit "feedback" |}); vm_compute; reflexivity.
Defined.

Lemma keyword_scoring_witness :
  @predict_category Tables.basic (lit "xyz 123") None = Ok None
  /\ @predict_category Tables.basic (lit " ?! ") (Some (lit "food_out")) = Ok None.
Proof.
  split.
  - refine (proj2 (proj1 (keyword_scoring Tables.basic (lit "xyz 123") None) _ _) _).
    + vm_compute. discriminate.
    + intros a [=].
    + intros sub H. unfold SUBCATEGORIES in H.
      repeat (apply elem_of_cons in H as [->|H]; [vm_compute; reflexivity|]).
      by apply elem_of_nil in H.
  - refine (proj1 (proj2 (keyword_scoring Tables.basic (lit " ?! ") (Some (lit "food_out")))) _).
    vm_compute. reflexivity.
Defined.

Lemma keyword_scores_order normalized :
  map fst (keyword_scores normalized)
  = map key (List.filter (fun s => negb (Qeq_bool (subcategory_score normalized s) 0))
                         SUBCATEGORIES).
Proof.
  rewrite keyword_scores_candidates. unfold candidates.
  induction SUBCATEGORIES as [|x subs IH]; simpl; [done|].
  rewrite map_app, IH.
  destruct (own_score normalized x) as [v|] eqn:E.
  - pose proof (own_score_value normalized x) as Hv. rewrite E in Hv. simpl in Hv.
    pose proof (own_score_ge _ _ _ E).
    destruct (Qeq_bool (subcategory_score normalized x) 0) eqn:Eq; [|done].
    apply Qeq_bool_iff in Eq. lra.
  - apply own_score_None in E.
    apply Qeq_bool_iff in E. by rewrite E.
Qed.

(** C8. The "rules" prediction is the subcategory declared first in the
    taxonomy among those of greatest score: every subcategory declared
    before it scores strictly less and none declared after it scores
    more.  The ranking is a function of the note alone: the scores are
    kept in declaration order, and the ranked list is a permutation of them
    in which no item precedes one of greater score. *)
Theorem first_declared_wins (R : Runtime) (note : str) (alias_subcategory : option str)
    (p : Prediction) :
  predict_category note alias_subcategory = Ok (Some p) ->
  reason p = lit "rules" ->
  (exists S1 sub S2,
     SUBCATEGORIES = S1 ++ sub :: S2
     /\ subcategory p = key sub
     /\ category p = Taxonomy.category sub
     /\ Forall (fun s => subcategory_score (normalize_text note) s
                         < subcategory_score (normalize_text note) sub)%Q S1
     /\ Forall (fun s => subcategory_score (normalize_text note) s
                         <= subcategory_score (normalize_text note) sub)%Q S2)
  /\ map fst (keyword_scores (normalize_text note))
     = map key (List.filter
                  (fun s => negb (Qeq_bool (subcategory_score (normalize_text note) s) 0))
                  SUBCATEGORIES)
  /\ Permutation (sorted_desc (keyword_scores (normalize_text note)))
                 (keyword_scores (normalize_text note))
  /\ StronglySorted (fun a b => snd b <= snd a)%Q
                    (sorted_desc (keyword_scores (normalize_text note))).
Proof.
  intros Hp Hr. split; [|split; [apply keyword_scores_order|split]].
  - apply rules_prediction in Hp; [|done].
    pose proof (predict_rules_spec (normalize_text note)) as Hs.
    rewrite Hp in Hs. inversion Hs as [|S1 sub S2 best second HS Hb Hge H1 H2 Hru Hpeq]; subst p.
    exists S1, sub, S2. simpl. repeat split; try done.
    + eapply List.Forall_impl; [|exact H1]. intros s Hlt. simpl in Hlt. lra.
    + eapply List.Forall_impl; [|exact H2]. intros s Hle. simpl in Hle. lra.
  - apply sorted_desc_perm.
  - apply sorted_desc_sorted.
Qed.

Lemma first_declared_wins_witness :
  exists S1 sub S2,
    SUBCATEGORIES = S1 ++ sub :: S2
    /\ lit "food_out" = key sub
    /\ lit "food" = Taxonomy.category sub
    /\ Forall (fun s => subcategory_score (@normalize_text Tables.basic (lit "и кафе, метро")) s
                        < subcategory_score (@normalize_text Tables.basic (lit "и кафе, метро")) sub)%Q
              S1
    /\ Forall (fun s => subcategory_score (@normalize_text Tables.basic (lit "и кафе, метро")) s
                        <= subcategory_score (@normalize_text Tables.basic (lit "и кафе, метро")) sub)%Q
              S2.
Proof.
  exact (proj1 (first_declared_wins Tables.basic (lit "и кафе, метро") None
                  {| category := lit "food"; subcategory := lit "food_out";
                     confidence := 0.60; reason := lit "rules" |}
                  ltac:(vm_compute; reflexivity) ltac:(vm_compute; reflexivity))).
Defined.
End PredictorClaims2.

(* ================================================================== *)
(** * Properties of the learner and of the pending store *)
(* ================================================================== *)

Section Learner.
Import Py.

(** The promotion test of [record_feedback] on the counts [total] and
    [agree] of the aggregate query. *)
Definition promotes (total agree : nat) : Prop :=
  (3 <= total)%nat
  /\ (0.8 <= inject_Z (Z.of_nat agree) / inject_Z (Z.of_nat total))%Q.


(** In whole numbers: at least three events, four fifths of them agreeing. *)
Lemma promotes_counts total agree :
  promotes total agree <-> (3 <= total /\ 4 * total <= 5 * agree)%nat.
Proof.
  unfold promotes. split; intros [H3 H]; (split; [exact H3|]).
  - unfold Qle, Qdiv, Qmult, Qinv in H. simpl in H.
    destruct total as [|t]; [lia|]. simpl in H. lia.
  - unfold Qle, Qdiv, Qmult, Qinv. simpl.
    destruct total as [|t]; [lia|]. simpl. lia.
Qed.

End Learner.

Section Resolution.
Import Py.

(** The expense [finalize_pending] writes for a pending row. *)
Definition finalized (id : Z) (pending : Db.Pending.row) (category subcategory : str)
  : Db.Expenses.row :=
  {| Db.Expenses.id := id;
     Db.Expenses.group_id := Db.Pending.group_id pending;
     Db.Expenses.user_id := Db.Pending.user_id pending;
     Db.Expenses.category := category;
     Db.Expenses.subcategory := subcategory;
     Db.Expenses.amount := Db.Pending.amount pending;
     Db.Expenses.note := Db.Pending.note pending;
     Db.Expenses.source_message_id := Db.Pending.source_message_id pending;
     Db.Expenses.auto_category := Db.Pending.predicted_category pending;
     Db.Expenses.auto_subcategory := Db.Pending.predicted_subcategory pending;
     Db.Expenses.auto_confidence := Db.Pending.predicted_confidence pending;
     Db.Expenses.is_auto_applied := false;
     Db.Expenses.raw_comment_normalized := Db.Pending.raw_comment_normalized pending |}.

Lemma finalize_pending_found db pending_id pending category subcategory :
  Db.get_pending db pending_id = Some pending ->
  exists db',
    Db.finalize_pending db pending_id category subcategory
    = (Some (Db.expenses_seq db + 1), db')
    /\ Db.expenses db'
       = Db.expenses db ++ [finalized (Db.expenses_seq db + 1) pending category subcategory]
    /\ Db.pending_expenses db' = delete pending_id (Db.pending_expenses db)
    /\ Db.category_feedback db' = Db.category_feedback db
    /\ Db.merchant_aliases db' = Db.merchant_aliases db.
Proof.
  intros H. unfold Db.finalize_pending. rewrite H. eexists. by repeat split.
Qed.


Lemma record_feedback_pending db group_id normalized predicted chosen :
  Db.pending_expenses (Db.record_feedback db group_id normalized predicted chosen)
  = Db.pending_expenses db.
Proof. unfold Db.record_feedback. by destruct normalized. Qed.

Lemma record_feedback_expenses db group_id normalized predicted chosen :
  Db.expenses (Db.record_feedback db group_id normalized predicted chosen)
  = Db.expenses db.
Proof. unfold Db.record_feedback. by destruct normalized. Qed.

(** A category button that carries a well-formed payload for [pending_id]
    and the base category [category]. *)
Definition button_for `{Runtime} (query : Bot.CallbackQuery) (pending_id : Z)
    (category : str) : Prop :=
  exists head id_text,
    split_on 58 (default [] (Bot.data query)) = [head; id_text; category]
    /\ int_of_str id_text = Some pending_id
    /\ category ∈ Bot.BASE_CATEGORIES.

(** The subcategory kept on resolution. *)
Definition resolved_subcategory (pending : Db.Pending.row) (category : str) : str :=
  if decide (parent_category (Db.Pending.predicted_subcategory pending) = Some category)
  then Db.Pending.predicted_subcategory pending
  else [].

(** A kept subcategory is the predicted one, and the taxonomy gives it the
    chosen category as parent. *)
Lemma resolved_subcategory_kept pending category :
  resolved_subcategory pending category <> [] ->
  resolved_subcategory pending category = Db.Pending.predicted_subcategory pending
  /\ parent_category (resolved_subcategory pending category) = Some category.
Proof.
  unfold resolved_subcategory. destruct (decide _) as [E|E]; [by intros _ | by intros H].
Qed.

(** The call of [record_feedback] that ends a resolution: made when a
    subcategory was kept. *)
Definition fed_back (pending : Db.Pending.row) (category : str) (db : Db.State) : Db.State :=
  if decide (resolved_subcategory pending category = []) then db
  else Db.record_feedback db (Db.Pending.group_id pending)
         (Db.Pending.raw_comment_normalized pending)
         (Db.Pending.predicted_subcategory pending)
         (resolved_subcategory pending category).

Lemma chosen_subcategory_resolved predicted category :
  (if negb (bool_decide (predicted = []))
      && bool_decide (dict_get predicted Taxonomy.SUBCATEGORY_TO_CATEGORY = Some category)
   then predicted else [])
  = if decide (parent_category predicted = Some category) then predicted else [].
Proof.
  rewrite SUBCATEGORY_TO_CATEGORY_spec.
  destruct (decide (parent_category predicted = Some category)) as [E|E].
  - rewrite (bool_decide_eq_true_2 _ E), andb_true_r.
    apply parent_category_nonempty in E.
    by rewrite (bool_decide_eq_false_2 _ E).
  - rewrite (bool_decide_eq_false_2 _ E), andb_false_r. done.
Qed.

Lemma on_category_chosen_stale `{Runtime} db query pending_id category :
  button_for query pending_id category ->
  Db.get_pending db pending_id = None ->
  Bot.on_category_chosen db query = (Ok (Some Bot.AlreadyHandled), db).
Proof.
  intros (head & id_text & Hs & Hi & Hc) Hp. unfold Bot.on_category_chosen.
  rewrite Hs, Hi, (bool_decide_eq_true_2 _ Hc). simpl. by rewrite Hp.
Qed.

Lemma on_category_chosen_saved `{Runtime} db query pending_id category pending :
  button_for query pending_id category ->
  Db.get_pending db pending_id = Some pending ->
  Bot.user_id (Bot.query_from_user query) = Db.Pending.user_id pending ->
  exists label db',
    Bot.on_category_chosen db query
    = (Ok (Some (Bot.Saved (Db.expenses_seq db + 1) (Db.Pending.amount pending) label
                   (Db.Pending.note pending))), db')
    /\ Db.expenses db'
       = Db.expenses db
         ++ [finalized (Db.expenses_seq db + 1) pending category
               (resolved_subcategory pending category)]
    /\ Db.pending_expenses db' = delete pending_id (Db.pending_expenses db)
    /\ db' = fed_back pending category
               (snd (Db.finalize_pending db pending_id category
                       (resolved_subcategory pending category))).
Proof.
  intros (head & id_text & Hs & Hi & Hc) Hp Hu. unfold Bot.on_category_chosen.
  rewrite Hs, Hi, (bool_decide_eq_true_2 _ Hc). cbn [negb]. rewrite Hp.
  rewrite (bool_decide_eq_true_2 _ Hu). cbn [negb].
  rewrite chosen_subcategory_resolved. fold (resolved_subcategory pending category).
  destruct (finalize_pending_found db pending_id pending category
              (resolved_subcategory pending category) Hp)
    as (db1 & -> & He & Hpe & _ & _).
  eexists _, _. split; [reflexivity|]. unfold fed_back. cbn [snd].
  destruct (decide (resolved_subcategory pending category = [])) as [E|E].
  - rewrite (bool_decide_eq_true_2 _ E), andb_false_r. done.
  - rewrite (bool_decide_eq_false_2 _ E), andb_true_r.
    destruct (resolved_subcategory_kept pending category E) as [Hk _].
    rewrite <- Hk, (bool_decide_eq_false_2 _ E). cbn [negb].
    by rewrite record_feedback_expenses, record_feedback_pending.
Qed.


End Resolution.

Section LearnerClaim.
Import Py.



End LearnerClaim.

(* ================================================================== *)
(** * Properties of the handlers *)
(* ================================================================== *)

Section Engine.
Context {R : Py.Runtime}.
Import Py.

(** The invariant of section 3 of the specification on one expense. *)
Definition consistent (e : Db.Expenses.row) : Prop :=
  Db.Expenses.subcategory e <> [] ->
  parent_category (Db.Expenses.subcategory e) = Some (Db.Expenses.category e).

Lemma predict_category_consistent note alias_subcategory p :
  Classifier.predict_category note alias_subcategory = Ok (Some p) ->
  parent_category (Classifier.subcategory p) = Some (Classifier.category p).
Proof.
  unfold Classifier.predict_category.
  pose proof (predict_rules_spec (Classifier.normalize_text note)) as Hr.
  destruct (Classifier.normalize_text note) as [|c n]; [done|].
  assert (Hrules : Classifier.predict_rules (c :: n) = Ok (Some p) ->
                   parent_category (Classifier.subcategory p) = Some (Classifier.category p)).
  { intros E. rewrite E in Hr. inversion Hr as [|S1 sub S2 best second HS]; subst.
    simpl. apply parent_category_key. rewrite HS. apply elem_of_app. right. left. }
  destruct alias_subcategory as [[|a0 a]|]; [done| |done].
  destruct (dict_get (a0 :: a) Taxonomy.SUBCATEGORY_TO_CATEGORY) as [cat|] eqn:E; [|done].
  intros [= <-]. simpl. by rewrite <- SUBCATEGORY_TO_CATEGORY_spec.
Qed.

Lemma predict_consistent db group_id note p :
  Bot.predict db group_id note = Ok (Some p) ->
  parent_category (Classifier.subcategory p) = Some (Classifier.category p).
Proof.
  unfold Bot.predict. destruct note; [done|]. apply predict_category_consistent.
Qed.

(** [frame db db']: [db'] differs from [db] at most in the expenses. *)
Definition frame (db db' : Db.State) : Prop :=
  Db.pending_expenses db' = Db.pending_expenses db
  /\ Db.pending_seq db' = Db.pending_seq db
  /\ Db.category_feedback db' = Db.category_feedback db
  /\ Db.merchant_aliases db' = Db.merchant_aliases db.

Lemma frame_refl db : frame db db.
Proof. by repeat split. Qed.

Ltac solve_frame := first [apply frame_refl | by repeat split].

Section WithSettings.
Variable settings : Config.Settings.

(** The expense written for a prediction, by the auto-apply branch and
    by the low-confidence branch alike. *)
Definition predicted_expense (db : Db.State) (message : Bot.Message) (user : Bot.User)
    (amount : Q) (note : str) (p : Classifier.Prediction) : Db.Expenses.row :=
  {| Db.Expenses.id := Db.expenses_seq db + 1;
     Db.Expenses.group_id := Bot.chat_id (Bot.chat message);
     Db.Expenses.user_id := Bot.user_id user;
     Db.Expenses.category := Classifier.category p;
     Db.Expenses.subcategory := Classifier.subcategory p;
     Db.Expenses.amount := amount;
     Db.Expenses.note := note;
     Db.Expenses.source_message_id := Bot.message_id message;
     Db.Expenses.auto_category := Classifier.category p;
     Db.Expenses.auto_subcategory := Classifier.subcategory p;
     Db.Expenses.auto_confidence := Classifier.confidence p;
     Db.Expenses.is_auto_applied := true;
     Db.Expenses.raw_comment_normalized := Classifier.normalize_text note |}.



Lemma process_expense_text_effect db message raw_text reply_on_error :
  let db' := snd (Bot.process_expense_text settings db message raw_text reply_on_error) in
  frame db db'
  /\ (Db.expenses db' = Db.expenses db
      \/ exists e, Db.expenses db' = Db.expenses db ++ [e] /\ consistent e).
Proof.
  unfold Bot.process_expense_text.
  destruct (Bot.extract_expense_parts raw_text) as [[[amount quick] note]|];
    [|split; [solve_frame | by left]].
  destruct (Bot.from_user message) as [user|]; [|split; [solve_frame | by left]].
  destruct quick as [[|q0 q]|].
  2: { split; [solve_frame|]. right. eexists. split; [reflexivity|]. by intros H. }
  all: destruct (Bot.predict db _ note) as [[p|]|e] eqn:Hp;
    [|split; [solve_frame|]; right; eexists; split; [reflexivity|]; by intros H
     |split; [solve_frame | by left]].
  all: apply predict_consistent in Hp.
  all: destruct (Qle_bool _ _);
    (split; [solve_frame|]; right; eexists; split; [reflexivity|]; by intros _).
Qed.

Lemma undo_effect db group_id user :
  let db' := snd (Bot.undo db group_id user) in
  frame db db' /\ Db.expenses db' ⊆ Db.expenses db.
Proof.
  unfold Bot.undo, Db.undo_last_by_user.
  destruct (map Db.Expenses.id _) as [|i ids]; simpl.
  - split; [solve_frame | done].
  - split; [solve_frame|]. intros e He. by apply list_elem_of_filter in He as [_ ?].
Qed.

Lemma on_category_chosen_effect db query :
  let db' := snd (Bot.on_category_chosen db query) in
  (db' = db
   /\ (fst (Bot.on_category_chosen db query) = Ok (Some Bot.BadButton)
       \/ fst (Bot.on_category_chosen db query) = Raise ValueError
       \/ fst (Bot.on_category_chosen db query) = Ok (Some Bot.UnknownCategory)
       \/ fst (Bot.on_category_chosen db query) = Ok (Some Bot.AlreadyHandled)
       \/ fst (Bot.on_category_chosen db query) = Ok (Some Bot.OnlyAuthor)))
  \/ exists pending_id category pending,
       button_for query pending_id category
       /\ Db.get_pending db pending_id = Some pending
       /\ Bot.user_id (Bot.query_from_user query) = Db.Pending.user_id pending
       /\ Db.expenses db'
          = Db.expenses db
            ++ [finalized (Db.expenses_seq db + 1) pending category
                  (resolved_subcategory pending category)].
Proof.
  destruct (split_on 58 (default [] (Bot.data query))) as [|head [|id_text [|category [|]]]] eqn:Hs;
    try (left; unfold Bot.on_category_chosen; rewrite Hs; split; [done|by left]).
  destruct (int_of_str id_text) as [pending_id|] eqn:Hi;
    [|left; unfold Bot.on_category_chosen; rewrite Hs, Hi; split; [done|right; by left]].
  destruct (bool_decide (category ∈ Bot.BASE_CATEGORIES)) eqn:Hc;
    [|left; unfold Bot.on_category_chosen; rewrite Hs, Hi, Hc; split;
      [done|right; right; by left]].
  apply bool_decide_eq_true in Hc.
  destruct (Db.get_pending db pending_id) as [pending|] eqn:Hp.
  2: { left. rewrite (on_category_chosen_stale db query pending_id category); [|by exists head, id_text|done].
       split; [done|]. right; right; right; by left. }
  destruct (bool_decide (Bot.user_id (Bot.query_from_user query) = Db.Pending.user_id pending)) eqn:Hu.
  2: { left. unfold Bot.on_category_chosen.
       rewrite Hs, Hi, (bool_decide_eq_true_2 _ Hc). cbn [negb]. rewrite Hp, Hu.
       split; [done|]. right; right; right; by right. }
  apply bool_decide_eq_true in Hu.
  right. exists pending_id, category, pending.
  assert (Hb : button_for query pending_id category) by (by exists head, id_text).
  destruct (on_category_chosen_saved db query pending_id category pending Hb Hp Hu)
    as (label & db' & -> & He & _ & _).
  done.
Qed.
End WithSettings.
End Engine.

Section EngineClaims.
Import Py.

Lemma handle_effect (R : Runtime) settings db u :
  let db' := snd (Bot.handle settings db u) in
  (frame db db'
   /\ (Db.expenses db' ⊆ Db.expenses db
       \/ exists e, Db.expenses db' = Db.expenses db ++ [e] /\ consistent e))
  \/ exists query pending_id category pending,
       u = Bot.CategoryButton query
       /\ button_for query pending_id category
       /\ Db.get_pending db pending_id = Some pending
       /\ Db.expenses db'
          = Db.expenses db
            ++ [finalized (Db.expenses_seq db + 1) pending category
                  (resolved_subcategory pending category)].
Proof.
  destruct u as [message args|message|query|message|]; simpl.
  - left. unfold Bot.cmd_add.
    destruct (negb _); [split; [apply frame_refl | by left]|].
    destruct args as [[|a0 a]|]; try (split; [apply frame_refl | by left]).
    pose proof (process_expense_text_effect settings db message (a0 :: a) true) as [Hf He].
    destruct (Bot.process_expense_text _ _ _ _ _) as [[[b r]|e] db']; simpl in *.
    + split; [done|]. destruct He as [->|He]; [by left | by right].
    + split; [done|]. destruct He as [->|He]; [by left | by right].
  - left. unfold Bot.on_plain_text.
    destruct (negb _); [split; [apply frame_refl | by left]|].
    destruct (Bot.from_user message) as [user|]; [|split; [apply frame_refl | by left]].
    destruct (Bot.is_bot user); [split; [apply frame_refl | by left]|].
    destruct (strip _) as [|c rest] eqn:Et; [split; [apply frame_refl | by left]|].
    destruct (bool_decide (c = 47%N)).
    + destruct (split rest) as [|head tokens]; [split; [apply frame_refl | by left]|].
      destruct (bool_decide (_ ∈ _)); [split; [apply frame_refl | by left]|].
      destruct (bool_decide (_ = _)); [|split; [apply frame_refl | by left]].
      destruct (undo_effect db (Bot.chat_id (Bot.chat message)) user) as [Hf He].
      split; [done | by left].
    + pose proof (process_expense_text_effect settings db message (c :: rest) false) as [Hf He].
      destruct (Bot.process_expense_text _ _ _ _ _) as [[[b r]|e] db']; simpl in *.
      * split; [done|]. destruct He as [->|He]; [by left | by right].
      * split; [done|]. destruct He as [->|He]; [by left | by right].
  - destruct (on_category_chosen_effect db query) as [[-> _]|(pid & cat & pending & Hb & Hp & _ & He)].
    + left. split; [apply frame_refl | by left].
    + right. by exists query, pid, cat, pending.
  - left. unfold Bot.cmd_undo.
    destruct (negb _); [split; [apply frame_refl | by left]|].
    destruct (Bot.from_user message) as [user|]; [|split; [apply frame_refl | by left]].
    destruct (undo_effect db (Bot.chat_id (Bot.chat message)) user) as [Hf He].
    split; [done | by left].
  - left. split; [apply frame_refl | by left].
Qed.

Lemma finalized_consistent id pending category :
  consistent (finalized id pending category (resolved_subcategory pending category)).
Proof.
  unfold consistent, resolved_subcategory. simpl.
  destruct (decide _) as [E|E]; [by intros _ | by intros H].
Qed.


(** C1, as the code has it.  A message without quick category whose note
    yields a prediction of confidence strictly below the threshold is
    saved at once as an expense with the predicted category and
    subcategory, the prediction in the audit fields and the auto-applied
    flag set; the answer names the predicted subcategory, and the pending
    store, the feedback log and the aliases are left as they were: no
    pending decision is opened. *)
Theorem low_confidence_is_saved (R : Runtime) settings db message raw_text reply_on_error
    amount note user p :
  Bot.extract_expense_parts raw_text = Some (amount, None, note) ->
  Bot.from_user message = Some user ->
  Bot.predict db (Bot.chat_id (Bot.chat message)) note = Ok (Some p) ->
  (Classifier.confidence p < Config.auto_category_threshold settings)%Q ->
  exists db',
    Bot.process_expense_text settings db message raw_text reply_on_error
    = (Ok (true, Some (Bot.Added (Db.expenses_seq db + 1) amount
                         (Taxonomy.subcategory_label (Classifier.subcategory p)))), db')
    /\ Db.expenses db' = Db.expenses db ++ [predicted_expense db message user amount note p]
    /\ Db.pending_expenses db' = Db.pending_expenses db
    /\ Db.pending_seq db' = Db.pending_seq db
    /\ Db.category_feedback db' = Db.category_feedback db
    /\ Db.merchant_aliases db' = Db.merchant_aliases db.
Proof.
  intros He Hu Hp Hlt. unfold Bot.process_expense_text.
  rewrite He, Hu, Hp.
  destruct (Qle_bool _ _) eqn:E.
  - apply Qle_bool_iff in E. lra.
  - eexists. split; [reflexivity|]. by repeat split.
Qed.


(** C3. Handling an update keeps every expense consistent with the
    taxonomy: if each stored expense with a subcategory has the parent of
    that subcategory as its category, so has each one after the update,
    whichever branch wrote it (quick category, auto-apply, fallback or the
    resolution of a pending record, from any pending store).  On
    resolution the expense carries the chosen category, and the predicted
    subcategory when the taxonomy gives it that category as parent,
    otherwise no subcategory.  Hence every expense of a reachable state is
    consistent. *)
Theorem expenses_stay_consistent (R : Runtime) settings :
  (forall db u,
     Forall consistent (Db.expenses db) ->
     Forall consistent (Db.expenses (snd (Bot.handle settings db u))))
  /\ (forall db query pending_id category pending,
        button_for query pending_id category ->
        Db.get_pending db pending_id = Some pending ->
        Bot.user_id (Bot.query_from_user query) = Db.Pending.user_id pending ->
        exists e,
          Db.expenses (snd (Bot.on_category_chosen db query)) = Db.expenses db ++ [e]
          /\ Db.Expenses.category e = category
          /\ Db.Expenses.subcategory e
             = (if decide (parent_category (Db.Pending.predicted_subcategory pending)
                           = Some category)
                then Db.Pending.predicted_subcategory pending else []))
  /\ (forall db, Bot.reachable settings db -> Forall consistent (Db.expenses db)).
Proof.
  assert (Hstep : forall db u,
            Forall consistent (Db.expenses db) ->
            Forall consistent (Db.expenses (snd (Bot.handle settings db u)))).
  { intros db u Hc.
    destruct (handle_effect R settings db u)
      as [[_ [Hsub|(e & -> & He)]]|(q & pid & c & p & _ & _ & _ & ->)].
    - rewrite Forall_forall in Hc |- *. intros e He. apply Hc. by apply Hsub.
    - apply Forall_app. split; [done | by constructor].
    - apply Forall_app. split; [done|]. constructor; [|constructor].
      apply finalized_consistent. }
  split; [exact Hstep|]. split.
  - intros db query pid cat pending Hb Hp Hu.
    destruct (on_category_chosen_saved db query pid cat pending Hb Hp Hu)
      as (label & db' & -> & He & _ & _).
    eexists. split; [exact He|]. by split.
  - induction 1 as [|db u Hr IH]; [constructor | by apply Hstep].
Qed.
End EngineClaims.

Section EngineExamples.
Import Py.

Definition example_message (text : string) : Bot.Message :=
  {| Bot.chat := {| Bot.chat_id := 7; Bot.chat_type := lit "group" |};
     Bot.from_user := Some {| Bot.user_id := 5; Bot.is_bot := false |};
     Bot.message_id := 11;
     Bot.text := Some (lit text) |}.

Definition example_query (payload : string) : Bot.CallbackQuery :=
  {| Bot.data := Some (lit payload);
     Bot.query_from_user := {| Bot.user_id := 5; Bot.is_bot := false |} |}.

(** C1 fails on the code: with the default threshold 0.82 the message
    "450 кофе и круассан" gets the prediction food_out with confidence
    0.71, below the threshold, and yet no pending decision is opened: the
    pending store stays empty and the expense is written at once. *)
Lemma low_confidence_opens_no_pending :
  let settings := Config.load_settings None in
  let db' := snd (@Bot.on_plain_text Tables.basic settings Db.init
                    (example_message "450 кофе и круассан")) in
  @Bot.predict Tables.basic Db.init 7 (lit "кофе и круассан")
  = Ok (Some {| Classifier.category := lit "food";
                Classifier.subcategory := lit "food_out";
                Classifier.confidence := 0.71;
                Classifier.reason := lit "rules" |})
  /\ (0.71 < Config.auto_category_threshold settings)%Q
  /\ Db.pending_expenses db' = ∅
  /\ Db.expenses db'
     = [ {| Db.Expenses.id := 1;
            Db.Expenses.group_id := 7;
            Db.Expenses.user_id := 5;
            Db.Expenses.category := lit "food";
            Db.Expenses.subcategory := lit "food_out";
            Db.Expenses.amount := 450;
            Db.Expenses.note := lit "кофе и круассан";
            Db.Expenses.source_message_id := 11;
            Db.Expenses.auto_category := lit "food";
            Db.Expenses.auto_subcategory := lit "food_out";
            Db.Expenses.auto_confidence := 0.71;
            Db.Expenses.is_auto_applied := true;
            Db.Expenses.raw_comment_normalized := lit "кофе и круассан" |} ].
Proof. repeat split; vm_compute; reflexivity. Qed.

Lemma low_confidence_is_saved_witness :
  exists db',
    @Bot.process_expense_text Tables.basic (Config.load_settings None) Db.init
      (example_message "450 кофе и круассан") (lit "450 кофе и круассан") false
    = (Ok (true, Some (Bot.Added 1 450 (lit "Еда вне дома"))), db')
    /\ Db.expenses db'
       = [ @predicted_expense Tables.basic Db.init (example_message "450 кофе и круассан")
             {| Bot.user_id := 5; Bot.is_bot := false |} 450 (lit "кофе и круассан")
             {| Classifier.category := lit "food";
                Classifier.subcategory := lit "food_out";
                Classifier.confidence := 0.71;
                Classifier.reason := lit "rules" |} ]
    /\ Db.pending_expenses db' = ∅
    /\ Db.pending_seq db' = 0
    /\ Db.category_feedback db' = []
    /\ Db.merchant_aliases db' = ∅.
Proof.
  exact (low_confidence_is_saved Tables.basic (Config.load_settings None) Db.init
           (example_message "450 кофе и круассан") (lit "450 кофе и круассан") false
           450 (lit "кофе и круассан") {| Bot.user_id := 5; Bot.is_bot := false |}
           {| Classifier.category := lit "food";
              Classifier.subcategory := lit "food_out";
              Classifier.confidence := 0.71;
              Classifier.reason := lit "rules" |}
           ltac:(vm_compute; reflexivity) ltac:(reflexivity)
           ltac:(vm_compute; reflexivity) ltac:(vm_compute; reflexivity)).
Defined.


Lemma expenses_stay_consistent_witness :
  let settings := Config.load_settings None in
  let pending := {| Db.Pending.group_id := 7; Db.Pending.user_id := 5;
                    Db.Pending.amount := 450; Db.Pending.note := lit "кофе";
                    Db.Pending.source_message_id := 11;
                    Db.Pending.predicted_category := lit "food";
                    Db.Pending.predicted_subcategory := lit "food_out";
                    Db.Pending.predicted_confidence := 0.71;
                    Db.Pending.raw_comment_normalized := lit "кофе" |} in
  let db := snd (Db.create_pending_expense Db.init 7 5 450 (lit "кофе") 11
                   (lit "food") (lit "food_out") 0.71 (lit "кофе")) in
  Forall consistent
    (Db.expenses (snd (@Bot.handle Tables.basic settings Db.init
                         (Bot.PlainText (example_message "450 кофе и круассан")))))
  /\ (exists e,
        Db.expenses (snd (@Bot.on_category_chosen Tables.basic db
                            (example_query "cat:1:transport")))
        = Db.expenses db ++ [e]
        /\ Db.Expenses.category e = lit "transport"
        /\ Db.Expenses.subcategory e = [])
  /\ Forall consistent
       (Db.expenses (snd (@Bot.handle Tables.basic settings Db.init Bot.Housekeeping))).
Proof.
  intros settings pending db.
  destruct (expenses_stay_consistent Tables.basic settings) as (H1 & H2 & H3).
  split; [|split].
  - apply H1. constructor.
  - apply (H2 db (example_query "cat:1:transport") 1 (lit "transport") pending).
    + exists (lit "cat"), (lit "1"). repeat split; try (vm_compute; reflexivity).
      apply (bool_decide_unpack _). vm_compute. exact I.
    + vm_compute. reflexivity.
    + reflexivity.
  - apply H3. apply Bot.reachable_step, Bot.reachable_init.
Defined.
End EngineExamples.

(* ================================================================== *)
(** * Further properties of the predictor *)
(* ================================================================== *)

(* ================================================================== *)
(** * More properties of the predictor *)
(* ================================================================== *)

Section PredictorExtras.
Import Py Taxonomy Classifier.

Lemma category_is_base sub :
  sub ∈ SUBCATEGORIES -> Taxonomy.category sub ∈ Bot.BASE_CATEGORIES.
Proof.
  intros H. unfold SUBCATEGORIES in H.
  repeat (apply elem_of_cons in H as [->|H];
          [apply (bool_decide_unpack _); vm_compute; exact I|]).
  by apply elem_of_nil in H.
Qed.

Lemma subcategory_score_hit (R : Runtime) normalized sub :
  (1 <= subcategory_score normalized sub)%Q ->
  exists w, w ∈ keywords sub /\ contains w normalized = true.
Proof.
  unfold subcategory_score. induction (keywords sub) as [|w ws IH]; simpl.
  - intros H. exfalso. revert H. apply Qlt_not_le. reflexivity.
  - intros H. destruct (contains w normalized) eqn:E.
    + exists w. split; [left|done].
    + rewrite (keyword_score_miss _ _ E) in H.
      destruct IH as (w' & Hw & Hc).
      * revert H. generalize (fold_right (fun word acc => keyword_score normalized word + acc)%Q 0%Q ws).
        intros q Hq. lra.
      * exists w'. split; [by right | done].
Qed.

Lemma subcategory_score_ge (R : Runtime) normalized sub w :
  w ∈ keywords sub -> contains w normalized = true ->
  (1 <= subcategory_score normalized sub)%Q.
Proof.
  unfold subcategory_score. induction (keywords sub) as [|w' ws IH]; simpl.
  - intros H. by apply elem_of_nil in H.
  - intros H Hc.
    assert (Hrest : (0 <= fold_right (fun word acc => keyword_score normalized word + acc) 0 ws)%Q).
    { clear. induction ws as [|a ws IH]; simpl; [lra|].
      pose proof (keyword_score_nonneg normalized a). lra. }
    apply elem_of_cons in H as [<-|H].
    + pose proof (keyword_score_hit _ _ Hc). lra.
    + pose proof (IH H Hc). pose proof (keyword_score_nonneg normalized w'). lra.
Qed.

(** X1. A note is predicted through its normal form alone: two notes
    with the same normal form get the same prediction from the lookup
    and the classifier as [process_expense_text] runs them, and so does
    a note and its own normal form. *)
Theorem prediction_by_normal_form (R : Runtime) `{!RuntimeLaws R}
    (db : Db.State) (group_id : Z) (note1 note2 : str) :
  (normalize_text note1 = normalize_text note2 ->
   Bot.predict db group_id note1 = Bot.predict db group_id note2)
  /\ Bot.predict db group_id (normalize_text note1) = Bot.predict db group_id note1
  /\ forall alias_subcategory,
       predict_category (normalize_text note1) alias_subcategory
       = predict_category note1 alias_subcategory.
Proof.
  assert (Hidem : forall n, normalize_text (normalize_text n) = normalize_text n).
  { intros n. apply normalize_text_fixed, normalize_text_normal. }
  assert (Hsame : forall n1 n2, normalize_text n1 = normalize_text n2 ->
                  Bot.predict db group_id n1 = Bot.predict db group_id n2).
  { intros n1 n2 E. unfold Bot.predict, predict_category.
    destruct n1 as [|c1 n1], n2 as [|c2 n2]; [done| | |].
    - rewrite <- E. by rewrite normalize_text_nil.
    - rewrite E. by rewrite normalize_text_nil.
    - by rewrite E. }
  split; [apply Hsame|]. split.
  - apply Hsame, Hidem.
  - intros alias_subcategory. unfold predict_category. by rewrite Hidem.
Qed.

(** X2. Every prediction is well formed: its subcategory is a key of the
    taxonomy with the predicted category as parent, the category is one
    of the eight base categories, the reason is "alias" or "rules", and
    the confidence lies between 0.2 and 0.98. *)
Theorem prediction_well_formed (R : Runtime) (note : str)
    (alias_subcategory : option str) (p : Prediction) :
  predict_category note alias_subcategory = Ok (Some p) ->
  parent_category (subcategory p) = Some (Classifier.category p)
  /\ Classifier.category p ∈ Bot.BASE_CATEGORIES
  /\ (reason p = lit "alias" \/ reason p = lit "rules")
  /\ (0.2 <= confidence p <= 0.98)%Q.
Proof.
  intros Hp.
  pose proof (predict_category_consistent _ _ _ Hp) as Hc.
  split; [exact Hc|]. split.
  { apply parent_category_elem in Hc as (sub & Hs & _ & <-). by apply category_is_base. }
  revert Hp. unfold predict_category.
  pose proof (predict_rules_spec (normalize_text note)) as Hr.
  destruct (normalize_text note) as [|c n]; [done|].
  assert (Hrules : predict_rules (c :: n) = Ok (Some p) ->
                   (reason p = lit "alias" \/ reason p = lit "rules")
                   /\ (0.2 <= confidence p <= 0.98)%Q).
  { intros E. rewrite E in Hr. inversion Hr as [|S1 sub S2 best second HS Hb H1 HF1 HF2 Hu]; subst.
    simpl. split; [by right|]. apply round2_bounds.
    rewrite clamp_confidence_clamp. apply clamp_bounds. lra. }
  destruct alias_subcategory as [[|a0 a]|]; [done| |done].
  destruct (dict_get (a0 :: a) SUBCATEGORY_TO_CATEGORY) as [cat|]; [|done].
  intros [= <-]. simpl. split; [by left | lra].
Qed.

(** X3. Without an alias, a note is predicted exactly when some keyword
    of the taxonomy occurs in its normal form; and the predicted
    subcategory is then one that has such a keyword. *)
Theorem keyword_hit_decides (R : Runtime) (note : str) (alias_subcategory : option str) :
  normalize_text note <> [] ->
  alias_miss alias_subcategory ->
  ((exists sub w, sub ∈ SUBCATEGORIES /\ w ∈ keywords sub
                  /\ contains w (normalize_text note) = true)
   <-> exists p, predict_category note alias_subcategory = Ok (Some p))
  /\ forall p, predict_category note alias_subcategory = Ok (Some p) ->
       exists sub w, sub ∈ SUBCATEGORIES /\ key sub = subcategory p
                     /\ w ∈ keywords sub /\ contains w (normalize_text note) = true.
Proof.
  intros Hn Hmiss. rewrite (predict_category_miss R note alias_subcategory Hmiss Hn).
  pose proof (predict_rules_spec (normalize_text note)) as Hr.
  assert (Hsome : forall p, predict_rules (normalize_text note) = Ok (Some p) ->
            exists sub w, sub ∈ SUBCATEGORIES /\ key sub = subcategory p
                          /\ w ∈ keywords sub /\ contains w (normalize_text note) = true).
  { intros p E. rewrite E in Hr.
    inversion Hr as [|S1 sub S2 best second HS Hb H1 HF1 HF2 Hu]; subst. simpl.
    destruct (subcategory_score_hit R (normalize_text note) sub) as (w & Hw & Hc).
    { rewrite <- Hb. exact H1. }
    exists sub, w. split; [|done]. rewrite HS. apply elem_of_app. right. left. }
  split; [split|exact Hsome].
  - intros (sub & w & Hs & Hw & Hc).
    pose proof (subcategory_score_ge R _ _ _ Hw Hc) as Hge.
    inversion Hr as [Hz E|S1 sub' S2 best second HS Hb H1 HF1 HF2 Hu E].
    + specialize (Hz sub Hs). rewrite Hz in Hge. exfalso. revert Hge.
      apply Qlt_not_le. reflexivity.
    + by eexists.
  - intros (p & E). destruct (Hsome p E) as (sub & w & Hs & _ & Hw & Hc).
    by exists sub, w.
Qed.
End PredictorExtras.

(* ================================================================== *)
(** * Amounts *)
(* ================================================================== *)

(* ================================================================== *)
(** * Properties of the parser of expense messages *)
(* ================================================================== *)


Section StringFacts.
Import Py.


(** A string that lacks the first code point of [old] has no
    occurrence of it. *)
Lemma replace_absent h t new s : h ∉ s -> replace (h :: t) new s = s.
Proof.
  unfold replace. induction s as [|c s IH]; simpl; [done|].
  intros H. apply not_elem_of_cons in H as [Hc Hs].
  rewrite (bool_decide_eq_false_2 (h = c)) by done. simpl. by rewrite IH.
Qed.



Lemma rstrip_by_snoc p s c :
  rstrip_by p (s ++ [c]) = if p c then rstrip_by p s else s ++ [c].
Proof.
  induction s as [|a s IH]; simpl.
  - by destruct (p c).
  - rewrite IH. destruct (p c) eqn:E; [done|].
    destruct (s ++ [c]) eqn:E2; [by destruct s | done].
Qed.

Lemma split_on_absent sep s : sep ∉ s -> split_on sep s = [s].
Proof.
  induction s as [|c s IH]; simpl; [done|].
  intros H. apply not_elem_of_cons in H as [Hc Hs].
  rewrite (bool_decide_eq_false_2 (c = sep)) by congruence. by rewrite IH.
Qed.

Lemma split_on_app sep D s :
  sep ∉ D -> split_on sep (D ++ sep :: s) = D :: split_on sep s.
Proof.
  induction D as [|c D IH]; simpl.
  - intros _. by rewrite bool_decide_eq_true_2.
  - intros H. apply not_elem_of_cons in H as [Hc HD].
    rewrite (bool_decide_eq_false_2 (c = sep)) by congruence. by rewrite IH.
Qed.
End StringFacts.

Section AmountText.
Context {R : Py.Runtime}.
Import Py Bot.










End AmountText.

(* ================================================================== *)
(** * Decimal numerals under the evaluation tables *)
(* ================================================================== *)

Section Numerals.
Import Py PyMore Tables Bot.

Definition ascii_digit (c : N) : Prop := (48 <= c <= 57)%N.

Lemma ascii_digit_cases c :
  ascii_digit c -> c ∈ [48; 49; 50; 51; 52; 53; 54; 55; 56; 57]%N.
Proof. unfold ascii_digit. rewrite !elem_of_cons, elem_of_nil. lia. Qed.

(** Reduces a goal about one ASCII digit to its ten instances. *)
Ltac by_digit H :=
  apply ascii_digit_cases in H;
  repeat (apply elem_of_cons in H as [->|H]; [vm_compute; try reflexivity; try done|]);
  by apply elem_of_nil in H.


Lemma ascii_digit_not_space c : ascii_digit c -> Tables.isspace c = false.
Proof. intros H. by_digit H. Qed.

Lemma ascii_digit_lower c : ascii_digit c -> Tables.lower_char c = [c].
Proof. intros H. by_digit H. Qed.


Lemma uint_digits_ascii d : Forall ascii_digit (uint_digits d).
Proof. induction d; simpl; constructor; try done; unfold ascii_digit; lia. Qed.

(** The value of a numeral read from the left with an accumulator. *)
Definition numeral (acc : N) (d : Decimal.uint) : N :=
  match acc with
  | N0 => Pos.of_uint d
  | Npos a => Npos (Pos.of_uint_acc d a)
  end.

Lemma numeral_step k acc d :
  (k < 10)%N ->
  numeral (acc * 10 + k) d
  = match acc, k with
    | N0, N0 => Pos.of_uint d
    | N0, Npos k => Npos (Pos.of_uint_acc d k)
    | Npos a, N0 => Npos (Pos.of_uint_acc d (10 * a))
    | Npos a, Npos k => Npos (Pos.of_uint_acc d (k + 10 * a))
    end.
Proof.
  intros Hk. destruct acc as [|a], k as [|k]; simpl; try reflexivity.
  - by rewrite Pos.mul_comm.
  - by rewrite Pos.mul_comm, Pos.add_comm.
Qed.

Lemma digits_value_uint d : forall acc,
  Tables.digits_value acc (uint_digits d) = Some (numeral acc d).
Proof.
  induction d; intros acc; cbn [uint_digits Tables.digits_value];
    [by destruct acc|..];
    change (Tables.digit_value _) with (Some 0%N) ||
    change (Tables.digit_value _) with (Some 1%N) ||
    change (Tables.digit_value _) with (Some 2%N) ||
    change (Tables.digit_value _) with (Some 3%N) ||
    change (Tables.digit_value _) with (Some 4%N) ||
    change (Tables.digit_value _) with (Some 5%N) ||
    change (Tables.digit_value _) with (Some 6%N) ||
    change (Tables.digit_value _) with (Some 7%N) ||
    change (Tables.digit_value _) with (Some 8%N) ||
    change (Tables.digit_value _) with (Some 9%N);
    cbv beta iota; rewrite IHd, numeral_step by lia; by destruct acc.
Qed.

Lemma decimal_digits_uint d : forall acc b,
  decimal_digits (R := basic) (Z.of_N acc, b) (uint_digits d)
  = Some (Z.of_N (numeral acc d), b * 10 ^ Z.of_nat (length (uint_digits d))).
Proof.
  induction d; intros acc b; cbn [uint_digits decimal_digits length];
    [by rewrite Z.mul_1_r; destruct acc|..];
    change (@Py.digit_value _ _) with (Some 0%N) ||
    change (@Py.digit_value _ _) with (Some 1%N) ||
    change (@Py.digit_value _ _) with (Some 2%N) ||
    change (@Py.digit_value _ _) with (Some 3%N) ||
    change (@Py.digit_value _ _) with (Some 4%N) ||
    change (@Py.digit_value _ _) with (Some 5%N) ||
    change (@Py.digit_value _ _) with (Some 6%N) ||
    change (@Py.digit_value _ _) with (Some 7%N) ||
    change (@Py.digit_value _ _) with (Some 8%N) ||
    change (@Py.digit_value _ _) with (Some 9%N);
    cbv beta iota; cbn [fst snd];
    match goal with
    | |- decimal_digits (?a, _) _ = _ =>
      match a with
      | (_ + Z.of_N ?k)%Z =>
        replace a with (Z.of_N (acc * 10 + k)) by lia
      end
    end;
    rewrite IHd, numeral_step, Nat2Z.inj_succ, Z.pow_succ_r by lia;
    f_equal; f_equal; first [lia | by destruct acc].
Qed.

Lemma to_uint_value p : numeral 0 (Pos.to_uint p) = Npos p.
Proof. apply Unsigned.of_to. Qed.

Lemma to_uint_nonempty p : uint_digits (Pos.to_uint p) <> [].
Proof.
  intros E. pose proof (digits_value_uint (Pos.to_uint p) 0) as H.
  rewrite E, to_uint_value in H. discriminate H.
Qed.

(** The numeral of a natural number: not empty, made of ASCII digits,
    and read back as the number. *)
Lemma str_of_int_nonneg n :
  0 <= n ->
  str_of_int n <> [] /\ Forall ascii_digit (str_of_int n)
  /\ Tables.digits_value 0 (str_of_int n) = Some (Z.to_N n)
  /\ forall b, decimal_digits (R := basic) (0, b) (str_of_int n)
               = Some (n, b * 10 ^ Z.of_nat (length (str_of_int n))).
Proof.
  intros Hn. destruct n as [|p|p]; [| |lia].
  - repeat split; try done. repeat constructor; unfold ascii_digit; lia.
  - unfold str_of_int. cbn [Z.to_int]. split; [apply to_uint_nonempty|].
    split; [apply uint_digits_ascii|]. split.
    + by rewrite digits_value_uint, to_uint_value.
    + intros b. change 0 with (Z.of_N 0). by rewrite decimal_digits_uint, to_uint_value.
Qed.
End Numerals.

Section NumeralTokens.
Import Py PyMore Tables Bot.

(** The code points of a written amount: digits, comma and full stop. *)
Definition plain (c : N) : Prop := ascii_digit c \/ c = 44%N \/ c = 46%N.



Lemma ends_clean_Forall p s : Forall (fun c => p c = false) s -> ends_clean p s.
Proof.
  induction 1 as [|c s Hc Hs IH]; simpl; [done|]. by destruct s.
Qed.

Lemma ends_clean_app p s t : t <> [] -> ends_clean p t -> ends_clean p (s ++ t).
Proof.
  intros Ht H. induction s as [|c s IH]; simpl; [done|].
  destruct (s ++ t) eqn:E; [|done]. by destruct s, t.
Qed.



Lemma plain_lower c : plain c -> Tables.lower_char c = [c].
Proof. intros [H|[->| ->]]; [by apply ascii_digit_lower | done | done]. Qed.

Lemma plain_absent h s :
  Forall plain s -> (h < 44 \/ h = 45 \/ h = 47 \/ 57 < h)%N -> h ∉ s.
Proof.
  intros Hs Hh Hin. eapply List.Forall_forall in Hs; [|by apply list_elem_of_In].
  unfold plain, ascii_digit in Hs. lia.
Qed.




(** The currency marks that [parse_amount_token] drops, in the order it
    drops them. *)
Definition unmarked (s : str) : str :=
  let s := replace (lit "rur") [] (replace (lit "rub") [] (replace (lit "₽") [] s)) in
  let s := replace (lit "usd") [] (replace (lit "$") [] s) in
  replace (lit "eur") [] (replace (lit "€") [] s).

Lemma unmarked_plain s : Forall plain s -> unmarked s = s.
Proof.
  intros H. unfold unmarked.
  change (lit "₽") with [0x20BD%N]. change (lit "rub") with [114; 117; 98]%N.
  change (lit "rur") with [114; 117; 114]%N. change (lit "$") with [36%N].
  change (lit "usd") with [117; 115; 100]%N. change (lit "€") with [0x20AC%N].
  change (lit "eur") with [101; 117; 114]%N.
  rewrite !(fun h t => replace_absent h t [] s) by (apply plain_absent; [done | lia]).
  done.
Qed.








End NumeralTokens.

Section CurrencyMarks.
Import Py PyMore Tables Bot.

Lemma startswith_app_absent old m T :
  old <> [] -> (forall c, c ∈ old -> c ∉ T) ->
  startswith old (m ++ T) = startswith old m.
Proof.
  revert m. induction old as [|h old IH]; intros m Hne Habs; [done|].
  destruct m as [|c m]; simpl.
  - destruct T as [|a T]; [done|]. simpl.
    rewrite bool_decide_eq_false_2; [done|]. intros <-.
    apply (Habs h); left.
  - destruct old as [|h' old']; [done|].
    rewrite IH; [done|done|]. intros x Hx. apply Habs. by right.
Qed.

Lemma startswith_length p s : startswith p s = true -> (length p <= length s)%nat.
Proof.
  revert s. induction p as [|a p IH]; intros [|b s]; simpl; try done; [lia|].
  intros H. apply andb_true_iff in H as [_ H]. apply IH in H. lia.
Qed.

(** Code points that do not occur in [old] end every occurrence. *)
Lemma replace_from_app_r old new m T : forall k,
  old <> [] -> (forall c, c ∈ old -> c ∉ T) -> (k <= length m)%nat ->
  replace_from old new k (m ++ T) = replace_from old new k m ++ T.
Proof.
  induction m as [|c m IH]; intros k Hne Habs Hk.
  - simpl in Hk. assert (k = 0%nat) as -> by lia. simpl.
    destruct old as [|h t]; [done|]. apply (replace_absent h t new T).
    apply Habs. left.
  - cbn [app replace_from]. destruct k as [|k].
    + change (c :: m ++ T) with ((c :: m) ++ T).
      rewrite (startswith_app_absent old (c :: m) T Hne Habs).
      destruct (startswith old (c :: m)) eqn:E.
      * rewrite IH; [by rewrite app_assoc|done..|].
        apply startswith_length in E. simpl in E. lia.
      * rewrite IH; [done..|lia].
    + apply IH; [done..|]. simpl in Hk. lia.
Qed.

Lemma replace_app_l h t new T s :
  h ∉ T -> replace (h :: t) new (T ++ s) = T ++ replace (h :: t) new s.
Proof.
  unfold replace. induction T as [|c T IH]; simpl; [done|].
  intros H. apply not_elem_of_cons in H as [Hc HT].
  rewrite (bool_decide_eq_false_2 (h = c)) by done. simpl. by rewrite IH.
Qed.

(** The marks of [parse_amount_token]. *)
Definition currency_marks : list str :=
  [lit "₽"; lit "rub"; lit "rur"; lit "$"; lit "usd"; lit "€"; lit "eur"].

Definition mark_char (c : N) : Prop :=
  c ∈ [0x20BD; 114; 117; 98; 36; 115; 100; 0x20AC; 101]%N.

Lemma mark_chars m : m ∈ currency_marks -> Forall mark_char m.
Proof.
  intros H. unfold currency_marks in H.
  repeat (apply elem_of_cons in H as [->|H];
          [vm_compute; repeat (apply List.Forall_cons; [set_solver|]); apply List.Forall_nil|]).
  by apply elem_of_nil in H.
Qed.

Lemma mark_char_not_plain c T : mark_char c -> Forall plain T -> c ∉ T.
Proof.
  intros Hc HT. apply plain_absent; [done|]. unfold mark_char in Hc.
  rewrite !elem_of_cons, elem_of_nil in Hc. lia.
Qed.

Lemma mark_char_facts c :
  mark_char c -> Tables.isspace c = false /\ Tables.lower_char c = [c].
Proof.
  intros H. unfold mark_char in H.
  repeat (apply elem_of_cons in H as [->|H]; [by vm_compute|]).
  by apply elem_of_nil in H.
Qed.

Lemma plain_not_space c : plain c -> Tables.isspace c = false.
Proof. intros [H|[->| ->]]; [by apply ascii_digit_not_space | done | done]. Qed.

Lemma unmarked_mark m : m ∈ currency_marks -> unmarked m = [].
Proof.
  intros H. unfold currency_marks in H.
  repeat (apply elem_of_cons in H as [->|H]; [by vm_compute|]).
  by apply elem_of_nil in H.
Qed.

Lemma unmarked_app_l T s : Forall plain T -> unmarked (T ++ s) = T ++ unmarked s.
Proof.
  intros HT. unfold unmarked.
  change (lit "₽") with [0x20BD%N]. change (lit "rub") with [114; 117; 98]%N.
  change (lit "rur") with [114; 117; 114]%N. change (lit "$") with [36%N].
  change (lit "usd") with [117; 115; 100]%N. change (lit "€") with [0x20AC%N].
  change (lit "eur") with [101; 117; 114]%N.
  rewrite !(fun h t => replace_app_l h t [] T) by (apply plain_absent; [done | lia]).
  done.
Qed.

Lemma unmarked_app_r m T : Forall plain T -> unmarked (m ++ T) = unmarked m ++ T.
Proof.
  intros HT. unfold unmarked, replace.
  assert (Hr : forall old s, old ∈ currency_marks ->
            replace_from old [] 0 (s ++ T) = replace_from old [] 0 s ++ T).
  { intros old s Hold. apply replace_from_app_r; [|..|lia].
    - intros ->. revert Hold. unfold currency_marks.
      rewrite !elem_of_cons, elem_of_nil. by intros [?|[?|[?|[?|[?|[?|[?|[]]]]]]]].
    - intros c Hc. apply mark_char_not_plain; [|done].
      pose proof (mark_chars old Hold) as Hm.
      eapply List.Forall_forall in Hm; [exact Hm | by apply list_elem_of_In]. }
  rewrite !Hr; [done|unfold currency_marks; set_solver..].
Qed.

(** The last steps of [parse_amount_token], on the cleaned token. *)
Definition finish (s : str) : option Q :=
  let cleaned := strip_chars (lit ".,:;!?()[]{}") s in
  match cleaned with
  | [] => None
  | _ :: _ =>
    if AMOUNT_RE_match (R := basic) cleaned
    then parse_amount (R := basic) (Some cleaned) else None
  end.

Lemma parse_amount_token_finish token :
  parse_amount_token (R := basic) token
  = finish (unmarked (lower (R := basic) (strip (R := basic) token))).
Proof. reflexivity. Qed.

Lemma clean_text s :
  Forall (fun c => Tables.isspace c = false /\ Tables.lower_char c = [c]) s ->
  lower (R := basic) (strip (R := basic) s) = s.
Proof.
  intros H. unfold strip, strip_by.
  rewrite lstrip_by_id.
  - rewrite rstrip_by_id.
    + apply lower_fixed. eapply List.Forall_impl; [|exact H]. by intros c [_ ?].
    + apply ends_clean_Forall. eapply List.Forall_impl; [|exact H]. by intros c [? _].
  - destruct s as [|c s]; [done|]. by inversion H as [|? ? [? _] _].
Qed.

(** X6. A currency mark (₽, rub, rur, $, usd, €, eur) written directly
    after or before an amount is dropped: the token is read as the
    amount alone. *)
Theorem currency_mark_dropped (amount mark : str) :
  Forall plain amount -> mark ∈ currency_marks ->
  parse_amount_token (R := basic) (amount ++ mark)
  = parse_amount_token (R := basic) amount
  /\ parse_amount_token (R := basic) (mark ++ amount)
     = parse_amount_token (R := basic) amount.
Proof.
  intros HT Hm.
  assert (Hp : Forall (fun c => Tables.isspace c = false /\ Tables.lower_char c = [c]) amount).
  { eapply List.Forall_impl; [|exact HT]. intros c Hc.
    split; [by apply plain_not_space | by apply plain_lower]. }
  assert (Hk : Forall (fun c => Tables.isspace c = false /\ Tables.lower_char c = [c]) mark).
  { eapply List.Forall_impl; [|exact (mark_chars mark Hm)]. apply mark_char_facts. }
  rewrite !parse_amount_token_finish.
  rewrite !clean_text by (done || (apply Forall_app; by split)).
  rewrite unmarked_app_l, unmarked_app_r, (unmarked_mark mark Hm) by done.
  rewrite app_nil_r, (unmarked_plain amount HT). done.
Qed.
End CurrencyMarks.

(* ================================================================== *)
(** * The parts of an expense message *)
(* ================================================================== *)

Section ExpenseParts.
Context {R : Py.Runtime}.
Import Py Bot.

(** A word: a non-empty string without white space. *)
Definition word (t : str) : Prop := t <> [] /\ Forall (fun c => isspace c = false) t.

Lemma split_from_word cur t s :
  Forall (fun c => isspace c = false) t ->
  split_from cur (t ++ s) = split_from (rev t ++ cur) s.
Proof.
  intros H. revert cur. induction H as [|c t Hc _ IH]; intros cur; simpl; [done|].
  rewrite Hc, IH. by rewrite <- app_assoc.
Qed.

(** [" ".join(ts).split()] gives the words back. *)
Lemma split_join `{!RuntimeLaws R} ts : Forall word ts -> split (join (lit " ") ts) = ts.
Proof.
  unfold split. change (lit " ") with [32%N].
  induction 1 as [|t ts [Hne Ht] Hts IH]; [done|].
  assert (Hrev : rev t <> []).
  { intros E. apply Hne. apply (f_equal (@rev N)) in E. by rewrite rev_involutive in E. }
  destruct ts as [|t' ts].
  - simpl. rewrite <- (app_nil_r t), (split_from_word [] t [] Ht), app_nil_r. simpl.
    destruct (rev t) eqn:E; [done|]. by rewrite <- E, rev_involutive, !app_nil_r.
  - change (join [32%N] (t :: t' :: ts)) with (t ++ 32%N :: join [32%N] (t' :: ts)).
    rewrite (split_from_word [] t _ Ht), app_nil_r. cbn [split_from].
    rewrite isspace_blank. destruct (rev t) eqn:E; [done|].
    rewrite <- E, rev_involutive. by rewrite IH.
Qed.

Lemma first_amount_skip pre a post v : forall idx,
  Forall (fun t => parse_amount_token t = None) pre ->
  parse_amount_token a = Some v ->
  first_amount idx (pre ++ a :: post) = Some ((idx + length pre)%nat, v).
Proof.
  induction pre as [|t pre IH]; intros idx Hpre Ha; simpl.
  - rewrite Ha. do 2 f_equal. lia.
  - inversion Hpre as [|? ? Ht Hpre']; subst. rewrite Ht, IH by done.
    do 2 f_equal. lia.
Qed.



(** What [extract_expense_parts] returns for an amount and the other
    tokens of the text. *)
Definition parts (amount : Q) (rest_tokens : list str) : option (Q * option str * str) :=
  match rest_tokens with
  | [] => Some (amount, None, [])
  | first :: others =>
    match Categories.parse_category (Some first) with
    | Some ((_ :: _) as quick_category) =>
      Some (amount, Some quick_category, strip (join (lit " ") others))
    | _ => Some (amount, None, strip (join (lit " ") rest_tokens))
    end
  end.

Lemma extract_expense_parts_tokens text pre a post v :
  split text = pre ++ a :: post ->
  Forall (fun t => parse_amount_token t = None) pre ->
  parse_amount_token a = Some v ->
  extract_expense_parts text = parts v (pre ++ post).
Proof.
  intros Hs Hpre Ha. unfold extract_expense_parts.
  rewrite Hs, (first_amount_skip pre a post v 0 Hpre Ha). cbn [Nat.add].
  rewrite take_app_length, drop_app_ge by lia.
  replace (S (length pre) - length pre)%nat with 1%nat by lia.
  reflexivity.
Qed.




(** X7. The amount may stand anywhere among the words of a message: the
    text is read as the amount and the other words in their order,
    wherever the amount is put. *)
Theorem amount_position_free `{!RuntimeLaws R} (ws : list str) (a : str) (v : Q)
    (i j : nat) :
  Forall word ws -> word a ->
  Forall (fun t => parse_amount_token t = None) ws ->
  parse_amount_token a = Some v ->
  extract_expense_parts (join (lit " ") (take i ws ++ a :: drop i ws)) = parts v ws
  /\ extract_expense_parts (join (lit " ") (take i ws ++ a :: drop i ws))
     = extract_expense_parts (join (lit " ") (take j ws ++ a :: drop j ws)).
Proof.
  intros Hws Ha Hnone Hv.
  assert (Hat : forall k,
            extract_expense_parts (join (lit " ") (take k ws ++ a :: drop k ws)) = parts v ws).
  { intros k.
    rewrite (extract_expense_parts_tokens _ (take k ws) a (drop k ws) v).
    - by rewrite take_drop.
    - apply split_join. apply Forall_app. split; [by apply Forall_take|].
      constructor; [done | by apply Forall_drop].
    - by apply Forall_take.
    - done. }
  split; [apply Hat|]. by rewrite !Hat.
Qed.

End ExpenseParts.

(* ================================================================== *)
(** * Keyboards and links *)
(* ================================================================== *)

(* ================================================================== *)
(** * Properties of the buttons, the links and the reminder times *)
(* ================================================================== *)

Section IntText.
Import Py PyMore Tables Bot.

(** [int] on a string of ASCII digits, with a final newline or without. *)
Lemma int_of_str_digits ds nl :
  ds <> [] -> Forall ascii_digit ds -> nl = [] \/ nl = [10%N] ->
  Tables.int_of_str (ds ++ nl) = Z.of_N <$> Tables.digits_value 0 ds.
Proof.
  intros Hne Hds Hnl. unfold Tables.int_of_str.
  assert (Hs : strip_by Tables.isspace (ds ++ nl) = ds).
  { assert (Hsp : Forall (fun c => Tables.isspace c = false) ds).
    { eapply List.Forall_impl; [|exact Hds]. apply ascii_digit_not_space. }
    unfold strip_by. rewrite lstrip_by_id.
    - destruct Hnl as [->| ->].
      + rewrite app_nil_r. by apply rstrip_by_id, ends_clean_Forall.
      + rewrite rstrip_by_snoc. change (Tables.isspace 10) with true.
        by apply rstrip_by_id, ends_clean_Forall.
    - destruct ds as [|c ds]; [done|]. simpl. by inversion Hsp. }
  rewrite Hs. destruct ds as [|c ds]; [done|].
  inversion Hds as [|? ? Hc _]; subst. apply ascii_digit_cases in Hc.
  repeat (apply elem_of_cons in Hc as [->|Hc]; [reflexivity|]).
  by apply elem_of_nil in Hc.
Qed.

(** [int(str(n))] is [n]. *)
Lemma int_of_str_str_of_int n : Tables.int_of_str (str_of_int n) = Some n.
Proof.
  destruct n as [|p|p]; [reflexivity| |].
  - destruct (str_of_int_nonneg (Z.pos p)) as (Hne & Hd & Hv & _); [lia|].
    rewrite <- (app_nil_r (str_of_int _)).
    rewrite int_of_str_digits by (done || by left). by rewrite Hv.
  - unfold str_of_int. cbn [Z.to_int]. unfold Tables.int_of_str.
    pose proof (uint_digits_ascii (Pos.to_uint p)) as Hd.
    pose proof (to_uint_nonempty p) as Hne.
    assert (Hs : strip_by Tables.isspace (45%N :: uint_digits (Pos.to_uint p))
                 = 45%N :: uint_digits (Pos.to_uint p)).
    { unfold strip_by. rewrite lstrip_by_id by done.
      apply rstrip_by_id. apply (ends_clean_app _ [45%N]); [done|].
      apply ends_clean_Forall. eapply List.Forall_impl; [|exact Hd].
      apply ascii_digit_not_space. }
    rewrite Hs. destruct (uint_digits (Pos.to_uint p)) as [|c ds] eqn:E; [done|].
    rewrite <- E, digits_value_uint, to_uint_value. done.
Qed.

(** The code points of [str(n)]: a minus sign and digits. *)
Lemma str_of_int_chars n : Forall (fun c => c = 45%N \/ ascii_digit c) (str_of_int n).
Proof.
  unfold str_of_int. destruct (Z.to_int n).
  - eapply List.Forall_impl; [|apply uint_digits_ascii]. intros c Hc. by right.
  - constructor; [by left|].
    eapply List.Forall_impl; [|apply uint_digits_ascii]. intros c Hc. by right.
Qed.

Lemma str_of_int_absent n c :
  (c < 45 \/ 45 < c < 48 \/ 57 < c)%N -> c ∉ str_of_int n.
Proof.
  intros Hc Hin. pose proof (str_of_int_chars n) as H.
  eapply List.Forall_forall in H; [|by apply list_elem_of_In].
  unfold ascii_digit in H. lia.
Qed.

Lemma str_of_int_nonempty n : str_of_int n <> [].
Proof.
  destruct n as [|p|p]; [done| |done].
  unfold str_of_int. cbn [Z.to_int]. apply to_uint_nonempty.
Qed.
End IntText.

Section Buttons.
Import Py PyMore Tables Bot.

(** X9. Every button of [category_keyboard] carries a payload that the
    handler of the category buttons reads back: the pending id the
    keyboard was made for and a base category.  Pressed by the author
    while the pending row exists, it saves the expense under that
    category and deletes the row. *)
Theorem category_keyboard_round_trip (pending_id : Z) (row : list App.InlineKeyboardButton) :
  row ∈ App.category_keyboard pending_id ->
  exists key label payload,
    (key, label) ∈ Categories.CATEGORIES
    /\ row = [App.CallbackButton label payload]
    /\ split_on 58 payload = [lit "cat"; str_of_int pending_id; key]
    /\ @Py.int_of_str basic (str_of_int pending_id) = Some pending_id
    /\ key ∈ BASE_CATEGORIES
    /\ forall (db : Db.State) (user : User) (pending : Db.Pending.row),
         Db.get_pending db pending_id = Some pending ->
         user_id user = Db.Pending.user_id pending ->
         exists shown db',
           on_category_chosen (R := basic) db
             {| data := Some payload; query_from_user := user |}
           = (Ok (Some (Saved (Db.expenses_seq db + 1) (Db.Pending.amount pending) shown
                          (Db.Pending.note pending))), db')
           /\ Db.expenses db'
              = Db.expenses db
                ++ [finalized (Db.expenses_seq db + 1) pending key
                      (resolved_subcategory pending key)]
           /\ Db.get_pending db' pending_id = None.
Proof.
  unfold App.category_keyboard. intros H.
  apply list_elem_of_fmap in H as ([key label] & -> & Hin).
  exists key, label, (lit "cat:" ++ str_of_int pending_id ++ lit ":" ++ key).
  assert (Hkey : key ∈ BASE_CATEGORIES /\ 58%N ∉ key).
  { unfold Categories.CATEGORIES in Hin.
    repeat (apply elem_of_cons in Hin as [[= -> _]|Hin];
            [split; apply (bool_decide_unpack _); vm_compute; exact I|]).
    by apply elem_of_nil in Hin. }
  destruct Hkey as [Hbase Hcolon].
  assert (Hsplit : split_on 58 (lit "cat:" ++ str_of_int pending_id ++ lit ":" ++ key)
                   = [lit "cat"; str_of_int pending_id; key]).
  { change (lit "cat:") with (lit "cat" ++ [58%N]). change (lit ":") with [58%N].
    rewrite <- app_assoc. cbn [app].
    rewrite (split_on_app 58 (lit "cat")) by (apply (bool_decide_unpack _); vm_compute; exact I).
    rewrite (split_on_app 58 (str_of_int pending_id)) by (apply str_of_int_absent; lia).
    by rewrite (split_on_absent 58 key Hcolon). }
  split; [done|]. split; [done|]. split; [done|].
  split; [apply int_of_str_str_of_int|]. split; [done|].
  intros db user pending Hp Hu.
  assert (Hb : button_for (H := basic)
                 {| data := Some (lit "cat:" ++ str_of_int pending_id ++ lit ":" ++ key);
                    query_from_user := user |} pending_id key).
  { exists (lit "cat"), (str_of_int pending_id). split; [exact Hsplit|].
    split; [apply int_of_str_str_of_int | done]. }
  destruct (on_category_chosen_saved (H := basic) db _ pending_id key pending Hb Hp Hu)
    as (shown & db' & Hr & He & Hpe & _).
  exists shown, db'. split; [done|]. split; [done|].
  unfold Db.get_pending. rewrite Hpe. apply lookup_delete_eq.
Qed.
End Buttons.

Section Links.
Import Py PyMore.

Lemma replace_without old new s :
  contains old s = false -> replace old new s = s.
Proof.
  unfold replace. induction s as [|c s IH]; [done|].
  cbn [contains replace_from]. intros H. apply orb_false_iff in H as [Hs Hc].
  by rewrite Hs, IH.
Qed.

Lemma contains_app_foreign h t new r :
  h ∉ new -> contains (h :: t) (new ++ r) = contains (h :: t) r.
Proof.
  induction new as [|n new IH]; [done|].
  intros H. apply not_elem_of_cons in H as [Hn Hnew].
  cbn [app contains startswith].
  rewrite (bool_decide_eq_false_2 (h = n)) by done. simpl. by apply IH.
Qed.

(** A prefix of the replaced text that avoids the code points of [new]
    was there before the replacement. *)
Lemma startswith_replaced old new p : forall s,
  new <> [] -> (forall c, c ∈ p -> c ∉ new) ->
  startswith p (replace_from old new 0 s) = true -> startswith p s = true.
Proof.
  induction p as [|a p IH]; intros s Hnew Hp; [done|].
  destruct s as [|c s]; [done|]. cbn [replace_from].
  destruct (startswith old (c :: s)).
  - destruct new as [|n new]; [done|]. cbn [app startswith].
    intros H. apply andb_true_iff in H as [H _]. apply bool_decide_eq_true in H.
    exfalso. apply (Hp a); [left | subst; left].
  - cbn [startswith]. intros H. apply andb_true_iff in H as [Ha H].
    rewrite Ha. simpl. apply IH; [done| |done].
    intros x Hx. apply Hp. by right.
Qed.

(** After the replacement by a text of other code points no occurrence
    of [old] is left. *)
Lemma replace_from_complete h t new s : forall k,
  new <> [] -> (forall c, c ∈ h :: t -> c ∉ new) ->
  contains (h :: t) (replace_from (h :: t) new k s) = false.
Proof.
  induction s as [|c s IH]; intros k Hnew Hd; [done|].
  cbn [replace_from]. destruct k as [|k]; [|by apply IH].
  destruct (startswith (h :: t) (c :: s)) eqn:E.
  - rewrite contains_app_foreign by (apply Hd; left). by apply IH.
  - cbn [contains]. rewrite (IH 0%nat Hnew Hd), orb_false_r.
    cbn [startswith] in E |- *.
    destruct (bool_decide (h = c)); [|done]. simpl in *.
    destruct (startswith t (replace_from (h :: t) new 0 s)) eqn:Et; [|done].
    apply startswith_replaced in Et; [congruence|done|].
    intros x Hx. apply Hd. by right.
Qed.
End Links.

Section AppLink.
Import Py PyMore.

(** X10. The link of a group: with no template it is the address of the
    web application followed by [?group_id=] and the id; with a template
    every placeholder is replaced by the id, so that none is left, and a
    template without placeholder is the link as it stands. *)
Theorem build_group_app_url_filled (settings : FullConfig.Settings) (group_id : Z) :
  (FullConfig.tg_app_url_template settings = [] ->
   App.build_group_app_url settings group_id
   = FullConfig.webapp_url settings ++ lit "?group_id=" ++ str_of_int group_id)
  /\ (FullConfig.tg_app_url_template settings <> [] ->
      contains (lit "{group_id}") (App.build_group_app_url settings group_id) = false)
  /\ (FullConfig.tg_app_url_template settings <> [] ->
      contains (lit "{group_id}") (FullConfig.tg_app_url_template settings) = false ->
      App.build_group_app_url settings group_id = FullConfig.tg_app_url_template settings).
Proof.
  unfold App.build_group_app_url.
  destruct (FullConfig.tg_app_url_template settings) as [|c template]; [by repeat split|].
  split; [done|]. split.
  - intros _. change (lit "{group_id}") with [123; 103; 114; 111; 117; 112; 95; 105; 100; 125]%N.
    apply replace_from_complete; [apply str_of_int_nonempty|].
    intros x Hx. apply str_of_int_absent.
    rewrite !elem_of_cons, elem_of_nil in Hx. lia.
  - intros _ H. by apply replace_without.
Qed.
End AppLink.

Section ReminderTimes.
Import Py PyMore Tables Bot.




End ReminderTimes.

(* ================================================================== *)
(** * The expense table *)
(* ================================================================== *)

(* ================================================================== *)
(** * Properties of the expense table *)
(* ================================================================== *)

Section ExpenseIds.
Import Py.

(** The ids of the stored expenses grow in storage order and none
    exceeds the AUTOINCREMENT counter. *)
Definition ids_ordered (db : Db.State) : Prop :=
  StronglySorted Z.lt (map Db.Expenses.id (Db.expenses db))
  /\ Forall (fun e => Db.Expenses.id e <= Db.expenses_seq db) (Db.expenses db).

Lemma sorted_snoc (l : list Z) (x : Z) :
  StronglySorted Z.lt l -> Forall (fun y => y < x) l -> StronglySorted Z.lt (l ++ [x]).
Proof.
  induction 1 as [|a l Hl IH Ha]; intros Hx; simpl.
  - repeat constructor.
  - inversion Hx as [|? ? Hax Hlx]; subst. constructor; [by apply IH|].
    apply Forall_app. split; [done|]. by repeat constructor.
Qed.

Lemma sorted_filter {A} (f : A -> Z) (P : A -> Prop) `{forall x, Decision (P x)} (l : list A) :
  StronglySorted Z.lt (map f l) -> StronglySorted Z.lt (map f (filter P l)).
Proof.
  induction l as [|a l IH]; [done|]. simpl. intros Hs.
  inversion Hs as [|? ? Hl Ha]; subst. rewrite filter_cons.
  destruct (decide (P a)); [|by apply IH]. simpl. constructor; [by apply IH|].
  apply List.Forall_forall. intros y Hy. apply in_map_iff in Hy as (x & <- & Hx).
  apply list_elem_of_In, list_elem_of_filter in Hx as [_ Hx].
  eapply List.Forall_forall in Ha; [exact Ha|]. apply in_map. by apply list_elem_of_In.
Qed.

Lemma sorted_NoDup (l : list Z) : StronglySorted Z.lt l -> NoDup l.
Proof.
  induction 1 as [|a l Hl IH Ha]; constructor; [|done].
  intros Hin. eapply List.Forall_forall in Ha; [|by apply list_elem_of_In]. lia.
Qed.

(** The ways a handler changes the expense table: not at all, by one
    insertion under the next id, or by an undo. *)
Definition expenses_step (db db' : Db.State) : Prop :=
  (Db.expenses db' = Db.expenses db /\ Db.expenses_seq db' = Db.expenses_seq db)
  \/ (exists e, Db.expenses db' = Db.expenses db ++ [e]
                /\ Db.Expenses.id e = Db.expenses_seq db + 1
                /\ Db.expenses_seq db' = Db.expenses_seq db + 1)
  \/ (exists group_id user_id i, Db.undo_last_by_user db group_id user_id = (Some i, db')).

Lemma expenses_step_refl db : expenses_step db db.
Proof. by left. Qed.

Lemma undo_last_by_user_seq db group_id user_id :
  Db.expenses_seq (snd (Db.undo_last_by_user db group_id user_id)) = Db.expenses_seq db
  /\ exists i, Db.expenses (snd (Db.undo_last_by_user db group_id user_id))
               = filter (fun e => Db.Expenses.id e <> i) (Db.expenses db)
               \/ snd (Db.undo_last_by_user db group_id user_id) = db.
Proof.
  unfold Db.undo_last_by_user. destruct (map Db.Expenses.id _) as [|i ids]; simpl.
  - split; [done|]. exists 0. by right.
  - split; [done|]. eexists. by left.
Qed.

Lemma expenses_step_ordered db db' :
  expenses_step db db' -> ids_ordered db -> ids_ordered db'.
Proof.
  intros [[He Hs]|[(e & He & Hi & Hs)|(g & u & i & Hu)]] [Hsorted Hle].
  - unfold ids_ordered. by rewrite He, Hs.
  - unfold ids_ordered. rewrite He, Hs, map_app. split.
    + apply sorted_snoc; [done|]. apply List.Forall_forall. intros y Hy.
      apply in_map_iff in Hy as (x & <- & Hx).
      eapply List.Forall_forall in Hle; [|exact Hx]. simpl in Hle. lia.
    + apply Forall_app. split.
      * eapply List.Forall_impl; [|exact Hle]. intros x Hx. simpl in Hx. lia.
      * repeat constructor. lia.
  - destruct (undo_last_by_user_seq db g u) as [Hs (j & [Hf|Hf])];
      rewrite Hu in Hs, Hf; simpl in Hs, Hf.
    + unfold ids_ordered. rewrite Hf, Hs. split; [by apply sorted_filter|].
      apply List.Forall_forall. intros x Hx.
      apply list_elem_of_In, list_elem_of_filter in Hx as [_ Hx].
      eapply List.Forall_forall in Hle; [exact Hle | by apply list_elem_of_In].
    + by subst.
Qed.

Section WithSettings.
Context {R : Runtime}.
Variable settings : Config.Settings.

Lemma add_expense_step db g u c s a n m ac asub aconf applied norm :
  expenses_step db (snd (Db.add_expense db g u c s a n m ac asub aconf applied norm)).
Proof. right. left. eexists. by repeat split. Qed.

Lemma process_expense_text_step db message raw_text reply_on_error :
  expenses_step db (snd (Bot.process_expense_text settings db message raw_text reply_on_error)).
Proof.
  unfold Bot.process_expense_text.
  destruct (Bot.extract_expense_parts raw_text) as [[[amount quick] note]|];
    [|apply expenses_step_refl].
  destruct (Bot.from_user message) as [user|]; [|apply expenses_step_refl].
  destruct quick as [[|q0 q]|].
  2: { apply add_expense_step. }
  all: destruct (Bot.predict db _ note) as [[p|]|e];
    [|apply add_expense_step|apply expenses_step_refl].
  all: destruct (Qle_bool _ _); apply add_expense_step.
Qed.

Lemma undo_step db group_id user :
  expenses_step db (snd (Bot.undo db group_id user)).
Proof.
  unfold Bot.undo.
  destruct (Db.undo_last_by_user db group_id (Bot.user_id user)) as [[i|] db'] eqn:E.
  - right. right. by exists group_id, (Bot.user_id user), i.
  - simpl. unfold Db.undo_last_by_user in E.
    destruct (map Db.Expenses.id _); [|done]. injection E as <-. apply expenses_step_refl.
Qed.

Lemma record_feedback_seq db group_id normalized predicted chosen :
  Db.expenses_seq (Db.record_feedback db group_id normalized predicted chosen)
  = Db.expenses_seq db.
Proof. unfold Db.record_feedback. by destruct normalized. Qed.

Lemma on_category_chosen_step db query :
  expenses_step db (snd (Bot.on_category_chosen db query)).
Proof.
  unfold Bot.on_category_chosen.
  destruct (split_on 58 _) as [|head [|id_text [|category [|]]]];
    try apply expenses_step_refl.
  destruct (int_of_str id_text) as [pending_id|]; [|apply expenses_step_refl].
  destruct (negb _); [apply expenses_step_refl|].
  destruct (Db.get_pending db pending_id) as [pending|] eqn:Hp; [|apply expenses_step_refl].
  destruct (negb _); [apply expenses_step_refl|].
  unfold Db.finalize_pending. rewrite Hp.
  right. left. cbv zeta. cbn [snd].
  destruct (negb (bool_decide (Db.Pending.predicted_subcategory pending = [])) && negb _);
    eexists; rewrite ?record_feedback_expenses, ?record_feedback_seq; by repeat split.
Qed.

Lemma handle_step db u : expenses_step db (snd (Bot.handle settings db u)).
Proof.
  destruct u as [message args|message|query|message|]; simpl.
  - unfold Bot.cmd_add. destruct (negb _); [apply expenses_step_refl|].
    destruct args as [[|a0 a]|]; try apply expenses_step_refl.
    pose proof (process_expense_text_step db message (a0 :: a) true) as H.
    by destruct (Bot.process_expense_text _ _ _ _ _) as [[[b r]|e] db'].
  - unfold Bot.on_plain_text. destruct (negb _); [apply expenses_step_refl|].
    destruct (Bot.from_user message) as [user|]; [|apply expenses_step_refl].
    destruct (Bot.is_bot user); [apply expenses_step_refl|].
    destruct (strip _) as [|c rest]; [apply expenses_step_refl|].
    destruct (bool_decide (c = 47%N)).
    + destruct (split rest) as [|head tokens]; [apply expenses_step_refl|].
      destruct (bool_decide (_ ∈ _)); [apply expenses_step_refl|].
      destruct (bool_decide (_ = _)); [apply undo_step | apply expenses_step_refl].
    + pose proof (process_expense_text_step db message (c :: rest) false) as H.
      by destruct (Bot.process_expense_text _ _ _ _ _) as [[[b r]|e] db'].
  - apply on_category_chosen_step.
  - unfold Bot.cmd_undo. destruct (negb _); [apply expenses_step_refl|].
    destruct (Bot.from_user message) as [user|]; [apply undo_step | apply expenses_step_refl].
  - apply expenses_step_refl.
Qed.

Lemma reachable_ids_ordered db : Bot.reachable settings db -> ids_ordered db.
Proof.
  induction 1 as [|db u Hr IH].
  - split; constructor.
  - eapply expenses_step_ordered; [apply handle_step | exact IH].
Qed.
End WithSettings.

(** X12. In every state the bot reaches, the ids of the stored expenses
    are distinct, grow in storage order and do not exceed the counter;
    a handler leaves the counter or adds one to it, and an expense it
    stores gets the new value as id, so that the id of a removed
    expense is never given again. *)
Theorem expense_ids_fresh (R : Runtime) (settings : Config.Settings) (db : Db.State)
    (u : Bot.update) :
  Bot.reachable settings db ->
  let db' := snd (Bot.handle settings db u) in
  NoDup (map Db.Expenses.id (Db.expenses db))
  /\ ids_ordered db
  /\ Db.expenses_seq db <= Db.expenses_seq db'
  /\ forall e, e ∈ Db.expenses db' ->
       e ∈ Db.expenses db
       \/ (Db.Expenses.id e = Db.expenses_seq db + 1
           /\ Db.expenses_seq db' = Db.expenses_seq db + 1).
Proof.
  intros Hr db'. pose proof (reachable_ids_ordered settings db Hr) as [Hs Hle].
  split; [by apply sorted_NoDup|]. split; [done|].
  destruct (handle_step settings db u) as [[He Hq]|[(e & He & Hi & Hq)|(g & w & i & Hu)]];
    fold db' in He, Hq || fold db' in Hu.
  - rewrite He, Hq. split; [lia|]. intros e He'. by left.
  - rewrite He, Hq. split; [lia|]. intros x Hx.
    apply elem_of_app in Hx as [Hx|Hx]; [by left|].
    apply list_elem_of_singleton in Hx as ->. by right.
  - destruct (undo_last_by_user_seq db g w) as [Hq (j & [Hf|Hf])];
      rewrite Hu in Hq, Hf; simpl in Hq, Hf.
    + rewrite Hq. split; [lia|]. intros x Hx. rewrite Hf in Hx.
      apply list_elem_of_filter in Hx as [_ Hx]. by left.
    + rewrite Hf. split; [lia|]. intros x Hx. by left.
Qed.
End ExpenseIds.

Section Undo.
Import Py.

Lemma max_list_spec l : forall a,
  fold_left Z.max l a ∈ a :: l /\ Forall (fun x => x <= fold_left Z.max l a) (a :: l).
Proof.
  induction l as [|x l IH]; intros a; simpl.
  - split; [left | repeat constructor; lia].
  - destruct (IH (Z.max a x)) as [Hin Hle]. split.
    + apply elem_of_cons in Hin as [Hin|Hin]; [|by right; right].
      rewrite Hin. destruct (Z.max_spec a x) as [[_ ->]|[_ ->]]; [right; left | left].
    + inversion Hle as [|? ? Hm Hl]; subst.
      constructor; [lia|]. constructor; [lia | done].
Qed.

Lemma filter_all {A} (P : A -> Prop) `{forall x, Decision (P x)} (l : list A) :
  Forall P l -> filter P l = l.
Proof.
  induction 1 as [|x l Hx _ IH]; [done|].
  rewrite filter_cons. destruct (decide (P x)); [by rewrite IH | done].
Qed.

Lemma filter_none {A} (P : A -> Prop) `{forall x, Decision (P x)} (l : list A) :
  filter P l = [] -> Forall (fun x => ~ P x) l.
Proof.
  intros E. apply List.Forall_forall. intros x Hx HP.
  assert (Hin : x ∈ filter P l) by (apply list_elem_of_filter; split; [done | by apply list_elem_of_In]).
  rewrite E in Hin. by apply elem_of_nil in Hin.
Qed.

(** X13. [undo_last_by_user] removes exactly one expense: among those
    of the user in the group, the one with the largest id, which it
    returns; the other expenses keep their order and the other tables
    are untouched.  When the user has no expense in the group nothing
    changes and the answer is none. *)
Theorem undo_last_by_user_spec (db : Db.State) (group_id user_id : Z) :
  NoDup (map Db.Expenses.id (Db.expenses db)) ->
  let mine e := Db.Expenses.group_id e = group_id /\ Db.Expenses.user_id e = user_id in
  match Db.undo_last_by_user db group_id user_id with
  | (None, db') => db' = db /\ Forall (fun e => ~ mine e) (Db.expenses db)
  | (Some i, db') =>
    exists l1 e l2,
      Db.expenses db = l1 ++ e :: l2
      /\ Db.expenses db' = l1 ++ l2
      /\ Db.Expenses.id e = i
      /\ mine e
      /\ Forall (fun e' => mine e' -> Db.Expenses.id e' <= i) (Db.expenses db)
      /\ Db.expenses_seq db' = Db.expenses_seq db
      /\ frame db db'
  end.
Proof.
  intros Hnd mine. unfold Db.undo_last_by_user.
  set (rows := filter _ (Db.expenses db)).
  destruct (map Db.Expenses.id rows) as [|i0 ids] eqn:E.
  - split; [done|]. apply map_eq_nil in E. by apply filter_none in E.
  - destruct (max_list_spec ids i0) as [Hin Hle].
    set (m := fold_left Z.max ids i0) in *. rewrite <- E in Hin, Hle.
    apply list_elem_of_fmap in Hin as (e & Hm & He).
    apply list_elem_of_filter in He as [Hmine He].
    apply list_elem_of_split in He as (l1 & l2 & Hsplit).
    exists l1, e, l2. split; [done|]. cbn [Db.expenses Db.expenses_seq]. split.
    + rewrite Hsplit in Hnd |- *. rewrite map_app in Hnd. simpl in Hnd.
      apply NoDup_app in Hnd as (_ & H1 & H2). apply NoDup_cons in H2 as [H2 _].
      rewrite filter_app, filter_cons.
      destruct (decide (Db.Expenses.id e <> m)) as [Hne|_]; [by rewrite <- Hm in Hne|].
      rewrite !filter_all; [done| |].
      * apply List.Forall_forall. intros x Hx Ex. apply H2. rewrite <- Hm, <- Ex.
        apply list_elem_of_In. by apply in_map.
      * apply List.Forall_forall. intros x Hx Ex.
        apply (H1 (Db.Expenses.id x)).
        -- apply list_elem_of_In. by apply in_map.
        -- rewrite Ex, Hm. left.
    + split; [done|]. split; [done|]. split; [|by repeat split].
      apply List.Forall_forall. intros x Hx Hmx.
      eapply List.Forall_forall in Hle; [exact Hle|].
      apply in_map. apply list_elem_of_In. apply list_elem_of_filter.
      split; [done | by apply list_elem_of_In].
Qed.

(** X14. An undo right after [add_expense] by the same user in the same
    group removes the expense just added and returns its id; the table
    is as before, and only the counter tells that an id was used. *)
Theorem add_then_undo (db : Db.State) (group_id user_id : Z) (category subcategory : str)
    (amount : Q) (note : str) (source_message_id : Z) (auto_category auto_subcategory : str)
    (auto_confidence : Q) (is_auto_applied : bool) (raw_comment_normalized : str) :
  Forall (fun e => Db.Expenses.id e <= Db.expenses_seq db) (Db.expenses db) ->
  let added := Db.add_expense db group_id user_id category subcategory amount note
                 source_message_id auto_category auto_subcategory auto_confidence
                 is_auto_applied raw_comment_normalized in
  fst added = Db.expenses_seq db + 1
  /\ Db.undo_last_by_user (snd added) group_id user_id
     = (Some (fst added),
        {| Db.expenses := Db.expenses db;
           Db.expenses_seq := Db.expenses_seq db + 1;
           Db.pending_expenses := Db.pending_expenses db;
           Db.pending_seq := Db.pending_seq db;
           Db.category_feedback := Db.category_feedback db;
           Db.merchant_aliases := Db.merchant_aliases db |}).
Proof.
  intros Hle added. split; [done|].
  unfold added, Db.add_expense, Db.undo_last_by_user. cbn [snd fst Db.expenses].
  set (e := {| Db.Expenses.id := Db.expenses_seq db + 1 |}).
  rewrite filter_app, filter_cons, filter_nil.
  destruct (decide (Db.Expenses.group_id e = group_id /\ Db.Expenses.user_id e = user_id))
    as [_|Hn]; [|by destruct Hn].
  rewrite map_app. cbn [map].
  set (ids0 := map Db.Expenses.id (filter _ (Db.expenses db))).
  assert (H0 : Forall (fun i => i <= Db.expenses_seq db) ids0).
  { apply List.Forall_forall. intros i Hi. apply in_map_iff in Hi as (x & <- & Hx).
    apply list_elem_of_In, list_elem_of_filter in Hx as [_ Hx].
    eapply List.Forall_forall in Hle; [exact Hle | by apply list_elem_of_In]. }
  destruct (ids0 ++ [Db.Expenses.id e]) as [|i ids] eqn:E; [by destruct ids0|].
  destruct (max_list_spec ids i) as [Hin Hmax].
  set (m := fold_left Z.max ids i) in *. rewrite <- E in Hin, Hmax.
  assert (Hm : m = Db.expenses_seq db + 1).
  { apply elem_of_app in Hin as [Hin|Hin].
    - eapply List.Forall_forall in H0; [|by apply list_elem_of_In].
      apply Forall_app in Hmax as [_ Hmax]. inversion Hmax; subst. simpl in *. lia.
    - by apply list_elem_of_singleton in Hin. }
  rewrite Hm. f_equal. cbn [Db.expenses_seq Db.pending_expenses Db.pending_seq
                            Db.category_feedback Db.merchant_aliases]. f_equal.
  rewrite filter_app, filter_cons, filter_nil.
  destruct (decide (Db.Expenses.id e <> Db.expenses_seq db + 1)) as [Hne|_]; [done|].
  rewrite app_nil_r. apply filter_all.
  eapply List.Forall_impl; [|exact Hle]. intros x Hx. simpl in Hx. lia.
Qed.
End Undo.

Section LastExpenses.
Import Py.

Lemma insert_by_id_last e l :
  Forall (fun x => Db.Expenses.id e < Db.Expenses.id x) l ->
  GroupDb.insert_by_id e l = l ++ [e].
Proof.
  induction 1 as [|x l Hx _ IH]; simpl; [done|].
  rewrite IH. destruct (Db.Expenses.id x <? Db.Expenses.id e) eqn:E; [|done].
  apply Z.ltb_lt in E. lia.
Qed.

(** On rows whose ids grow, [ORDER BY id DESC] is the reverse order. *)
Lemma order_by_id_desc_rev l :
  StronglySorted Z.lt (map Db.Expenses.id l) -> GroupDb.order_by_id_desc l = rev l.
Proof.
  induction l as [|e l IH]; [done|]. simpl. intros Hs.
  inversion Hs as [|? ? Hl He]; subst. rewrite (IH Hl).
  apply insert_by_id_last. apply List.Forall_forall. intros x Hx.
  apply in_rev in Hx. eapply List.Forall_forall in He; [exact He | by apply in_map].
Qed.

(** The columns [last_expenses] selects. *)
Definition shown (e : Db.Expenses.row) : Z * Q * str * str * str * Z :=
  (Db.Expenses.id e, Db.Expenses.amount e, Db.Expenses.category e,
   Db.Expenses.subcategory e, Db.Expenses.note e, Db.Expenses.user_id e).

(** X15. In every state the bot reaches, [last_expenses] lists the
    expenses of the group from the most recently stored one backwards,
    up to the limit; an expense just added to the group comes first. *)
Theorem last_expenses_recent (R : Runtime) (settings : Config.Settings) (db : Db.State)
    (group_id limit : Z) :
  Bot.reachable settings db ->
  GroupDb.last_expenses db group_id limit
  = map shown (GroupDb.sql_limit limit
                 (rev (filter (fun e => Db.Expenses.group_id e = group_id) (Db.expenses db))))
  /\ (0 <= limit -> (length (GroupDb.last_expenses db group_id limit) <= Z.to_nat limit)%nat)
  /\ forall user_id category subcategory amount note source_message_id auto_category
            auto_subcategory auto_confidence is_auto_applied raw_comment_normalized,
       0 < limit ->
       let added := Db.add_expense db group_id user_id category subcategory amount note
                      source_message_id auto_category auto_subcategory auto_confidence
                      is_auto_applied raw_comment_normalized in
       exists rest,
         GroupDb.last_expenses (snd added) group_id limit
         = (fst added, amount, category, subcategory, note, user_id) :: rest.
Proof.
  intros Hr. pose proof (reachable_ids_ordered settings db Hr) as Hord.
  assert (Heq : forall db0, ids_ordered db0 ->
            GroupDb.last_expenses db0 group_id limit
            = map shown (GroupDb.sql_limit limit
                (rev (filter (fun e => Db.Expenses.group_id e = group_id) (Db.expenses db0))))).
  { intros db0 [Hs _]. unfold GroupDb.last_expenses.
    rewrite order_by_id_desc_rev; [done|]. by apply sorted_filter. }
  split; [by apply Heq|]. split.
  - intros Hl. rewrite (Heq db Hord), length_map. unfold GroupDb.sql_limit.
    destruct (limit <? 0) eqn:E; [apply Z.ltb_lt in E; lia|].
    rewrite length_take. lia.
  - intros user_id category subcategory amount note source_message_id auto_category
      auto_subcategory auto_confidence is_auto_applied raw_comment_normalized Hl added.
    rewrite (Heq (snd added)).
    2: { eapply expenses_step_ordered; [|exact Hord]. apply add_expense_step. }
    unfold added, Db.add_expense. cbn [snd fst Db.expenses].
    rewrite filter_app, filter_cons, filter_nil.
    destruct (decide _) as [_|Hn]; [|done].
    rewrite rev_app_distr. cbn [rev app]. unfold GroupDb.sql_limit.
    destruct (limit <? 0) eqn:E; [apply Z.ltb_lt in E; lia|].
    destruct (Z.to_nat limit) as [|n] eqn:En; [lia|].
    cbn [take map]. by eexists.
Qed.
End LastExpenses.

(* ================================================================== *)
(** * Further properties of the engine *)
(* ================================================================== *)

(* ================================================================== *)
(** * More properties of the engine *)
(* ================================================================== *)

Section EngineExtras.
Context {R : Py.Runtime}.
Import Py.

(** X16. Feedback is local to its group and note: recording it leaves
    the alias and the prediction of every other pair of group and
    normalized note as they were. *)
Theorem feedback_is_local (db : Db.State) (group_id : Z)
    (raw_comment_normalized predicted_subcategory chosen_subcategory : str)
    (other_group : Z) (note : str) :
  (other_group, Classifier.normalize_text note) <> (group_id, raw_comment_normalized) ->
  let db' := Db.record_feedback db group_id raw_comment_normalized predicted_subcategory
               chosen_subcategory in
  Db.get_alias_subcategory db' other_group (Classifier.normalize_text note)
  = Db.get_alias_subcategory db other_group (Classifier.normalize_text note)
  /\ Bot.predict db' other_group note = Bot.predict db other_group note.
Proof.
  intros Hne db'.
  assert (H : Db.get_alias_subcategory db' other_group (Classifier.normalize_text note)
              = Db.get_alias_subcategory db other_group (Classifier.normalize_text note)).
  { unfold db', Db.record_feedback, Db.get_alias_subcategory.
    destruct raw_comment_normalized as [|c n]; [done|].
    destruct (Classifier.normalize_text note) as [|c' n']; [done|].
    cbn [Db.merchant_aliases]. destruct (_ && _); [|done].
    by rewrite lookup_insert_ne. }
  split; [exact H|]. unfold Bot.predict. destruct note; [done|]. by rewrite H.
Qed.

Lemma record_feedback_grows db group_id normalized predicted chosen :
  let db' := Db.record_feedback db group_id normalized predicted chosen in
  Db.category_feedback db `prefix_of` Db.category_feedback db'
  /\ forall k, is_Some (Db.merchant_aliases db !! k) -> is_Some (Db.merchant_aliases db' !! k).
Proof.
  unfold Db.record_feedback. destruct normalized as [|c n]; [done|].
  cbn [Db.category_feedback Db.merchant_aliases]. split; [by apply prefix_app_r|].
  intros k Hk. destruct (_ && _); [|done].
  destruct (decide ((group_id, c :: n) = k)) as [<-|Hne].
  - rewrite lookup_insert_eq. by eexists.
  - by rewrite lookup_insert_ne.
Qed.

(** X17. What the bot has learnt is never taken back: a handler leaves
    the feedback log as it is or appends to it, and an alias, once
    stored, stays stored (its subcategory may be replaced). *)
Theorem learning_is_kept (settings : Config.Settings) (db : Db.State) (u : Bot.update) :
  let db' := snd (Bot.handle settings db u) in
  Db.category_feedback db `prefix_of` Db.category_feedback db'
  /\ forall k, is_Some (Db.merchant_aliases db !! k) -> is_Some (Db.merchant_aliases db' !! k).
Proof.
  intros db'.
  assert (Hframe : frame db db' ->
            Db.category_feedback db `prefix_of` Db.category_feedback db'
            /\ forall k, is_Some (Db.merchant_aliases db !! k)
                         -> is_Some (Db.merchant_aliases db' !! k)).
  { intros (_ & _ & -> & ->). done. }
  destruct (handle_effect R settings db u) as [[Hf _]|(query & pid & cat & pending & -> & _)];
    [by apply Hframe|].
  unfold db'. cbn [Bot.handle].
  destruct (on_category_chosen_effect db query)
    as [[-> _]|(pending_id & category & row & Hb & Hp & Hu & _)]; [done|].
  destruct (on_category_chosen_saved db query pending_id category row Hb Hp Hu)
    as (label & db1 & -> & _ & _ & ->). cbn [snd].
  destruct (finalize_pending_found db pending_id row category
              (resolved_subcategory row category) Hp) as (db2 & -> & _ & _ & Hfb & Hal).
  cbn [snd]. unfold fed_back. rewrite <- Hfb, <- Hal.
  destruct (decide _); [done|]. apply record_feedback_grows.
Qed.

Lemma process_expense_text_threshold (s1 s2 : Config.Settings) db message raw_text
    reply_on_error :
  Bot.process_expense_text s1 db message raw_text reply_on_error
  = Bot.process_expense_text s2 db message raw_text reply_on_error.
Proof.
  unfold Bot.process_expense_text.
  destruct (Bot.extract_expense_parts raw_text) as [[[amount quick] note]|]; [|done].
  destruct (Bot.from_user message) as [user|]; [|done].
  destruct quick as [[|q0 q]|]; [|done|];
    destruct (Bot.predict db _ note) as [[p|]|e]; try done;
    by do 2 destruct (Qle_bool _ _).
Qed.

(** X18. The auto-apply threshold changes nothing: whatever its value,
    every update gets the same reply and leaves the same state, and the
    same states are reached. *)
Theorem threshold_has_no_effect (s1 s2 : Config.Settings) :
  (forall db u, Bot.handle s1 db u = Bot.handle s2 db u)
  /\ forall db, Bot.reachable s1 db -> Bot.reachable s2 db.
Proof.
  assert (H : forall db u, Bot.handle s1 db u = Bot.handle s2 db u).
  { intros db [message args|message|query|message|]; cbn [Bot.handle]; try done.
    - unfold Bot.cmd_add. destruct (negb _); [done|]. destruct args as [[|a0 a]|]; try done.
      by rewrite (process_expense_text_threshold s1 s2).
    - unfold Bot.on_plain_text. destruct (negb _); [done|].
      destruct (Bot.from_user message) as [user|]; [|done].
      destruct (Bot.is_bot user); [done|].
      destruct (strip _) as [|c rest]; [done|].
      destruct (bool_decide (c = 47%N)); [done|].
      by rewrite (process_expense_text_threshold s1 s2). }
  split; [exact H|].
  induction 1 as [|db u Hr IH]; [constructor|]. rewrite H. by constructor.
Qed.

(** X19. What a plain text message cannot do.  In a private chat, from
    no sender or from a bot, or blank, it is ignored: no reply, no
    change.  When it begins with a slash it is never read as an
    expense: the counter stays, no expense is added (an [/undo] may
    remove one) and the other tables are untouched. *)
Theorem plain_text_guards (settings : Config.Settings) (db : Db.State)
    (message : Bot.Message) :
  (Bot.ensure_group_chat message = false
   \/ Bot.from_user message = None
   \/ (exists user, Bot.from_user message = Some user /\ Bot.is_bot user = true)
   \/ strip (default [] (Bot.text message)) = [] ->
   Bot.on_plain_text settings db message = (Ok None, db))
  /\ (forall rest, strip (default [] (Bot.text message)) = 47%N :: rest ->
      let db' := snd (Bot.on_plain_text settings db message) in
      Db.expenses_seq db' = Db.expenses_seq db
      /\ Db.expenses db' ⊆ Db.expenses db
      /\ frame db db').
Proof.
  split.
  - unfold Bot.on_plain_text. intros [H|[H|[(user & H & Hb)|H]]].
    + by rewrite H.
    + rewrite H. by destruct (negb _).
    + rewrite H, Hb. by destruct (negb _).
    + rewrite H. destruct (negb _); [done|].
      destruct (Bot.from_user message) as [user|]; [|done]. by destruct (Bot.is_bot user).
  - intros rest Ht db'. unfold db', Bot.on_plain_text. rewrite Ht.
    assert (Hsame : Db.expenses_seq db = Db.expenses_seq db
                    /\ Db.expenses db ⊆ Db.expenses db /\ frame db db)
      by (split; [done|]; split; [done | apply frame_refl]).
    destruct (negb _); [done|].
    destruct (Bot.from_user message) as [user|]; [|done].
    destruct (Bot.is_bot user); [done|].
    rewrite bool_decide_eq_true_2 by done.
    destruct (split rest) as [|head tokens]; [done|].
    destruct (bool_decide (_ ∈ _)); [done|].
    destruct (bool_decide (_ = _)); [|done].
    destruct (undo_effect db (Bot.chat_id (Bot.chat message)) user) as [Hf He].
    split; [|by split].
    unfold Bot.undo.
    destruct (undo_last_by_user_seq db (Bot.chat_id (Bot.chat message)) (Bot.user_id user))
      as [Hs _].
    by destruct (Db.undo_last_by_user db _ _) as [[i|] db1].
Qed.
End EngineExtras.

(* ================================================================== *)
(** * The dispatcher *)
(* ================================================================== *)

(* ================================================================== *)
(** * Properties of the dispatcher and of the group settings *)
(* ================================================================== *)

Section Dispatcher.
Context {R : Py.Runtime} {H : PyMore.Host}.
Variable settings : FullConfig.Settings.
Import Py PyMore.

Lemma process_expense_text_engine s env raw_text reply_on_error :
  App.engine (snd (App.process_expense_text settings s env raw_text reply_on_error))
  = snd (Bot.process_expense_text (FullConfig.engine settings) (App.engine s)
           (App.message env) raw_text reply_on_error).
Proof.
  unfold App.process_expense_text, App.upsert_sender.
  destruct (Bot.extract_expense_parts raw_text) as [parsed|] eqn:E.
  - destruct (Bot.from_user (App.message env)) as [user|] eqn:Eu.
    + by destruct (Bot.process_expense_text _ _ _ _ _).
    + unfold Bot.process_expense_text. rewrite E, Eu. by destruct parsed as [[? ?] ?].
  - unfold Bot.process_expense_text. by rewrite E.
Qed.

Lemma handle_engine s u :
  App.engine (snd (App.handle settings s u))
  = snd (Bot.handle (FullConfig.engine settings) (App.engine s) (App.engine_update u)).
Proof.
  destruct u; cbn [App.handle App.engine_update Bot.handle snd].
  - unfold App.cmd_start. destruct (App.upsert_sender _ _); [|done].
    by destruct (Bot.ensure_group_chat _).
  - unfold App.cmd_app. by destruct (Bot.ensure_group_chat _).
  - unfold App.cmd_setup. destruct (negb _); [done|].
    destruct (match args with Some (_ :: _) => _ | _ => _ end) as [currency tz_name].
    by destruct (App.upsert_sender _ _).
  - unfold App.cmd_settings. destruct (negb _); [done|].
    by destruct (App.render_settings _ _ _) as [[panel|e|] st].
  - unfold App.cmd_remind. destruct (negb _); [done|].
    destruct args as [[|a0 a]|]; try done. by destruct (App.TIME_RE_match _).
  - unfold App.cmd_tz. destruct (negb _); [done|].
    destruct args as [[|a0 a]|]; try done. by destruct (App.parse_timezone _).
  - unfold App.on_settings_callback, App.refresh.
    destruct (split_on 58 _) as [|x [|action [|target rest]]]; try done.
    destruct (int_of_str target) as [target_group_id|]; [|done].
    destruct (negb _); [done|].
    destruct (bool_decide (action = lit "t")).
    { by destruct (App.render_settings _ _ _) as [[panel|e|] st]. }
    destruct rest as [|time [|]]; try done.
    destruct (bool_decide (action = lit "h")); [|done].
    destruct (App.TIME_RE_match _); [|done].
    by destruct (App.render_settings _ _ _) as [[panel|e|] st].
  - unfold App.cmd_add, Bot.cmd_add. destruct (negb _); [done|].
    destruct args as [[|a0 a]|]; try done.
    pose proof (process_expense_text_engine s env (a0 :: a) true) as Hp.
    destruct (App.process_expense_text _ _ _ _ _) as [[[b [r|]]|e] s'];
      destruct (Bot.process_expense_text _ _ _ _ _) as [[[b' r']|e'] db']; exact Hp.
  - unfold App.on_plain_text, Bot.on_plain_text. destruct (negb _); [done|].
    destruct (Bot.from_user (App.message env)) as [user|]; [|done].
    destruct (Bot.is_bot user); [done|].
    destruct (strip _) as [|c rest]; [done|].
    destruct (bool_decide (c = 47%N)).
    + destruct (split rest) as [|head tokens]; [done|].
      set (cmd := default [] (hd_error (split_on 64 (lower head)))).
      destruct (decide (cmd = lit "today")) as [->|H1]; [done|].
      destruct (decide (cmd = lit "month")) as [->|H2]; [done|].
      rewrite (bool_decide_eq_false_2 (cmd ∈ [lit "today"; lit "month"]))
        by (rewrite !elem_of_cons, elem_of_nil; tauto).
      destruct (decide (cmd = lit "last")) as [->|H3]; [done|].
      rewrite (bool_decide_eq_false_2 (cmd = lit "last")) by done.
      rewrite (bool_decide_eq_false_2 (cmd ∈ [lit "today"; lit "month"; lit "last"]))
        by (rewrite !elem_of_cons, elem_of_nil; tauto).
      by destruct (bool_decide (cmd = lit "undo")).
    + pose proof (process_expense_text_engine s env (c :: rest) false) as Hp.
      destruct (App.process_expense_text _ _ _ _ _) as [[[b [r|]]|e] s'];
        destruct (Bot.process_expense_text _ _ _ _ _) as [[[b' r']|e'] db']; exact Hp.
  - done.
  - unfold App.cmd_report. by destruct (negb _).
  - unfold App.cmd_report. by destruct (negb _).
  - unfold App.cmd_last. by destruct (negb _).
  - done.
  - done.
Qed.

(** X20. The dispatcher runs the engine: the engine tables after an
    update are those the transition system of the classifier reaches
    from the engine tables before, on the update that the dispatched
    one amounts to; hence every state of the whole bot holds a state of
    that transition system. *)
Theorem dispatcher_runs_engine (s : App.State) :
  (forall u,
     App.engine (snd (App.handle settings s u))
     = snd (Bot.handle (FullConfig.engine settings) (App.engine s) (App.engine_update u)))
  /\ (App.reachable settings s -> Bot.reachable (FullConfig.engine settings) (App.engine s)).
Proof.
  split; [intros u; apply handle_engine|].
  induction 1 as [|s u Hr IH]; [constructor|].
  rewrite handle_engine. by constructor.
Qed.
End Dispatcher.

(* ================================================================== *)
(** * Group settings *)
(* ================================================================== *)

Section GroupSettings.
Context {R : Py.Runtime} {H : PyMore.Host}.
Variable settings : FullConfig.Settings.
Import Py PyMore.

(** The writes of the handlers to the tables [users] and
    [group_settings]. *)
Inductive write :=
| WUser (user_id : Z) (username first_name : str)
| WEnsure (group_id : Z) (title : str)
| WSetup (group_id : Z) (title currency : str) (tz_name : option str)
| WTime (group_id : Z) (reminder_time : str)
| WEnabled (group_id : Z) (enabled : bool)
| WTz (group_id : Z) (tz_name : str)
| WMark (group_id : Z) (local_date : str).

Definition apply (st : GroupDb.State) (w : write) : GroupDb.State :=
  match w with
  | WUser user_id username first_name => GroupDb.upsert_user st user_id username first_name
  | WEnsure group_id title =>
    GroupDb.ensure_group st group_id title (FullConfig.default_currency settings)
      (FullConfig.default_timezone settings)
  | WSetup group_id title currency tz_name =>
    GroupDb.setup_group st group_id title currency tz_name
  | WTime group_id reminder_time => GroupDb.set_reminder_time st group_id reminder_time
  | WEnabled group_id enabled => GroupDb.set_reminder_enabled st group_id enabled
  | WTz group_id tz_name => GroupDb.set_group_timezone st group_id tz_name
  | WMark group_id local_date => GroupDb.mark_group_reminded st group_id local_date
  end.

(** What the handlers have checked before a write. *)
Definition checked (w : write) : Prop :=
  match w with
  | WSetup _ _ _ (Some tz_name) => ZoneInfo tz_name = true
  | WTime _ reminder_time => App.TIME_RE_match reminder_time = true
  | WTz _ tz_name => ZoneInfo tz_name = true
  | _ => True
  end.

(** The writes an update may cause. *)
Definition may (u : App.update) (w : write) : Prop :=
  match w, u with
  | WSetup _ _ _ _, App.CmdSetup _ _ => True
  | WSetup _ _ _ _, _ => False
  | WTime _ _, (App.CmdRemind _ _ | App.SettingsButton _) => True
  | WTime _ _, _ => False
  | WEnabled _ _, App.SettingsButton _ => True
  | WEnabled _ _, _ => False
  | WTz _ _, App.CmdTz _ _ => True
  | WTz _ _, _ => False
  | WMark _ _, App.Reminded _ _ => True
  | WMark _ _, _ => False
  | _, _ => True
  end.

Definition written (u : App.update) (st st' : GroupDb.State) : Prop :=
  exists ws, st' = fold_left apply ws st /\ Forall checked ws /\ Forall (may u) ws.

Lemma written_nil u st : written u st st.
Proof. exists []. by repeat split. Qed.

Lemma written_one u st w : checked w -> may u w -> written u st (apply st w).
Proof. intros Hc Hm. exists [w]. split; [done|]. by split; repeat constructor. Qed.

Lemma written_trans u st1 st2 st3 :
  written u st1 st2 -> written u st2 st3 -> written u st1 st3.
Proof.
  intros (ws1 & -> & Hc1 & Hm1) (ws2 & -> & Hc2 & Hm2).
  exists (ws1 ++ ws2). rewrite fold_left_app. split; [done|].
  split; by apply Forall_app.
Qed.

Lemma upsert_sender_written u st env st' :
  App.upsert_sender st env = Ok st' -> written u st st'.
Proof.
  unfold App.upsert_sender. destruct (Bot.from_user _) as [user|]; [|done].
  intros [= <-]. apply (written_one u st (WUser _ _ _)); [done | by destruct u].
Qed.

Lemma ensure_chat_written u st env : written u st (App.ensure_chat settings st env).
Proof. apply (written_one u st (WEnsure _ _)); [done | by destruct u]. Qed.

Lemma ensure_group_registered st group_id title default_currency default_tz :
  exists r, GroupDb.get_group_settings
              (GroupDb.ensure_group st group_id title default_currency default_tz) group_id
            = Some r.
Proof.
  unfold GroupDb.get_group_settings, GroupDb.ensure_group, GroupDb.upsert_group.
  cbn [GroupDb.group_settings]. rewrite lookup_insert_eq. by eexists.
Qed.

Lemma render_settings_written u st chat_id :
  written u st (snd (App.render_settings settings st chat_id))
  /\ fst (App.render_settings settings st chat_id) <> App.AssertionFailed
  /\ forall e, fst (App.render_settings settings st chat_id) <> App.Failed e.
Proof.
  unfold App.render_settings.
  destruct (GroupDb.get_group_settings st chat_id) as [group|] eqn:E; cbn [fst snd].
  - split; [apply written_nil | done].
  - destruct (ensure_group_registered st chat_id [] (FullConfig.default_currency settings)
                (FullConfig.default_timezone settings)) as [r ->].
    cbn [fst snd]. split; [|done].
    apply (written_one u st (WEnsure chat_id [])); [done | by destruct u].
Qed.

Lemma process_expense_text_written u s env raw_text reply_on_error :
  written u (App.groups s)
    (App.groups (snd (App.process_expense_text settings s env raw_text reply_on_error))).
Proof.
  unfold App.process_expense_text.
  destruct (Bot.extract_expense_parts raw_text); [|apply written_nil].
  destruct (App.upsert_sender _ _) as [st|e] eqn:E; [|apply written_nil].
  destruct (Bot.process_expense_text _ _ _ _ _) as [r db]. cbn [snd App.groups].
  eapply written_trans; [by eapply upsert_sender_written | apply ensure_chat_written].
Qed.

Lemma handle_written s u :
  written u (App.groups s) (App.groups (snd (App.handle settings s u)))
  /\ fst (App.handle settings s u) <> App.AssertionFailed.
Proof.
  destruct u; cbn [App.handle].
  - unfold App.cmd_start. destruct (App.upsert_sender _ _) as [st|e] eqn:E;
      [|split; [apply written_nil | done]].
    destruct (Bot.ensure_group_chat _); cbn [snd fst App.groups]; (split; [|done]).
    + eapply written_trans; [by eapply upsert_sender_written | apply ensure_chat_written].
    + by eapply upsert_sender_written.
  - unfold App.cmd_app. destruct (Bot.ensure_group_chat _); cbn [snd fst App.groups];
      (split; [|done]); [apply ensure_chat_written | apply written_nil].
  - unfold App.cmd_setup. destruct (negb _); [split; [apply written_nil | done]|].
    set (parsed := match args with Some (_ :: _) => _ | _ => _ end).
    assert (Htz : forall tz, snd parsed = Some tz -> ZoneInfo tz = true).
    { subst parsed. destruct args as [[|a0 a]|]; try done. cbn [snd].
      destruct (split (a0 :: a)) as [|first [|second rest]]; try done.
      unfold App.parse_timezone. intros tz.
      destruct (ZoneInfo (strip second)) eqn:Ez; [|done]. by intros [= <-]. }
    destruct parsed as [currency tz_name]. cbn [snd] in Htz.
    destruct (App.upsert_sender _ _) as [st|e] eqn:E; [|split; [apply written_nil | done]].
    cbn [snd fst App.groups]. split; [|done].
    eapply written_trans; [by eapply upsert_sender_written|].
    apply (written_one _ st (WSetup _ _ _ _)); [|done].
    destruct tz_name as [tz|]; [by apply Htz | done].
  - unfold App.cmd_settings. destruct (negb _); [split; [apply written_nil | done]|].
    destruct (render_settings_written (App.CmdSettings env)
                (App.ensure_chat settings (App.groups s) env)
                (Bot.chat_id (Bot.chat (App.message env)))) as (Hw & Ha & _).
    destruct (App.render_settings _ _ _) as [[panel|e|] st]; cbn [snd fst App.groups] in *;
      (split; [|done]); (eapply written_trans; [apply ensure_chat_written | exact Hw]).
  - unfold App.cmd_remind. destruct (negb _); [split; [apply written_nil | done]|].
    destruct args as [[|a0 a]|]; try (split; [apply written_nil | done]).
    destruct (App.TIME_RE_match _) eqn:Et; [|split; [apply written_nil | done]].
    split; [|done]. by apply (written_one _ _ (WTime _ _)).
  - unfold App.cmd_tz. destruct (negb _); [split; [apply written_nil | done]|].
    destruct args as [[|a0 a]|]; try (split; [apply written_nil | done]).
    unfold App.parse_timezone. destruct (ZoneInfo _) eqn:Ez;
      [|split; [apply written_nil | done]].
    split; [|done]. by apply (written_one _ _ (WTz _ _)).
  - unfold App.on_settings_callback.
    destruct (split_on 58 _) as [|x [|action [|target rest]]];
      try (split; [apply written_nil | done]).
    destruct (int_of_str target) as [target_group_id|]; [|split; [apply written_nil | done]].
    destruct (negb _); [split; [apply written_nil | done]|].
    destruct (bool_decide (action = lit "t")).
    { unfold App.refresh.
      set (st := GroupDb.set_reminder_enabled _ _ _).
      destruct (render_settings_written (App.SettingsButton query) st target_group_id)
        as (Hw & Ha & _).
      destruct (App.render_settings _ _ _) as [[panel|e|] st']; cbn [snd fst App.groups] in *;
        (split; [|done]);
        (eapply written_trans; [|exact Hw]); by apply (written_one _ _ (WEnabled _ _)). }
    destruct rest as [|time [|]]; try (split; [apply written_nil | done]).
    destruct (bool_decide (action = lit "h")); [|split; [apply written_nil | done]].
    destruct (App.TIME_RE_match _) eqn:Et; [|split; [apply written_nil | done]].
    unfold App.refresh.
    set (st := GroupDb.set_reminder_time _ _ _).
    destruct (render_settings_written (App.SettingsButton query) st target_group_id)
      as (Hw & Ha & _).
    destruct (App.render_settings _ _ _) as [[panel|e|] st']; cbn [snd fst App.groups] in *;
      (split; [|done]);
      (eapply written_trans; [|exact Hw]); by apply (written_one _ _ (WTime _ _)).
  - unfold App.cmd_add. destruct (negb _); [split; [apply written_nil | done]|].
    destruct args as [[|a0 a]|]; try (split; [apply written_nil | done]).
    pose proof (process_expense_text_written (App.CmdAdd env (Some (a0 :: a))) s env
                  (a0 :: a) true) as Hp.
    by destruct (App.process_expense_text _ _ _ _ _) as [[[b [r|]]|e] s'].
  - unfold App.on_plain_text. destruct (negb _); [split; [apply written_nil | done]|].
    destruct (Bot.from_user (App.message env)) as [user|]; [|split; [apply written_nil | done]].
    destruct (Bot.is_bot user); [split; [apply written_nil | done]|].
    destruct (strip _) as [|c rest]; [split; [apply written_nil | done]|].
    destruct (bool_decide (c = 47%N)).
    + destruct (split rest) as [|head tokens]; [split; [apply written_nil | done]|].
      destruct (bool_decide (_ ∈ _)); [split; [apply written_nil | done]|].
      destruct (bool_decide (_ = _)); [split; [apply written_nil | done]|].
      destruct (bool_decide (_ = _)); [|split; [apply written_nil | done]].
      unfold App.lift. cbn [snd fst App.groups]. split; [apply written_nil|].
      by destruct (fst (Bot.undo _ _ _)) as [[r|]|e].
    + pose proof (process_expense_text_written (App.PlainText env) s env (c :: rest) false)
        as Hp.
      by destruct (App.process_expense_text _ _ _ _ _) as [[[b [r|]]|e] s'].
  - unfold App.on_category_chosen, App.lift. cbn [snd fst App.groups].
    split; [apply written_nil|]. by destruct (fst (Bot.on_category_chosen _ _)) as [[r|]|e].
  - unfold App.cmd_report. destruct (negb _); split; (apply written_nil || done).
  - unfold App.cmd_report. destruct (negb _); split; (apply written_nil || done).
  - unfold App.cmd_last. destruct (negb _); split; (apply written_nil || done).
  - unfold App.cmd_undo, App.lift. cbn [snd fst App.groups].
    split; [apply written_nil|]. by destruct (fst (Bot.cmd_undo _ _)) as [[r|]|e].
  - cbn [snd fst App.groups]. split; [|done]. by apply (written_one _ _ (WMark _ _)).
Qed.
End GroupSettings.

Section GroupSettingsFacts.
Context {R : Py.Runtime} {H : PyMore.Host}.
Variable settings : FullConfig.Settings.
Import Py PyMore.

Lemma update_group_lookup st group_id f g :
  GroupDb.get_group_settings (GroupDb.update_group st group_id f) g
  = if decide (g = group_id) then f <$> GroupDb.get_group_settings st g
    else GroupDb.get_group_settings st g.
Proof.
  unfold GroupDb.get_group_settings, GroupDb.update_group. cbn [GroupDb.group_settings].
  case_decide as E.
  - subst g. destruct (GroupDb.group_settings st !! group_id) as [r|] eqn:E.
    + by rewrite lookup_insert_eq.
    + by rewrite E.
  - destruct (GroupDb.group_settings st !! group_id); [|done].
    by rewrite lookup_insert_ne.
Qed.

Lemma upsert_group_lookup st group_id new f g :
  GroupDb.get_group_settings (GroupDb.upsert_group st group_id new f) g
  = if decide (g = group_id)
    then Some (from_option f new (GroupDb.get_group_settings st g))
    else GroupDb.get_group_settings st g.
Proof.
  unfold GroupDb.get_group_settings, GroupDb.upsert_group. cbn [GroupDb.group_settings].
  case_decide as E.
  - subst g. rewrite lookup_insert_eq. by destruct (GroupDb.group_settings st !! group_id).
  - by rewrite lookup_insert_ne.
Qed.

Ltac rows :=
  cbn [GroupDb.GroupSettings.title GroupDb.GroupSettings.currency
       GroupDb.GroupSettings.timezone GroupDb.GroupSettings.reminder_enabled
       GroupDb.GroupSettings.reminder_time GroupDb.GroupSettings.last_reminder_date
       GroupDb.new_group GroupDb.set_title GroupDb.set_currency GroupDb.set_timezone] in *.

(** What every stored row satisfies. *)
Definition well_set (r : GroupDb.GroupSettings.row) : Prop :=
  (GroupDb.GroupSettings.reminder_time r = lit "21:00"
   \/ App.TIME_RE_match (GroupDb.GroupSettings.reminder_time r) = true)
  /\ (GroupDb.GroupSettings.reminder_enabled r = 0
      \/ GroupDb.GroupSettings.reminder_enabled r = 1)
  /\ (GroupDb.GroupSettings.timezone r = FullConfig.default_timezone settings
      \/ GroupDb.GroupSettings.timezone r = lit "Europe/Moscow"
      \/ ZoneInfo (GroupDb.GroupSettings.timezone r) = true).

Lemma apply_well_set st w :
  checked w ->
  (forall g r, GroupDb.get_group_settings st g = Some r -> well_set r) ->
  forall g r, GroupDb.get_group_settings (apply settings st w) g = Some r -> well_set r.
Proof.
  intros Hc Hst g r. destruct w; cbn [apply checked] in *.
  - apply Hst.
  - unfold GroupDb.ensure_group. rewrite upsert_group_lookup. case_decide; [|apply Hst].
    destruct (GroupDb.get_group_settings st g) as [r0|] eqn:E; cbn [from_option].
    + intros [= <-]. apply (Hst _ _ E).
    + intros [= <-]. unfold well_set. rows. tauto.
  - unfold GroupDb.setup_group. destruct tz_name as [[|c tz]|];
      rewrite upsert_group_lookup; (case_decide; [|apply Hst]);
      (destruct (GroupDb.get_group_settings st g) as [r0|] eqn:E; cbn [from_option];
       intros [= <-]; try specialize (Hst _ _ E); unfold well_set in *; rows; tauto).
  - unfold GroupDb.set_reminder_time. rewrite update_group_lookup.
    case_decide; [|apply Hst].
    destruct (GroupDb.get_group_settings st g) as [r0|] eqn:E; [|done].
    cbn [fmap option_fmap option_map]. intros [= <-]. specialize (Hst _ _ E).
    unfold well_set in *. rows. tauto.
  - unfold GroupDb.set_reminder_enabled. rewrite update_group_lookup.
    case_decide; [|apply Hst].
    destruct (GroupDb.get_group_settings st g) as [r0|] eqn:E; [|done].
    cbn [fmap option_fmap option_map]. intros [= <-]. specialize (Hst _ _ E).
    unfold well_set in *. rows. destruct enabled; tauto.
  - unfold GroupDb.set_group_timezone. rewrite update_group_lookup.
    case_decide; [|apply Hst].
    destruct (GroupDb.get_group_settings st g) as [r0|] eqn:E; [|done].
    cbn [fmap option_fmap option_map]. intros [= <-]. specialize (Hst _ _ E).
    unfold well_set in *. rows. tauto.
  - unfold GroupDb.mark_group_reminded. rewrite update_group_lookup.
    case_decide; [|apply Hst].
    destruct (GroupDb.get_group_settings st g) as [r0|] eqn:E; [|done].
    cbn [fmap option_fmap option_map]. intros [= <-]. specialize (Hst _ _ E).
    unfold well_set in *. rows. tauto.
Qed.

(** X21.  Invariant of the handlers over [group_settings]: in every
    state the bot reaches from a new database, each row of group_settings holds a
    reminder time that is the default 21:00 or matched TIME_RE, a
    reminder flag that is 0 or 1, and a time zone that is the configured
    default, Europe/Moscow or a key ZoneInfo accepted. *)
Theorem group_settings_well_set (s : App.State) (group_id : Z)
    (group : GroupDb.GroupSettings.row) :
  App.reachable settings s ->
  GroupDb.get_group_settings (App.groups s) group_id = Some group ->
  well_set group.
Proof.
  intros Hs. revert group_id group. induction Hs as [|s u Hs IH]; [done|].
  destruct (handle_written settings s u) as [(ws & -> & Hc & _) _].
  revert IH. generalize (App.groups s). clear Hs.
  induction ws as [|w ws IHws]; intros st Hst; [exact Hst|].
  apply List.Forall_cons_iff in Hc as [Hw Hc]. cbn [fold_left].
  apply IHws; [done|]. by apply apply_well_set.
Qed.

(** Which columns of a row an update leaves as they are. *)
Definition kept (u : App.update) (r r' : GroupDb.GroupSettings.row) : Prop :=
  match u with
  | App.CmdSetup _ _ => True
  | _ => GroupDb.GroupSettings.currency r' = GroupDb.GroupSettings.currency r
  end
  /\ match u with
     | App.CmdSetup _ _ | App.CmdTz _ _ => True
     | _ => GroupDb.GroupSettings.timezone r' = GroupDb.GroupSettings.timezone r
     end
  /\ match u with
     | App.CmdRemind _ _ | App.SettingsButton _ => True
     | _ => GroupDb.GroupSettings.reminder_time r' = GroupDb.GroupSettings.reminder_time r
     end
  /\ match u with
     | App.SettingsButton _ => True
     | _ => GroupDb.GroupSettings.reminder_enabled r'
            = GroupDb.GroupSettings.reminder_enabled r
     end
  /\ match u with
     | App.Reminded _ _ => True
     | _ => GroupDb.GroupSettings.last_reminder_date r'
            = GroupDb.GroupSettings.last_reminder_date r
     end.

Lemma kept_refl u r : kept u r r.
Proof. unfold kept. rows. by destruct u. Qed.

Lemma kept_trans u r1 r2 r3 : kept u r1 r2 -> kept u r2 r3 -> kept u r1 r3.
Proof. unfold kept. destruct u; intuition congruence. Qed.

Lemma apply_kept u st w g r :
  may u w ->
  GroupDb.get_group_settings st g = Some r ->
  exists r', GroupDb.get_group_settings (apply settings st w) g = Some r' /\ kept u r r'.
Proof.
  intros Hm E. destruct w; cbn [apply may] in *.
  - exists r. split; [done | apply kept_refl].
  - unfold GroupDb.ensure_group. rewrite upsert_group_lookup, E. cbn [from_option].
    case_decide; eexists; (split; [done|]); [|apply kept_refl].
    unfold kept. rows. by destruct u.
  - unfold GroupDb.setup_group.
    destruct tz_name as [[|c tz]|]; rewrite upsert_group_lookup, E; cbn [from_option];
      (case_decide; eexists; (split; [done|]); [|apply kept_refl]);
      unfold kept; rows; by destruct u.
  - unfold GroupDb.set_reminder_time. rewrite update_group_lookup, E.
    cbn [fmap option_fmap option_map].
    case_decide; eexists; (split; [done|]); [|apply kept_refl].
    unfold kept. rows. by destruct u.
  - unfold GroupDb.set_reminder_enabled. rewrite update_group_lookup, E.
    cbn [fmap option_fmap option_map].
    case_decide; eexists; (split; [done|]); [|apply kept_refl].
    unfold kept. rows. by destruct u.
  - unfold GroupDb.set_group_timezone. rewrite update_group_lookup, E.
    cbn [fmap option_fmap option_map].
    case_decide; eexists; (split; [done|]); [|apply kept_refl].
    unfold kept. rows. by destruct u.
  - unfold GroupDb.mark_group_reminded. rewrite update_group_lookup, E.
    cbn [fmap option_fmap option_map].
    case_decide; eexists; (split; [done|]); [|apply kept_refl].
    unfold kept. rows. by destruct u.
Qed.

(** X22.  Frame of the handlers over [group_settings]: a group that has a
    row keeps one whatever the update, and each setting changes only
    through its own entry points: the currency through /setup, the time
    zone through /setup and /tz, the reminder time through /remind and
    the settings buttons, the reminder flag through the settings
    buttons, the date of the last reminder through the reminder
    worker. *)
Theorem settings_change_by_command (s : App.State) (u : App.update) (group_id : Z)
    (group : GroupDb.GroupSettings.row) :
  GroupDb.get_group_settings (App.groups s) group_id = Some group ->
  exists group',
    GroupDb.get_group_settings (App.groups (snd (App.handle settings s u))) group_id
    = Some group'
    /\ kept u group group'.
Proof.
  destruct (handle_written settings s u) as [(ws & -> & _ & Hm) _].
  generalize (App.groups s). revert group.
  induction ws as [|w ws IHws]; intros group st E.
  - exists group. split; [done | apply kept_refl].
  - apply List.Forall_cons_iff in Hm as [Hw Hm]. cbn [fold_left].
    destruct (apply_kept u st w group_id group Hw E) as (r1 & E1 & K1).
    destruct (IHws Hm r1 _ E1) as (r2 & E2 & K2).
    exists r2. split; [done|]. by eapply kept_trans.
Qed.

Lemma render_settings_shown (st : GroupDb.State) (chat_id : Z) :
  let group :=
    default (GroupDb.new_group [] (FullConfig.default_currency settings)
               (FullConfig.default_timezone settings))
            (GroupDb.get_group_settings st chat_id) in
  let enabled := negb (bool_decide (GroupDb.GroupSettings.reminder_enabled group = 0)) in
  exists st',
    App.render_settings settings st chat_id
    = (App.Done {| App.panel_currency := GroupDb.GroupSettings.currency group;
                   App.panel_timezone := GroupDb.GroupSettings.timezone group;
                   App.panel_enabled := enabled;
                   App.panel_reminder_time := GroupDb.GroupSettings.reminder_time group;
                   App.panel_keyboard := App.settings_keyboard chat_id enabled |}, st')
    /\ GroupDb.get_group_settings st' chat_id = Some group
    /\ (is_Some (GroupDb.get_group_settings st chat_id) -> st' = st).
Proof.
  cbv zeta. unfold App.render_settings.
  destruct (GroupDb.get_group_settings st chat_id) as [group|] eqn:E; cbn [default].
  - eexists. by repeat split.
  - unfold GroupDb.ensure_group. rewrite upsert_group_lookup, E.
    rewrite decide_True by done. cbn [from_option].
    eexists. split; [done|]. split; [|by intros [? ?]].
    rewrite upsert_group_lookup, E. by rewrite decide_True.
Qed.

(** X23.  [render_settings] and its assert: the settings panel
    always renders.  It shows the stored row of the chat, which is left
    as it is; a chat without a row gets one with the default currency
    and time zone, reminders enabled at 21:00.  So no handler fails the
    assert. *)
Theorem render_settings_total (st : GroupDb.State) (chat_id : Z) :
  let group :=
    default (GroupDb.new_group [] (FullConfig.default_currency settings)
               (FullConfig.default_timezone settings))
            (GroupDb.get_group_settings st chat_id) in
  let enabled := negb (bool_decide (GroupDb.GroupSettings.reminder_enabled group = 0)) in
  (exists st',
     App.render_settings settings st chat_id
     = (App.Done {| App.panel_currency := GroupDb.GroupSettings.currency group;
                    App.panel_timezone := GroupDb.GroupSettings.timezone group;
                    App.panel_enabled := enabled;
                    App.panel_reminder_time := GroupDb.GroupSettings.reminder_time group;
                    App.panel_keyboard := App.settings_keyboard chat_id enabled |}, st')
     /\ GroupDb.get_group_settings st' chat_id = Some group
     /\ (is_Some (GroupDb.get_group_settings st chat_id) -> st' = st))
  /\ forall s u, fst (App.handle settings s u) <> App.AssertionFailed.
Proof.
  cbv zeta. split; [|intros s u; apply handle_written].
  unfold App.render_settings.
  destruct (GroupDb.get_group_settings st chat_id) as [group|] eqn:E; cbn [default].
  - eexists. by repeat split.
  - unfold GroupDb.ensure_group. rewrite upsert_group_lookup, E.
    rewrite decide_True by done. cbn [from_option].
    eexists. split; [done|]. split; [|by intros [? ?]].
    rewrite upsert_group_lookup, E. by rewrite decide_True.
Qed.
End GroupSettingsFacts.

Section SettingsCommands.
Context {R : Py.Runtime} {H : PyMore.Host}.
Variable settings : FullConfig.Settings.
Import Py PyMore.

Lemma cmd_settings_shown (s : App.State) (env : App.Envelope) :
  Bot.ensure_group_chat (App.message env) = true ->
  let chat_id := Bot.chat_id (Bot.chat (App.message env)) in
  let title := default [] (App.chat_title env) in
  let group :=
    from_option (GroupDb.set_title title)
      (GroupDb.new_group title (FullConfig.default_currency settings)
         (FullConfig.default_timezone settings))
      (GroupDb.get_group_settings (App.groups s) chat_id) in
  exists panel,
    fst (App.handle settings s (App.CmdSettings env)) = App.Done [App.SettingsPanel panel]
    /\ App.panel_currency panel = GroupDb.GroupSettings.currency group
    /\ App.panel_timezone panel = GroupDb.GroupSettings.timezone group
    /\ App.panel_reminder_time panel = GroupDb.GroupSettings.reminder_time group.
Proof.
  intros Hg. cbv zeta. cbn [App.handle]. unfold App.cmd_settings. rewrite Hg. cbn [negb].
  destruct (render_settings_shown settings (App.ensure_chat settings (App.groups s) env)
              (Bot.chat_id (Bot.chat (App.message env)))) as (st' & -> & _).
  cbn [fst]. eexists. split; [done|].
  cbn [App.panel_currency App.panel_timezone App.panel_reminder_time].
  unfold App.ensure_chat, GroupDb.ensure_group. rewrite upsert_group_lookup.
  rewrite decide_True by done. by cbn [default].
Qed.

(** X24.  [cmd_remind] and [cmd_tz] over [set_reminder_time] and
    [set_group_timezone]: in a group chat /remind with a time
    that matches TIME_RE and /tz with a key ZoneInfo accepts always
    confirm the change, but store it only when the group already has a
    row: the UPDATE of a group without one changes nothing, and the
    panel of a following /settings then shows the default 21:00, or the
    default time zone. *)
Theorem confirmed_settings_need_a_row (s : App.State) (env : App.Envelope) (args : str) :
  Bot.ensure_group_chat (App.message env) = true ->
  args <> [] ->
  let chat_id := Bot.chat_id (Bot.chat (App.message env)) in
  let registered := GroupDb.get_group_settings (App.groups s) chat_id in
  (App.TIME_RE_match (strip args) = true ->
   let r := App.handle settings s (App.CmdRemind env (Some args)) in
   fst r = App.Done [App.ReminderTimeUpdated (strip args)]
   /\ (registered = None -> snd r = s)
   /\ exists panel,
        fst (App.handle settings (snd r) (App.CmdSettings env))
        = App.Done [App.SettingsPanel panel]
        /\ App.panel_reminder_time panel
           = match registered with Some _ => strip args | None => lit "21:00" end)
  /\ (ZoneInfo (strip args) = true ->
      let r := App.handle settings s (App.CmdTz env (Some args)) in
      fst r = App.Done [App.TimezoneUpdated (strip args)]
      /\ (registered = None -> snd r = s)
      /\ exists panel,
           fst (App.handle settings (snd r) (App.CmdSettings env))
           = App.Done [App.SettingsPanel panel]
           /\ App.panel_timezone panel
              = match registered with
                | Some _ => strip args
                | None => FullConfig.default_timezone settings
                end).
Proof.
  intros Hg Hargs. cbv zeta. destruct args as [|a0 a]; [done|]. split.
  - intros Ht. cbn [App.handle]. unfold App.cmd_remind at 1 2.
    rewrite Hg, Ht. cbn [negb fst snd]. split; [done|]. split.
    { intros E. destruct s as [st db]. cbn [App.groups App.engine] in *. f_equal.
      unfold GroupDb.set_reminder_time, GroupDb.update_group.
      unfold GroupDb.get_group_settings in E. rewrite E. by destruct st. }
    destruct (cmd_settings_shown (snd (App.cmd_remind s env (Some (a0 :: a)))) env Hg)
      as (panel & Hp & _ & _ & Htime).
    exists panel. split; [exact Hp|]. rewrite Htime.
    unfold App.cmd_remind. rewrite Hg, Ht. cbn [negb snd App.groups].
    unfold GroupDb.set_reminder_time. rewrite update_group_lookup.
    rewrite decide_True by done.
    by destruct (GroupDb.get_group_settings (App.groups s)
                   (Bot.chat_id (Bot.chat (App.message env)))).
  - intros Ht. cbn [App.handle]. unfold App.cmd_tz at 1 2, App.parse_timezone.
    rewrite Hg, Ht. cbn [negb fst snd]. split; [done|]. split.
    { intros E. destruct s as [st db]. cbn [App.groups App.engine] in *. f_equal.
      unfold GroupDb.set_group_timezone, GroupDb.update_group.
      unfold GroupDb.get_group_settings in E. rewrite E. by destruct st. }
    destruct (cmd_settings_shown (snd (App.cmd_tz s env (Some (a0 :: a)))) env Hg)
      as (panel & Hp & _ & Htz & _).
    exists panel. split; [exact Hp|]. rewrite Htz.
    unfold App.cmd_tz, App.parse_timezone. rewrite Hg, Ht. cbn [negb snd App.groups].
    unfold GroupDb.set_group_timezone. rewrite update_group_lookup.
    rewrite decide_True by done.
    by destruct (GroupDb.get_group_settings (App.groups s)
                   (Bot.chat_id (Bot.chat (App.message env)))).
Qed.
End SettingsCommands.

Section SettingsButtons.
Import Py PyMore.
Variable settings : FullConfig.Settings.

#[local] Abbreviation on_settings_callback :=
  (App.on_settings_callback (R := Tables.basic) settings).

Lemma int_of_str_basic n : @Py.int_of_str Tables.basic (str_of_int n) = Some n.
Proof. apply int_of_str_str_of_int. Qed.

Lemma toggle_payload group_id :
  split_on 58 (lit "cfg:t:" ++ str_of_int group_id) = [lit "cfg"; lit "t"; str_of_int group_id].
Proof.
  change (lit "cfg:t:") with (lit "cfg" ++ 58%N :: lit "t" ++ [58%N]).
  rewrite <- !app_assoc. cbn [app]. rewrite <- ?app_assoc. cbn [app].
  rewrite (split_on_app 58 (lit "cfg")) by (apply (bool_decide_unpack _); vm_compute; exact I).
  rewrite (split_on_app 58 (lit "t")) by (apply (bool_decide_unpack _); vm_compute; exact I).
  rewrite split_on_absent by (apply str_of_int_absent; lia). done.
Qed.

Lemma time_payload group_id time :
  58%N ∉ time ->
  split_on 58 (lit "cfg:h:" ++ str_of_int group_id ++ 58%N :: time)
  = [lit "cfg"; lit "h"; str_of_int group_id; time].
Proof.
  intros Ht.
  change (lit "cfg:h:") with (lit "cfg" ++ 58%N :: lit "h" ++ [58%N]).
  rewrite <- !app_assoc. cbn [app]. rewrite <- ?app_assoc. cbn [app].
  rewrite (split_on_app 58 (lit "cfg")) by (apply (bool_decide_unpack _); vm_compute; exact I).
  rewrite (split_on_app 58 (lit "h")) by (apply (bool_decide_unpack _); vm_compute; exact I).
  rewrite (split_on_app 58 (str_of_int group_id)) by (apply str_of_int_absent; lia).
  by rewrite split_on_absent.
Qed.

Lemma press_toggle (s : App.State) (group_id chat_id : Z) :
  on_settings_callback s {| App.data := Some (lit "cfg:t:" ++ str_of_int group_id);
                            App.message_chat_id := chat_id |}
  = if bool_decide (chat_id = group_id) then
      let enabled :=
        match GroupDb.get_group_settings (App.groups s) group_id with
        | Some group => negb (bool_decide (GroupDb.GroupSettings.reminder_enabled group = 0))
        | None => true
        end in
      App.refresh settings App.SettingsUpdated
        (GroupDb.set_reminder_enabled (App.groups s) group_id (negb enabled))
        (App.engine s) group_id
    else (App.Done [App.OtherChat], s).
Proof.
  unfold App.on_settings_callback. cbn [App.data App.message_chat_id from_option id].
  rewrite toggle_payload, int_of_str_basic.
  destruct (bool_decide (chat_id = group_id)); cbn [negb]; [|done].
  by rewrite bool_decide_eq_true_2.
Qed.

Lemma press_time (s : App.State) (group_id chat_id : Z) (time : str) :
  58%N ∉ time ->
  App.TIME_RE_match (R := Tables.basic) (replace (lit "-") (lit ":") time) = true ->
  on_settings_callback s {| App.data := Some (lit "cfg:h:" ++ str_of_int group_id
                                              ++ 58%N :: time);
                            App.message_chat_id := chat_id |}
  = if bool_decide (chat_id = group_id) then
      let hhmm := replace (lit "-") (lit ":") time in
      App.refresh settings (App.TimeSet hhmm)
        (GroupDb.set_reminder_time (App.groups s) group_id hhmm) (App.engine s) group_id
    else (App.Done [App.OtherChat], s).
Proof.
  intros Hc Ht. unfold App.on_settings_callback. cbn [App.data App.message_chat_id from_option id].
  rewrite time_payload, int_of_str_basic by done.
  destruct (bool_decide (chat_id = group_id)); cbn [negb]; [|done].
  rewrite (bool_decide_eq_false_2 (lit "h" = lit "t")) by done.
  rewrite bool_decide_eq_true_2 by done. by rewrite Ht.
Qed.

Lemma refresh_shown (answer : App.reply) (st : GroupDb.State) (db : Db.State) (group_id : Z)
    (group : GroupDb.GroupSettings.row) :
  GroupDb.get_group_settings st group_id = Some group ->
  exists panel,
    App.refresh settings answer st db group_id
    = (App.Done [answer; App.SettingsPanel panel], {| App.groups := st; App.engine := db |})
    /\ App.panel_enabled panel
       = negb (bool_decide (GroupDb.GroupSettings.reminder_enabled group = 0))
    /\ App.panel_reminder_time panel = GroupDb.GroupSettings.reminder_time group.
Proof.
  intros E. unfold App.refresh.
  destruct (render_settings_shown settings st
              group_id) as (st' & -> & _ & Hst).
  rewrite Hst by (by rewrite E). rewrite E. cbn [default]. by eexists.
Qed.

(** X25.  [settings_keyboard] and [on_settings_callback]: every
    button of the settings keyboard of a group that has a row carries a
    payload its handler reads back.  Pressed in another chat it changes
    nothing; pressed in the group, the first button flips the reminder
    flag and each of the others stores the time its label shows, and
    the panel is rendered again from the new row. *)
Theorem settings_keyboard_round_trip (s : App.State) (group_id : Z)
    (group : GroupDb.GroupSettings.row)
    (row : list App.InlineKeyboardButton) (button : App.InlineKeyboardButton) :
  GroupDb.get_group_settings (App.groups s) group_id = Some group ->
  let enabled := negb (bool_decide (GroupDb.GroupSettings.reminder_enabled group = 0)) in
  row ∈ App.settings_keyboard group_id enabled ->
  button ∈ row ->
  exists text payload,
    button = App.CallbackButton text payload
    /\ (forall chat_id, chat_id <> group_id ->
          on_settings_callback s {| App.data := Some payload; App.message_chat_id := chat_id |}
          = (App.Done [App.OtherChat], s))
    /\ exists answer panel s' group',
         on_settings_callback s {| App.data := Some payload; App.message_chat_id := group_id |}
         = (App.Done [answer; App.SettingsPanel panel], s')
         /\ App.engine s' = App.engine s
         /\ GroupDb.get_group_settings (App.groups s') group_id = Some group'
         /\ App.panel_enabled panel
            = negb (bool_decide (GroupDb.GroupSettings.reminder_enabled group' = 0))
         /\ App.panel_reminder_time panel = GroupDb.GroupSettings.reminder_time group'
         /\ ((answer = App.SettingsUpdated
              /\ GroupDb.GroupSettings.reminder_enabled group' = (if enabled then 0 else 1)
              /\ GroupDb.GroupSettings.reminder_time group'
                 = GroupDb.GroupSettings.reminder_time group)
             \/ (exists icon hhmm,
                   text = icon :: 32%N :: hhmm
                   /\ answer = App.TimeSet hhmm
                   /\ GroupDb.GroupSettings.reminder_time group' = hhmm
                   /\ GroupDb.GroupSettings.reminder_enabled group'
                      = GroupDb.GroupSettings.reminder_enabled group
                   /\ App.TIME_RE_match (R := Tables.basic) hhmm = true)).
Proof.
  intros E enabled Hrow Hb.
  assert (Htimes : forall time icon,
            58%N ∉ time ->
            App.TIME_RE_match (R := Tables.basic) (replace (lit "-") (lit ":") time) = true ->
            button = App.CallbackButton (icon :: 32%N :: replace (lit "-") (lit ":") time)
                       (lit "cfg:h:" ++ str_of_int group_id ++ 58%N :: time) ->
            exists text payload,
              button = App.CallbackButton text payload
              /\ (forall chat_id, chat_id <> group_id ->
                    on_settings_callback s {| App.data := Some payload;
                                              App.message_chat_id := chat_id |}
                    = (App.Done [App.OtherChat], s))
              /\ exists answer panel s' group',
                   on_settings_callback s {| App.data := Some payload;
                                             App.message_chat_id := group_id |}
                   = (App.Done [answer; App.SettingsPanel panel], s')
                   /\ App.engine s' = App.engine s
                   /\ GroupDb.get_group_settings (App.groups s') group_id = Some group'
                   /\ App.panel_enabled panel
                      = negb (bool_decide (GroupDb.GroupSettings.reminder_enabled group' = 0))
                   /\ App.panel_reminder_time panel = GroupDb.GroupSettings.reminder_time group'
                   /\ ((answer = App.SettingsUpdated
                        /\ GroupDb.GroupSettings.reminder_enabled group'
                           = (if enabled then 0 else 1)
                        /\ GroupDb.GroupSettings.reminder_time group'
                           = GroupDb.GroupSettings.reminder_time group)
                       \/ (exists icon hhmm,
                             text = icon :: 32%N :: hhmm
                             /\ answer = App.TimeSet hhmm
                             /\ GroupDb.GroupSettings.reminder_time group' = hhmm
                             /\ GroupDb.GroupSettings.reminder_enabled group'
                                = GroupDb.GroupSettings.reminder_enabled group
                             /\ App.TIME_RE_match (R := Tables.basic) hhmm = true))).
  { intros time icon Hc Ht ->. eexists _, _. split; [done|]. split.
    - intros chat_id Hne. rewrite press_time by done.
      by rewrite bool_decide_eq_false_2.
    - rewrite press_time by done. rewrite bool_decide_eq_true_2 by done. cbv zeta.
      set (hhmm := replace (lit "-") (lit ":") time) in *.
      assert (E' : GroupDb.get_group_settings
                     (GroupDb.set_reminder_time (App.groups s) group_id hhmm) group_id
                   = Some {| GroupDb.GroupSettings.title := GroupDb.GroupSettings.title group;
                             GroupDb.GroupSettings.currency :=
                               GroupDb.GroupSettings.currency group;
                             GroupDb.GroupSettings.timezone :=
                               GroupDb.GroupSettings.timezone group;
                             GroupDb.GroupSettings.reminder_enabled :=
                               GroupDb.GroupSettings.reminder_enabled group;
                             GroupDb.GroupSettings.reminder_time := hhmm;
                             GroupDb.GroupSettings.last_reminder_date :=
                               GroupDb.GroupSettings.last_reminder_date group |}).
      { unfold GroupDb.set_reminder_time. rewrite update_group_lookup, E.
        by rewrite decide_True. }
      destruct (refresh_shown (App.TimeSet hhmm) _ (App.engine s) _ _ E')
        as (panel & -> & He & Ht').
      eexists _, panel, _, _. split; [done|]. split; [done|]. split; [exact E'|].
      split; [exact He|]. split; [exact Ht'|]. right. exists icon, hhmm. by repeat split. }
  unfold App.settings_keyboard in Hrow.
  apply elem_of_cons in Hrow as [->|Hrow].
  { apply list_elem_of_singleton in Hb as ->. eexists _, _. split; [done|]. split.
    - intros chat_id Hne. rewrite press_toggle. by rewrite bool_decide_eq_false_2.
    - rewrite press_toggle. rewrite bool_decide_eq_true_2 by done. rewrite E. cbv zeta.
      fold enabled.
      assert (E' : GroupDb.get_group_settings
                     (GroupDb.set_reminder_enabled (App.groups s) group_id (negb enabled))
                     group_id
                   = Some {| GroupDb.GroupSettings.title := GroupDb.GroupSettings.title group;
                             GroupDb.GroupSettings.currency :=
                               GroupDb.GroupSettings.currency group;
                             GroupDb.GroupSettings.timezone :=
                               GroupDb.GroupSettings.timezone group;
                             GroupDb.GroupSettings.reminder_enabled :=
                               if negb enabled then 1 else 0;
                             GroupDb.GroupSettings.reminder_time :=
                               GroupDb.GroupSettings.reminder_time group;
                             GroupDb.GroupSettings.last_reminder_date :=
                               GroupDb.GroupSettings.last_reminder_date group |}).
      { unfold GroupDb.set_reminder_enabled. rewrite update_group_lookup, E.
        by rewrite decide_True. }
      destruct (refresh_shown App.SettingsUpdated _ (App.engine s) _ _ E')
        as (panel & -> & He & Ht').
      eexists _, panel, _, _. split; [done|]. split; [done|]. split; [exact E'|].
      split; [exact He|]. split; [exact Ht'|]. left.
      split; [done|]. split; [by destruct enabled | done]. }
  apply list_elem_of_singleton in Hrow as ->.
  repeat (apply elem_of_cons in Hb as [Hb|Hb]);
    [apply (Htimes (lit "09-00") 0x1F558%N)
    |apply (Htimes (lit "12-00") 0x1F55B%N)
    |apply (Htimes (lit "21-00") 0x1F319%N)
    |by apply elem_of_nil in Hb];
    try (apply (bool_decide_unpack _); vm_compute; exact I);
    try (vm_compute; reflexivity);
    exact Hb.
Qed.
End SettingsButtons.

Section LoadSettings.
Context {R : Py.Runtime} {H : PyMore.Host}.
Import Py PyMore.

Lemma or_else_nonempty x d : d <> [] -> FullConfig.or_else x d <> [].
Proof. by destruct x. Qed.

Lemma clamp_unit_bounds x : (0 <= clamp_unit x <= 1)%Q.
Proof.
  destruct x as [q| | |]; cbn [clamp_unit]; try lra.
  unfold Py.max, Py.min.
  destruct (Qle_bool 1 q) eqn:E1; [change (Qle_bool 1 0) with false; cbv iota; lra|].
  destruct (Qle_bool q 0) eqn:E2; [lra|].
  assert (~ (1 <= q)%Q) by (rewrite <- Qle_bool_iff; congruence).
  assert (~ (q <= 0)%Q) by (rewrite <- Qle_bool_iff; congruence).
  lra.
Qed.

(** X26.  [load_settings]: the settings load exactly when
    BOT_TOKEN is set to more than white space.  Whatever the other
    variables hold, the loaded threshold lies in [0, 1] (a NaN or an
    infinity included), the reminder interval in [15, 3600], and the
    database path, the default currency, the default time zone and the
    web app URL are never empty. *)
Theorem load_settings_in_range (environ : str -> option str) :
  (FullConfig.load_settings environ = None
   <-> strip (default [] (environ (lit "BOT_TOKEN"))) = [])
  /\ forall settings,
       FullConfig.load_settings environ = Some settings ->
       FullConfig.bot_token settings <> []
       /\ (0 <= FullConfig.auto_category_threshold settings <= 1)%Q
       /\ 15 <= FullConfig.reminder_check_interval_sec settings <= 3600
       /\ FullConfig.db_path settings <> []
       /\ FullConfig.default_currency settings <> []
       /\ FullConfig.default_timezone settings <> []
       /\ FullConfig.webapp_url settings <> [].
Proof.
  unfold FullConfig.load_settings.
  change (FullConfig.getenv environ "BOT_TOKEN" EmptyString)
    with (default [] (environ (lit "BOT_TOKEN"))).
  destruct (strip (default [] (environ (lit "BOT_TOKEN")))) as [|c token] eqn:E.
  - split; [done|]. by intros settings.
  - split; [by split|]. intros settings [= <-].
    cbn [FullConfig.bot_token FullConfig.auto_category_threshold
         FullConfig.reminder_check_interval_sec FullConfig.db_path
         FullConfig.default_currency FullConfig.default_timezone FullConfig.webapp_url].
    split; [done|]. split; [apply clamp_unit_bounds|]. split; [lia|].
    repeat split; by apply or_else_nonempty.
Qed.
End LoadSettings.

Section Setup.
Context {R : Py.Runtime} {H : PyMore.Host}.
Variable settings : FullConfig.Settings.
Import Py PyMore.


End Setup.

(* ================================================================== *)
(** * Further examples *)
(* ================================================================== *)

Section MoreExamples.
Import Py PyMore.

(** The environment of a bot started with a token and a threshold that is
    out of range. *)
Definition example_environ (name : str) : option str :=
  if bool_decide (name = lit "BOT_TOKEN") then Some (lit " 123:abc ")
  else if bool_decide (name = lit "AUTO_CATEGORY_THRESHOLD") then Some (lit "1.5")
  else None.

Definition example_settings : FullConfig.Settings :=
  {| FullConfig.bot_token := lit "123:abc";
     FullConfig.db_path := lit "data/fin_tracker.db";
     FullConfig.default_currency := lit "RUB";
     FullConfig.auto_category_threshold := 1;
     FullConfig.default_timezone := lit "Europe/Moscow";
     FullConfig.reminder_check_interval_sec := 60;
     FullConfig.webapp_url := lit "http://localhost:8089";
     FullConfig.tg_app_url_template := [] |}.

Definition example_envelope (text : string) : App.Envelope :=
  {| App.message := example_message text;
     App.chat_title := Some (lit "Family");
     App.username := Some (lit "anna");
     App.first_name := None |}.

(** The database after /app in the group of [example_envelope]. *)
Definition example_state : App.State :=
  snd (App.handle (R := Tables.basic) (H := HostTables.basic) example_settings App.init
         (App.CmdApp (example_envelope "/app"))).

Definition example_group : GroupDb.GroupSettings.row :=
  GroupDb.new_group (lit "Family") (lit "RUB") (lit "Europe/Moscow").

Lemma example_state_group :
  GroupDb.get_group_settings (App.groups example_state) 7 = Some example_group.
Proof. vm_compute. reflexivity. Qed.

Lemma prediction_by_normal_form_witness :
  @Bot.predict Tables.basic Db.init 7 (lit "  ТАКСИ, домой! ")
  = @Bot.predict Tables.basic Db.init 7 (lit "такси домой").
Proof.
  refine (proj1 (prediction_by_normal_form Tables.basic (RuntimeLaws0 := basic_laws)
                   Db.init 7 (lit "  ТАКСИ, домой! ") (lit "такси домой")) _).
  vm_compute. reflexivity.
Defined.

Lemma prediction_well_formed_witness :
  parent_category (lit "transport_taxi") = Some (lit "transport")
  /\ lit "transport" ∈ Bot.BASE_CATEGORIES
  /\ (lit "rules" = lit "alias" \/ lit "rules" = lit "rules")
  /\ (0.2 <= 0.71 <= 0.98)%Q.
Proof.
  exact (prediction_well_formed Tables.basic (lit "такси") None
           {| Classifier.category := lit "transport";
              Classifier.subcategory := lit "transport_taxi";
              Classifier.confidence := 0.71;
              Classifier.reason := lit "rules" |}
           ltac:(vm_compute; reflexivity)).
Defined.

Lemma keyword_hit_decides_witness :
  exists sub w,
    sub ∈ Taxonomy.SUBCATEGORIES /\ Taxonomy.key sub = lit "transport_taxi"
    /\ w ∈ Taxonomy.keywords sub
    /\ contains w (@Classifier.normalize_text Tables.basic (lit "Такси!")) = true.
Proof.
  refine (proj2 (keyword_hit_decides Tables.basic (lit "Такси!") None _ _)
            {| Classifier.category := lit "transport";
               Classifier.subcategory := lit "transport_taxi";
               Classifier.confidence := 0.71;
               Classifier.reason := lit "rules" |} _).
  - vm_compute. discriminate.
  - intros a Ha. discriminate Ha.
  - vm_compute. reflexivity.
Defined.



Lemma currency_mark_dropped_witness :
  @Bot.parse_amount_token Tables.basic (lit "450" ++ lit "₽")
  = @Bot.parse_amount_token Tables.basic (lit "450")
  /\ @Bot.parse_amount_token Tables.basic (lit "₽" ++ lit "450")
     = @Bot.parse_amount_token Tables.basic (lit "450").
Proof.
  refine (currency_mark_dropped (lit "450") (lit "₽") _ _).
  - change (lit "450") with [52; 53; 48]%N.
    repeat (apply List.Forall_cons; [left; unfold ascii_digit; lia|]). apply List.Forall_nil.
  - apply elem_of_cons. by left.
Defined.

Lemma amount_position_free_witness :
  @Bot.extract_expense_parts Tables.basic (lit "450 кофе") = Some (450%Q, None, lit "кофе")
  /\ @Bot.extract_expense_parts Tables.basic (lit "450 кофе")
     = @Bot.extract_expense_parts Tables.basic (lit "кофе 450").
Proof.
  refine (@amount_position_free Tables.basic basic_laws [lit "кофе"] (lit "450") 450 0 1
            _ _ _ _).
  - repeat constructor; vm_compute; discriminate.
  - split; [vm_compute; discriminate|]. repeat constructor.
  - repeat constructor.
  - vm_compute. reflexivity.
Defined.


Lemma category_keyboard_round_trip_witness :
  exists key label payload,
    nth 0 (App.category_keyboard 7) [] = [App.CallbackButton label payload]
    /\ split_on 58 payload = [lit "cat"; str_of_int 7; key]
    /\ key ∈ Bot.BASE_CATEGORIES.
Proof.
  destruct (category_keyboard_round_trip 7 (nth 0 (App.category_keyboard 7) [])
              ltac:(apply list_elem_of_here))
    as (key & label & payload & _ & Hrow & Hsplit & _ & Hbase & _).
  exact (ex_intro _ key (ex_intro _ label (ex_intro _ payload
           (conj Hrow (conj Hsplit Hbase))))).
Defined.

Lemma expense_ids_fresh_witness :
  let db := snd (@Bot.handle Tables.basic (Config.load_settings None) Db.init
                   (Bot.PlainText (example_message "450 кофе и круассан"))) in
  let db' := snd (@Bot.handle Tables.basic (Config.load_settings None) db
                    (Bot.PlainText (example_message "такси 300"))) in
  NoDup (map Db.Expenses.id (Db.expenses db))
  /\ ids_ordered db
  /\ Db.expenses_seq db <= Db.expenses_seq db'
  /\ forall e, e ∈ Db.expenses db' ->
       e ∈ Db.expenses db
       \/ (Db.Expenses.id e = Db.expenses_seq db + 1
           /\ Db.expenses_seq db' = Db.expenses_seq db + 1).
Proof.
  exact (expense_ids_fresh Tables.basic (Config.load_settings None) _
           (Bot.PlainText (example_message "такси 300"))
           (Bot.reachable_step _ Db.init
              (Bot.PlainText (example_message "450 кофе и круассан"))
              (Bot.reachable_init _))).
Defined.

Lemma undo_last_by_user_spec_witness :
  let db := snd (Db.add_expense Db.init 7 5 (lit "food") (lit "food_out") 450 (lit "кофе")
                   11 [] [] 0 false (lit "кофе")) in
  let mine e := Db.Expenses.group_id e = 7 /\ Db.Expenses.user_id e = 5 in
  match Db.undo_last_by_user db 7 5 with
  | (None, db') => db' = db /\ Forall (fun e => ~ mine e) (Db.expenses db)
  | (Some i, db') =>
    exists l1 e l2,
      Db.expenses db = l1 ++ e :: l2
      /\ Db.expenses db' = l1 ++ l2
      /\ Db.Expenses.id e = i
      /\ mine e
      /\ Forall (fun e' => mine e' -> Db.Expenses.id e' <= i) (Db.expenses db)
      /\ Db.expenses_seq db' = Db.expenses_seq db
      /\ frame db db'
  end.
Proof.
  exact (undo_last_by_user_spec
           (snd (Db.add_expense Db.init 7 5 (lit "food") (lit "food_out") 450 (lit "кофе")
                   11 [] [] 0 false (lit "кофе"))) 7 5 (NoDup_singleton 1)).
Defined.

Lemma add_then_undo_witness :
  let added := Db.add_expense Db.init 7 5 (lit "food") (lit "food_out") 450 (lit "кофе")
                 11 [] [] 0 false (lit "кофе") in
  fst added = 1
  /\ Db.undo_last_by_user (snd added) 7 5
     = (Some 1,
        {| Db.expenses := [];
           Db.expenses_seq := 1;
           Db.pending_expenses := ∅;
           Db.pending_seq := 0;
           Db.category_feedback := [];
           Db.merchant_aliases := ∅ |}).
Proof.
  exact (add_then_undo Db.init 7 5 (lit "food") (lit "food_out") 450 (lit "кофе")
           11 [] [] 0 false (lit "кофе") (List.Forall_nil _)).
Defined.

Lemma last_expenses_recent_witness :
  let db := snd (@Bot.handle Tables.basic (Config.load_settings None) Db.init
                   (Bot.PlainText (example_message "450 кофе и круассан"))) in
  GroupDb.last_expenses db 7 10
  = map shown (GroupDb.sql_limit 10
                 (rev (filter (fun e => Db.Expenses.group_id e = 7) (Db.expenses db)))).
Proof.
  exact (proj1 (last_expenses_recent Tables.basic (Config.load_settings None) _ 7 10
                  (Bot.reachable_step _ Db.init
                     (Bot.PlainText (example_message "450 кофе и круассан"))
                     (Bot.reachable_init _)))).
Defined.

Lemma feedback_is_local_witness :
  let db' := Db.record_feedback Db.init 7 (lit "такси") (lit "transport_taxi")
               (lit "transport_public") in
  Db.get_alias_subcategory db' 8 (@Classifier.normalize_text Tables.basic (lit "Такси"))
  = Db.get_alias_subcategory Db.init 8 (@Classifier.normalize_text Tables.basic (lit "Такси"))
  /\ @Bot.predict Tables.basic db' 8 (lit "Такси")
     = @Bot.predict Tables.basic Db.init 8 (lit "Такси").
Proof.
  refine (@feedback_is_local Tables.basic Db.init 7 (lit "такси") (lit "transport_taxi")
            (lit "transport_public") 8 (lit "Такси") _).
  intros Heq. discriminate (f_equal fst Heq).
Defined.

Lemma group_settings_well_set_witness :
  @well_set Tables.basic HostTables.basic example_settings example_group.
Proof.
  refine (@group_settings_well_set Tables.basic HostTables.basic example_settings
            example_state 7 example_group _ example_state_group).
  apply App.reachable_step, App.reachable_init.
Defined.

Lemma settings_change_by_command_witness :
  exists group',
    GroupDb.get_group_settings
      (App.groups
         (snd (@App.handle Tables.basic HostTables.basic example_settings example_state
                 (App.CmdRemind (example_envelope "/remind 09:30") (Some (lit "09:30"))))))
      7 = Some group'
    /\ kept (App.CmdRemind (example_envelope "/remind 09:30") (Some (lit "09:30")))
         example_group group'.
Proof.
  exact (@settings_change_by_command Tables.basic HostTables.basic example_settings
           example_state
           (App.CmdRemind (example_envelope "/remind 09:30") (Some (lit "09:30")))
           7 example_group example_state_group).
Defined.

Lemma confirmed_settings_need_a_row_witness :
  let r := @App.handle Tables.basic HostTables.basic example_settings App.init
             (App.CmdRemind (example_envelope "/remind 09:30") (Some (lit "09:30"))) in
  fst r = App.Done [App.ReminderTimeUpdated (lit "09:30")]
  /\ snd r = App.init
  /\ exists panel,
       fst (@App.handle Tables.basic HostTables.basic example_settings (snd r)
              (App.CmdSettings (example_envelope "/remind 09:30")))
       = App.Done [App.SettingsPanel panel]
       /\ App.panel_reminder_time panel = lit "21:00".
Proof.
  destruct (proj1 (@confirmed_settings_need_a_row Tables.basic HostTables.basic
                     example_settings App.init (example_envelope "/remind 09:30")
                     (lit "09:30") ltac:(vm_compute; reflexivity)
                     ltac:(vm_compute; discriminate))
              ltac:(vm_compute; reflexivity)) as (Hr & Hs & Hp).
  exact (conj Hr (conj (Hs eq_refl) Hp)).
Defined.

Lemma settings_keyboard_round_trip_witness :
  exists text payload,
    nth 0 (nth 1 (App.settings_keyboard 7 true) []) (App.UrlButton [] [])
    = App.CallbackButton text payload
    /\ forall chat_id, chat_id <> 7 ->
         App.on_settings_callback (R := Tables.basic) example_settings example_state
           {| App.data := Some payload; App.message_chat_id := chat_id |}
         = (App.Done [App.OtherChat], example_state).
Proof.
  destruct (settings_keyboard_round_trip example_settings example_state 7 example_group
              (nth 1 (App.settings_keyboard 7 true) [])
              (nth 0 (nth 1 (App.settings_keyboard 7 true) []) (App.UrlButton [] []))
              example_state_group
              ltac:(apply list_elem_of_further, list_elem_of_here)
              ltac:(apply list_elem_of_here))
    as (text & payload & Hb & Hother & _).
  exact (ex_intro _ text (ex_intro _ payload (conj Hb Hother))).
Defined.

Lemma load_settings_in_range_witness :
  @FullConfig.load_settings Tables.basic HostTables.basic example_environ
  = Some example_settings
  /\ (0 <= FullConfig.auto_category_threshold example_settings <= 1)%Q
  /\ 15 <= FullConfig.reminder_check_interval_sec example_settings <= 3600.
Proof.
  assert (Hload : @FullConfig.load_settings Tables.basic HostTables.basic example_environ
                  = Some example_settings) by (vm_compute; reflexivity).
  destruct (proj2 (@load_settings_in_range Tables.basic HostTables.basic example_environ)
              example_settings Hload) as (_ & Ht & Hi & _).
  exact (conj Hload (conj Ht Hi)).
Defined.

End MoreExamples.
